(** * Vapor: the metered LLM gateway

    A shallow embedding of the protocol-translation and billing core of the
    gateway: [src/providers/adapter.js] (format adapters and the token
    estimator), [src/lib/kv.js] (the balance and usage ledger) and
    [functions/v1/index.js] (cost, the SSE stream transformer and the
    chat-completions handler).

    Conventions of the embedding.
    - A JavaScript string is the list of its UTF-16 code units.
    - A JSON-shaped JavaScript value is a [value]; Numbers are the integers
      (plus NaN), which is what token counts and lengths are.
    - A cost is computed as the source computes it, in IEEE 754 binary64
      ([Binary64]).  A stored amount (a balance, a recorded cost) is kept as
      the exact rational value of its Number; amounts are compared by
      their values, which is how the Numbers compare, and added exactly
      (the rounding of a sum of stored amounts is not modelled); a
      configured price is the decimal it was written as.
    - Built-ins whose result the gateway does not control are parameters:
      [JSON.parse], [String.prototype.toLowerCase], the clock and the
      upstream vendor.  A reference instance, used to evaluate the code on
      concrete inputs, is given for the first two.  [TextDecoder] is
      modelled in full, after the Encoding standard.
    - What [controller.enqueue] receives is kept as the value that
      [JSON.stringify] is applied to, not as its bytes. *)

From Stdlib Require Import ZArith QArith Qround Qabs List Ascii String Lia.
From Stdlib Require Import DecimalString.
From Stdlib Require Import SpecFloat.
From stdpp Require Import gmap.
Import ListNotations.

Set Warnings "-register-all".
Open Scope Z_scope.

(** ** JavaScript strings and values *)

Module JS.

Definition jsstring := list N.

(** An ASCII literal as a JavaScript string. *)
Definition lit (s : string) : jsstring :=
  map N_of_ascii (list_ascii_of_string s).

Fixpoint streq (a b : jsstring) : bool :=
  match a, b with
  | [], [] => true
  | x :: a', y :: b' => N.eqb x y && streq a' b'
  | _, _ => false
  end.

(** [s.startsWith(p)] *)
Fixpoint startsWith (p s : jsstring) : bool :=
  match p, s with
  | [], _ => true
  | x :: p', y :: s' => N.eqb x y && startsWith p' s'
  | _ :: _, [] => false
  end.

(** [s.slice(n)] for a non-negative [n] *)
Definition slice (n : nat) (s : jsstring) : jsstring := skipn n s.

(** White space and line terminators, as [String.prototype.trim] strips. *)
Definition is_space (c : N) : bool :=
  ((9 <=? c) && (c <=? 13) || (c =? 32) || (c =? 160) || (c =? 5760)
   || (8192 <=? c) && (c <=? 8202) || (c =? 8232) || (c =? 8233)
   || (c =? 8239) || (c =? 8287) || (c =? 12288) || (c =? 65279))%N.

Fixpoint trimStart (s : jsstring) : jsstring :=
  match s with
  | c :: r => if is_space c then trimStart r else s
  | [] => []
  end.

Definition trim (s : jsstring) : jsstring :=
  rev (trimStart (rev (trimStart s))).

(** [s.split('\n')]: never empty, the last element is the text after the
    last line feed. *)
Fixpoint split_lines (s : jsstring) : list jsstring :=
  match s with
  | [] => [[]]
  | c :: r =>
      if (c =? 10)%N then [] :: split_lines r
      else match split_lines r with
           | h :: t => (c :: h) :: t
           | [] => [[c]]
           end
  end.

Inductive value :=
| VUndef
| VNull
| VBool (b : bool)
| VNum (z : Z)
| VNaN
| VStr (s : jsstring)
| VArr (l : list value)
| VObj (fields : list (jsstring * value)).

Definition str (s : string) : value := VStr (lit s).

(** [v === 's'] for a string literal [s] *)
Definition is_str (v : value) (s : string) : bool :=
  match v with VStr t => streq t (lit s) | _ => false end.

(** ToBoolean *)
Definition truthy (v : value) : bool :=
  match v with
  | VUndef | VNull | VNaN => false
  | VBool b => b
  | VNum z => negb (z =? 0)
  | VStr s => match s with [] => false | _ => true end
  | VArr _ | VObj _ => true
  end.

(** [a || b] *)
Definition js_or (a b : value) : value := if truthy a then a else b.

Definition nullish (v : value) : bool :=
  match v with VUndef | VNull => true | _ => false end.

Fixpoint assoc (k : jsstring) (fs : list (jsstring * value)) : value :=
  match fs with
  | [] => VUndef
  | (k', v) :: r => if streq k k' then v else assoc k r
  end.

(** [o[k] = v] on the own properties of an object: an existing key keeps its
    place, a new one goes last. *)
Fixpoint set_assoc (k : jsstring) (v : value) (fs : list (jsstring * value))
  : list (jsstring * value) :=
  match fs with
  | [] => [(k, v)]
  | (k', v') :: r => if streq k k' then (k, v) :: r else (k', v') :: set_assoc k v r
  end.

Definition length_key : jsstring := lit "length".

(** [v.k] for a named (not index-like) property [k] of a value that is
    neither [null] nor [undefined]: own properties of objects, and the
    [length] of strings and arrays. *)
Definition prop (k : jsstring) (v : value) : value :=
  match v with
  | VObj fs => assoc k fs
  | VStr s => if streq k length_key then VNum (Z.of_nat (length s)) else VUndef
  | VArr l => if streq k length_key then VNum (Z.of_nat (length l)) else VUndef
  | _ => VUndef
  end.

(** [v.k]: a TypeError ([None]) on [null] and [undefined]. *)
Definition get (k : string) (v : value) : option value :=
  if nullish v then None else Some (prop (lit k) v).

(** [v?.k] *)
Definition getq (k : string) (v : value) : value :=
  if nullish v then VUndef else prop (lit k) v.

(** [v?.[0]] *)
Definition first (v : value) : value :=
  match v with
  | VArr (x :: _) => x
  | VStr (c :: _) => VStr [c]
  | VObj fs => assoc (lit "0") fs
  | _ => VUndef
  end.

Definition decimal (z : Z) : jsstring :=
  lit (NilZero.string_of_int (Z.to_int z)).

Fixpoint concat_sep (sep : jsstring) (l : list jsstring) : jsstring :=
  match l with
  | [] => []
  | [x] => x
  | x :: r => x ++ sep ++ concat_sep sep r
  end.

(** ToString *)
Fixpoint ToString (v : value) : jsstring :=
  match v with
  | VUndef => lit "undefined"
  | VNull => lit "null"
  | VBool true => lit "true"
  | VBool false => lit "false"
  | VNum z => decimal z
  | VNaN => lit "NaN"
  | VStr s => s
  | VArr l =>
      concat_sep (lit ",")
        (map (fun x => if nullish x then [] else ToString x) l)
  | VObj _ => lit "[object Object]"
  end.

(** [l.join(sep)] *)
Definition join (sep : jsstring) (l : list value) : jsstring :=
  concat_sep sep (map (fun x => if nullish x then [] else ToString x) l).

Definition is_digit (c : N) : bool := ((48 <=? c) && (c <=? 57))%N.

Fixpoint digits_value (acc : Z) (s : jsstring) : option Z :=
  match s with
  | [] => Some acc
  | c :: r => if is_digit c then digits_value (10 * acc + Z.of_N (c - 48)) r
              else None
  end.

(** StringToNumber on the integer literals: blank is 0, an optionally signed
    run of decimal digits is its value, anything else is NaN here. *)
Definition StringToNumber (s : jsstring) : value :=
  match trim s with
  | [] => VNum 0
  | 45%N :: ((_ :: _) as r) =>
      match digits_value 0 r with Some z => VNum (- z) | None => VNaN end
  | 43%N :: ((_ :: _) as r) =>
      match digits_value 0 r with Some z => VNum z | None => VNaN end
  | r => match digits_value 0 r with Some z => VNum z | None => VNaN end
  end.

(** ToNumber *)
Definition ToNumber (v : value) : value :=
  match v with
  | VUndef | VNaN => VNaN
  | VNull => VNum 0
  | VBool b => VNum (if b then 1 else 0)
  | VNum z => VNum z
  | VStr s => StringToNumber s
  | VArr _ | VObj _ => StringToNumber (ToString v)
  end.

(** [a + b] *)
Definition js_add (a b : value) : value :=
  let prim v := match v with VArr _ | VObj _ => VStr (ToString v) | _ => v end in
  match prim a, prim b with
  | VStr x, y => VStr (x ++ ToString y)
  | x, VStr y => VStr (ToString x ++ y)
  | x, y =>
      match ToNumber x, ToNumber y with
      | VNum m, VNum n => VNum (m + n)
      | _, _ => VNaN
      end
  end.

(** [Math.ceil(v / 4)] *)
Definition ceil_quarter (v : value) : value :=
  match ToNumber v with
  | VNum n => VNum ((n + 3) / 4)
  | _ => VNaN
  end.

(** The built-ins the gateway calls but does not define.  The clock is
    read as one instant for the whole of a request. *)
Class Platform := {
  JSON_parse : jsstring -> option value;   (* [None]: a SyntaxError *)
  toLowerCase : jsstring -> jsstring;
  Date_now : Z;                            (* milliseconds *)
  today : jsstring                         (* the date as YYYYMMDD *)
}.

(** *** [new TextDecoder().decode(bytes)]

    The UTF-8 decoder of the Encoding standard, run to the end of its input:
    a leading byte order mark is dropped, every ill-formed sequence and a
    sequence cut short by the end of the input decodes to U+FFFD. *)

Record utf8_state := {
  u_cp : N;       (* code point being assembled *)
  u_needed : nat; (* continuation bytes still expected *)
  u_lower : N;
  u_upper : N
}.

Definition utf8_init : utf8_state :=
  {| u_cp := 0; u_needed := 0; u_lower := 128; u_upper := 191 |}.

Definition replacement : N := 65533.

(** A byte met with no sequence pending: the code point it decodes to, if
    any, and the next state. *)
Definition utf8_lead (b : N) : list N * utf8_state :=
  (if b <=? 127 then ([b], utf8_init)
   else if (194 <=? b) && (b <=? 223) then
     ([], {| u_cp := N.land b 31; u_needed := 1; u_lower := 128; u_upper := 191 |})
   else if (224 <=? b) && (b <=? 239) then
     ([], {| u_cp := N.land b 15; u_needed := 2;
             u_lower := if b =? 224 then 160 else 128;
             u_upper := if b =? 237 then 159 else 191 |})
   else if (240 <=? b) && (b <=? 244) then
     ([], {| u_cp := N.land b 7; u_needed := 3;
             u_lower := if b =? 240 then 144 else 128;
             u_upper := if b =? 244 then 143 else 191 |})
   else ([replacement], utf8_init))%N.

Definition utf8_step (st : utf8_state) (b : N) : list N * utf8_state :=
  match u_needed st with
  | O => utf8_lead b
  | S k =>
      if ((u_lower st <=? b) && (b <=? u_upper st))%N then
        let cp := N.lor (N.shiftl (u_cp st) 6) (N.land b 63) in
        match k with
        | O => ([cp], utf8_init)
        | S _ => ([], {| u_cp := cp; u_needed := k; u_lower := 128; u_upper := 191 |})
        end
      else
        (* the byte is put back and read again with nothing pending *)
        let '(out, st') := utf8_lead b in (replacement :: out, st')
  end.

Fixpoint utf8_run (st : utf8_state) (bytes : list N) : list N :=
  match bytes with
  | [] => match u_needed st with O => [] | S _ => [replacement] end
  | b :: r => let '(out, st') := utf8_step st b in out ++ utf8_run st' r
  end.

(** A code point as UTF-16 code units. *)
Definition utf16 (cp : N) : jsstring :=
  (if cp <? 65536 then [cp]
   else let c := cp - 65536 in [55296 + N.shiftr c 10; 56320 + N.land c 1023])%N.

Definition strip_bom (bytes : list N) : list N :=
  match bytes with
  | b0 :: b1 :: b2 :: r =>
      if ((b0 =? 239) && (b1 =? 187) && (b2 =? 191))%N then r else bytes
  | _ => bytes
  end.

Definition TextDecoder_decode (bytes : list N) : jsstring :=
  flat_map utf16 (utf8_run utf8_init (strip_bom bytes)).

End JS.

(** ** Numbers in arithmetic: IEEE 754 binary64, rounding to nearest even *)

Module Binary64.

Definition prec : Z := 53.
Definition emax : Z := 1024.

Definition Number := spec_float.

Definition zero : Number := S754_zero false.

(** An integer as a Number: exact below 2^53, rounded above. *)
Definition of_Z (z : Z) : Number := binary_normalize prec emax z 0 false.

Definition add : Number -> Number -> Number := SFadd prec emax.
Definition mul : Number -> Number -> Number := SFmul prec emax.
Definition div : Number -> Number -> Number := SFdiv prec emax.

(** [x < y] *)
Definition ltb : Number -> Number -> bool := SFltb.

(** The Number a rational stands for: the nearest one.  A configured
    price or a balance is given as the decimal it was written as (of at
    most 15 digits) or as the exact value of the stored Number; numerator
    and denominator are then Numbers themselves, and their quotient,
    rounded once, is the Number that [JSON.parse] reads. *)
Definition of_Q (q : Q) : Number := div (of_Z (Qnum q)) (of_Z (Zpos (Qden q))).

(** [x || 0] *)
Definition or_zero (x : option Number) : Number :=
  match x with
  | Some (S754_finite s m e) => S754_finite s m e
  | Some (S754_infinity s) => S754_infinity s
  | _ => zero
  end.

Definition is_finite (x : Number) : bool :=
  match x with
  | S754_zero _ | S754_finite _ _ _ => true
  | _ => false
  end.

Definition is_zero (x : Number) : bool :=
  match x with S754_zero _ => true | _ => false end.

(** NaN, or with the sign bit clear. *)
Definition unsigned (x : Number) : bool :=
  match x with
  | S754_zero s | S754_infinity s | S754_finite s _ _ => negb s
  | S754_nan => true
  end.

(** [m * 2^e] *)
Definition scaled (m e : Z) : Q :=
  if 0 <=? e then inject_Z (m * 2 ^ e) else m # Z.to_pos (2 ^ (- e)).

(** The exact value of a finite Number.  An infinity is given the value
    2^1024 with its sign, beyond every finite Number, so that comparing it
    with a finite amount goes as the comparison of the Numbers goes; NaN,
    which no comparison orders, is outside what [value] describes and is
    given 0. *)
Definition value (x : Number) : Q :=
  match x with
  | S754_zero _ | S754_nan => 0%Q
  | S754_infinity s => scaled (if s then -1 else 1) emax
  | S754_finite s m e => scaled (if s then Zneg m else Zpos m) e
  end.

End Binary64.

(** ** Reference instances of the platform built-ins *)

Module Ref.
Import JS.

(** *** [JSON.parse] on JSON texts whose numbers are integer literals *)

Definition is_ws (c : N) : bool :=
  ((c =? 32) || (c =? 9) || (c =? 10) || (c =? 13))%N.

Fixpoint skip_ws (s : jsstring) : jsstring :=
  match s with
  | c :: r => if is_ws c then skip_ws r else s
  | [] => []
  end.

Definition hex_digit (c : N) : option N :=
  (if (48 <=? c) && (c <=? 57) then Some (c - 48)
   else if (97 <=? c) && (c <=? 102) then Some (c - 87)
   else if (65 <=? c) && (c <=? 70) then Some (c - 55)
   else None)%N.

(** The characters of a string literal, after its opening quote. *)
Fixpoint parse_chars (s : jsstring) : option (jsstring * jsstring) :=
  match s with
  | [] => None
  | 34%N :: r => Some ([], r)
  | 92%N :: 117%N :: a :: b :: c :: d :: r =>
      match hex_digit a, hex_digit b, hex_digit c, hex_digit d, parse_chars r with
      | Some a, Some b, Some c, Some d, Some (t, r') =>
          Some ((4096 * a + 256 * b + 16 * c + d)%N :: t, r')
      | _, _, _, _, _ => None
      end
  | 92%N :: e :: r =>
      let unescaped :=
        (if e =? 34 then Some 34 else if e =? 92 then Some 92
         else if e =? 47 then Some 47 else if e =? 98 then Some 8
         else if e =? 102 then Some 12 else if e =? 110 then Some 10
         else if e =? 114 then Some 13 else if e =? 116 then Some 9
         else None)%N in
      match unescaped, parse_chars r with
      | Some c, Some (t, r') => Some (c :: t, r')
      | _, _ => None
      end
  | c :: r =>
      if (c <? 32)%N then None
      else match parse_chars r with
           | Some (t, r') => Some (c :: t, r')
           | None => None
           end
  end.

Fixpoint span_digits (s : jsstring) : jsstring * jsstring :=
  match s with
  | c :: r => if is_digit c then let '(d, r') := span_digits r in (c :: d, r')
              else ([], s)
  | [] => ([], [])
  end.

(** An unsigned integer literal: no leading zero, no fraction, no exponent. *)
Definition parse_nat (s : jsstring) : option (Z * jsstring) :=
  match span_digits s with
  | ([], _) => None
  | (48%N :: _ :: _, _) => None
  | (d, r) =>
      match r with
      | 46%N :: _ | 101%N :: _ | 69%N :: _ => None
      | _ => match digits_value 0 d with
             | Some z => Some (z, r)
             | None => None
             end
      end
  end.

Fixpoint parse_value (fuel : nat) (s : jsstring) {struct fuel}
  : option (value * jsstring) :=
  match fuel with
  | O => None
  | S f =>
      match skip_ws s with
      | 110%N :: 117%N :: 108%N :: 108%N :: r => Some (VNull, r)
      | 116%N :: 114%N :: 117%N :: 101%N :: r => Some (VBool true, r)
      | 102%N :: 97%N :: 108%N :: 115%N :: 101%N :: r => Some (VBool false, r)
      | 34%N :: r =>
          match parse_chars r with
          | Some (t, r') => Some (VStr t, r')
          | None => None
          end
      | 45%N :: r =>
          match parse_nat r with
          | Some (z, r') => Some (VNum (- z), r')
          | None => None
          end
      | 91%N :: r =>
          match skip_ws r with
          | 93%N :: r' => Some (VArr [], r')
          | _ => match parse_elements f r with
                 | Some (l, r') => Some (VArr l, r')
                 | None => None
                 end
          end
      | 123%N :: r =>
          match skip_ws r with
          | 125%N :: r' => Some (VObj [], r')
          | _ => match parse_members f [] r with
                 | Some (fs, r') => Some (VObj fs, r')
                 | None => None
                 end
          end
      | r => match parse_nat r with
             | Some (z, r') => Some (VNum z, r')
             | None => None
             end
      end
  end
with parse_elements (fuel : nat) (s : jsstring) {struct fuel}
  : option (list value * jsstring) :=
  match fuel with
  | O => None
  | S f =>
      match parse_value f s with
      | Some (v, r) =>
          match skip_ws r with
          | 93%N :: r' => Some ([v], r')
          | 44%N :: r' =>
              match parse_elements f r' with
              | Some (l, r'') => Some (v :: l, r'')
              | None => None
              end
          | _ => None
          end
      | None => None
      end
  end
with parse_members (fuel : nat) (acc : list (jsstring * value)) (s : jsstring)
  {struct fuel} : option (list (jsstring * value) * jsstring) :=
  match fuel with
  | O => None
  | S f =>
      match skip_ws s with
      | 34%N :: r =>
          match parse_chars r with
          | Some (k, r1) =>
              match skip_ws r1 with
              | 58%N :: r2 =>
                  match parse_value f r2 with
                  | Some (v, r3) =>
                      let acc' := set_assoc k v acc in
                      match skip_ws r3 with
                      | 125%N :: r4 => Some (acc', r4)
                      | 44%N :: r4 => parse_members f acc' r4
                      | _ => None
                      end
                  | None => None
                  end
              | _ => None
              end
          | None => None
          end
      | _ => None
      end
  end.

Definition JSON_parse (s : jsstring) : option value :=
  match parse_value (2 * length s + 2) s with
  | Some (v, r) => match skip_ws r with [] => Some v | _ => None end
  | None => None
  end.

(** *** [String.prototype.toLowerCase] on ASCII letters; other code units
    are left as they are. *)
Definition toLowerCase (s : jsstring) : jsstring :=
  map (fun c => if ((65 <=? c) && (c <=? 90))%N then (c + 32)%N else c) s.

End Ref.

(** ** [src/providers/adapter.js] *)

Module Adapter.
Import JS.

Module ProviderType.
Definition OPENAI : jsstring := lit "openai".
Definition ANTHROPIC : jsstring := lit "anthropic".
Definition GEMINI : jsstring := lit "gemini".
End ProviderType.

(** The canonical request.  [content] is a string or a list of typed parts;
    the sampling parameters are carried through as they come. *)
Record Part := { part_type : jsstring; part_text : option jsstring }.

Inductive Content :=
| CString (s : jsstring)
| CParts (ps : list Part).

Record Message := { role : jsstring; content : Content }.

Record GPart := { gpart_text : option jsstring }.
Record GContent := { gparts : option (list GPart) }.

Record Body := {
  model : option jsstring;
  messages : option (list Message);
  contents : option (list GContent);
  stream : value;
  max_tokens : value;
  temperature : value;
  top_p : value;
  stop : value;
  anthropic_version : value
}.

(** [String(content)], as [+] applies it: every part of an array prints as
    [[object Object]]. *)
Definition content_string (c : Content) : jsstring :=
  match c with
  | CString s => s
  | CParts ps => concat_sep (lit ",") (map (fun _ => lit "[object Object]") ps)
  end.

Definition detectRequestFormat (body : Body) : jsstring :=
  let array_content :=
    match messages body with
    | Some ({| content := CParts _ |} :: _) => true
    | _ => false
    end in
  if truthy (anthropic_version body) || array_content then ProviderType.ANTHROPIC
  else match contents body with
       | Some _ => ProviderType.GEMINI
       | None => ProviderType.OPENAI
       end.

Record AnthropicMessage := { a_role : jsstring; a_content : Content }.

Record AnthropicRequest := {
  a_model : option jsstring;
  a_max_tokens : value;
  a_system : option jsstring;
  a_messages : list AnthropicMessage;
  a_stream : value;
  a_temperature : value;
  a_top_p : value;
  a_stop_sequences : value
}.

Record GeminiPart := { g_text : Content }.
Record GeminiContent := { g_role : jsstring; g_parts : list GeminiPart }.

Record GenerationConfig := {
  maxOutputTokens : value;
  g_temperature : value;
  topP : value;
  stopSequences : value
}.

Record GeminiRequest := {
  g_contents : list GeminiContent;
  systemInstruction : option jsstring;
  generationConfig : GenerationConfig
}.

(** The [for] loop over [body.messages] shared by the two translations:
    system messages are joined with a line feed, the others become turns. *)
Fixpoint collect {T} (turn : Message -> T) (msgs : list Message)
  (system : jsstring) (turns : list T) : jsstring * list T :=
  match msgs with
  | [] => (system, turns)
  | msg :: rest =>
      if streq (role msg) (lit "system") then
        collect turn rest
          (system ++ (match system with [] => [] | _ => [10%N] end)
                  ++ content_string (content msg))
          turns
      else collect turn rest system (turns ++ [turn msg])
  end.

(** [body.stop ? (Array.isArray(body.stop) ? body.stop : [body.stop]) : undefined] *)
Definition stop_array (stop : value) : value :=
  if truthy stop then match stop with VArr _ => stop | _ => VArr [stop] end
  else VUndef.

Definition nonempty (s : jsstring) : option jsstring :=
  match s with [] => None | _ => Some s end.

Definition toAnthropic (body : Body) : AnthropicRequest :=
  let '(system, msgs) :=
    collect
      (fun msg =>
         {| a_role := if streq (role msg) (lit "assistant")
                      then lit "assistant" else lit "user";
            a_content := content msg |})
      (default [] (messages body)) [] [] in
  {| a_model := model body;
     a_max_tokens := js_or (max_tokens body) (VNum 4096);
     a_system := nonempty system;
     a_messages := msgs;
     a_stream := js_or (stream body) (VBool false);
     a_temperature := temperature body;
     a_top_p := top_p body;
     a_stop_sequences := stop_array (stop body) |}.

Definition toGemini (body : Body) : GeminiRequest :=
  let '(systemInstruction, contents) :=
    collect
      (fun msg =>
         {| g_role := if streq (role msg) (lit "assistant")
                      then lit "model" else lit "user";
            g_parts := [{| g_text := content msg |}] |})
      (default [] (messages body)) [] [] in
  {| g_contents := contents;
     systemInstruction := nonempty systemInstruction;
     generationConfig :=
       {| maxOutputTokens := max_tokens body;
          g_temperature := temperature body;
          topP := top_p body;
          stopSequences := stop_array (stop body) |} |}.

(** [xs?.map(x => x.text).join('') || '']; [None] is a TypeError: [xs] is
    there but is no array, or one of its elements is [null]. *)
Definition texts_joined (xs : value) : option jsstring :=
  match xs with
  | VUndef | VNull => Some []
  | VArr l => (fun ts => join [] ts) <$> mapM (get "text") l
  | _ => None
  end.

Section WithPlatform.
Context `{Platform}.

(** [Math.floor(Date.now() / 1000)] *)
Definition created_now : value := VNum (Date_now / 1000).

Definition anthropicToOpenAI (response : value) : option value :=
  content_v ← get "content" response;
  text ← texts_joined content_v;
  let stop_reason := prop (lit "stop_reason") response in
  let usage := prop (lit "usage") response in
  let input_tokens := js_or (getq "input_tokens" usage) (VNum 0) in
  let output_tokens := js_or (getq "output_tokens" usage) (VNum 0) in
  Some (VObj
    [ (lit "id", prop (lit "id") response);
      (lit "object", str "chat.completion");
      (lit "created", created_now);
      (lit "model", prop (lit "model") response);
      (lit "choices", VArr [VObj
         [ (lit "index", VNum 0);
           (lit "message", VObj [ (lit "role", str "assistant");
                                  (lit "content", VStr text) ]);
           (lit "finish_reason",
             if is_str stop_reason "end_turn" then str "stop" else stop_reason) ]]);
      (lit "usage", VObj
         [ (lit "prompt_tokens", input_tokens);
           (lit "completion_tokens", output_tokens);
           (lit "total_tokens", js_add input_tokens output_tokens) ]) ]).

(** [candidate?.finishReason === 'STOP' ? 'stop'
      : candidate?.finishReason?.toLowerCase()] *)
Definition gemini_finish_reason (candidate : value) : option value :=
  let finishReason := getq "finishReason" candidate in
  if is_str finishReason "STOP" then Some (str "stop")
  else match finishReason with
       | VStr s => Some (VStr (toLowerCase s))
       | VUndef | VNull => Some VUndef
       | _ => None
       end.

Definition geminiToOpenAI (response : value) : option value :=
  candidates ← get "candidates" response;
  let candidate := first candidates in
  text ← texts_joined (getq "parts" (getq "content" candidate));
  finish_reason ← gemini_finish_reason candidate;
  let usageMetadata := prop (lit "usageMetadata") response in
  Some (VObj
    [ (lit "id", VStr (lit "gemini-" ++ decimal Date_now));
      (lit "object", str "chat.completion");
      (lit "created", created_now);
      (lit "model", js_or (prop (lit "modelVersion") response) (str "gemini"));
      (lit "choices", VArr [VObj
         [ (lit "index", VNum 0);
           (lit "message", VObj [ (lit "role", str "assistant");
                                  (lit "content", VStr text) ]);
           (lit "finish_reason", finish_reason) ]]);
      (lit "usage", VObj
         [ (lit "prompt_tokens", js_or (getq "promptTokenCount" usageMetadata) (VNum 0));
           (lit "completion_tokens",
             js_or (getq "candidatesTokenCount" usageMetadata) (VNum 0));
           (lit "total_tokens",
             js_or (getq "totalTokenCount" usageMetadata) (VNum 0)) ]) ]).

End WithPlatform.

(** *** The token estimator *)

Definition is_cjk (c : N) : bool := ((19968 <=? c) && (c <=? 40959))%N.

Definition estimateTokens (text : option jsstring) : Z :=
  match text with
  | None | Some [] => 0
  | Some text =>
      let chineseChars := Z.of_nat (length (List.filter is_cjk text)) in
      let otherChars := Z.of_nat (length text) - chineseChars in
      Qceiling (inject_Z chineseChars / (3 # 2) + inject_Z otherChars / 4)
  end.

Definition estimateInputTokens (body : Body) : Z :=
  (* OpenAI format *)
  let total :=
    match messages body with
    | Some msgs =>
        fold_left
          (fun total msg =>
             match content msg with
             | CString s => total + estimateTokens (Some s)
             | CParts ps =>
                 fold_left
                   (fun total part =>
                      if streq (part_type part) (lit "text")
                      then total + estimateTokens (part_text part) else total)
                   ps total
             end)
          msgs 0
    | None => 0
    end in
  (* Gemini format *)
  match contents body with
  | Some cs =>
      fold_left
        (fun total c =>
           fold_left (fun total part => total + estimateTokens (gpart_text part))
             (default [] (gparts c)) total)
        cs total
  | None => total
  end.

(** *** The per-event stream helpers *)

Definition chunk_of (fields : list (jsstring * value)) (delta finish_reason : value)
  : list (jsstring * value) :=
  fields ++
  [ (lit "object", str "chat.completion.chunk");
    (lit "choices", VArr [VObj
       [ (lit "index", VNum 0);
         (lit "delta", delta);
         (lit "finish_reason", finish_reason) ]]) ].

(** [transformGeminiStreamChunk(chunk)]; [None] is the TypeError on a
    [null] or [undefined] chunk. *)
Definition transformGeminiStreamChunk (chunk : value) : option value :=
  candidates ← get "candidates" chunk;
  let candidate := first candidates in
  let text :=
    js_or (getq "text" (first (getq "parts" (getq "content" candidate)))) (VStr []) in
  let finishReason := getq "finishReason" candidate in
  Some (VObj (chunk_of [] (VObj [(lit "content", text)])
                (if is_str finishReason "STOP" then str "stop" else VNull))).

Section StreamHelpers.
Context `{Platform}.

(** [transformAnthropicStream(chunk)]: what the generator yields, or [None]
    when it throws (the text is no JSON, the event is [null], or a
    message_start event has no message). *)
Definition transformAnthropicStream (chunk : jsstring) : option (list value) :=
  data ← JSON_parse chunk;
  type ← get "type" data;
  if is_str type "message_start" then
    let message := prop (lit "message") data in
    id ← get "id" message;
    model ← get "model" message;
    Some [VObj
      [ (lit "id", id);
        (lit "object", str "chat.completion.chunk");
        (lit "created", created_now);
        (lit "model", model);
        (lit "choices", VArr [VObj
           [ (lit "index", VNum 0);
             (lit "delta", VObj [ (lit "role", str "assistant");
                                  (lit "content", VStr []) ]);
             (lit "finish_reason", VNull) ]]) ]]
  else if is_str type "content_block_delta" then
    let delta := prop (lit "delta") data in
    if is_str (getq "type" delta) "text_delta" then
      Some [VObj (chunk_of [] (VObj [(lit "content", prop (lit "text") delta)]) VNull)]
    else Some []
  else if is_str type "message_delta" then
    let stop_reason := getq "stop_reason" (prop (lit "delta") data) in
    let usage := prop (lit "usage") data in
    Some [VObj
      (chunk_of [] (VObj [])
         (if is_str stop_reason "end_turn" then str "stop" else stop_reason)
       ++ [ (lit "usage", VObj
              [ (lit "prompt_tokens", js_or (getq "input_tokens" usage) (VNum 0));
                (lit "completion_tokens",
                  js_or (getq "output_tokens" usage) (VNum 0)) ]) ])]
  else if is_str type "message_stop" then
    Some [VObj [(lit "done", VBool true)]]
  else Some [].

End StreamHelpers.

End Adapter.

(** ** [src/lib/kv.js]: the key-value store behind the gateway *)

Module KV.
Import JS.

Definition Qltb (x y : Q) : bool := negb (Qle_bool y x).

Record UserData := {
  uid : jsstring;
  balance : Q;
  total_consumed : Q;
  is_blocked : bool;
  updated_at : Z
}.

Record ApiKeyData := {
  key_uid : jsstring;
  key_enabled : bool;
  last_used : Z
}.

Record ModelConfig := {
  model_id : jsstring;
  upstream_model : option jsstring;
  channel_id : jsstring;
  input_price : option Q;
  output_price : option Q;
  enabled : bool
}.

Record ChannelConfig := {
  provider : jsstring;
  base_url : option jsstring;
  api_key : jsstring;
  channel_enabled : bool
}.

Record ModelUsage := {
  m_requests : Z;
  m_input_tokens : Z;
  m_output_tokens : Z;
  m_cost : Q
}.

Record UsageData := {
  requests : Z;
  input_tokens : Z;
  output_tokens : Z;
  cost : Q;
  by_model : gmap jsstring ModelUsage
}.

(** The namespace, one map per key prefix: [user:], [apikey:],
    [usage:{uid}:{YYYYMMDD}], [model:] and [channel:]. *)
Record Store := {
  users : gmap jsstring UserData;
  apikeys : gmap jsstring ApiKeyData;
  usage : gmap (jsstring * jsstring) UsageData;
  models : gmap jsstring ModelConfig;
  channels : gmap jsstring ChannelConfig
}.

Definition with_users (kv : Store) (u : gmap jsstring UserData) : Store :=
  {| users := u; apikeys := apikeys kv; usage := usage kv;
     models := models kv; channels := channels kv |}.

Definition with_apikeys (kv : Store) (a : gmap jsstring ApiKeyData) : Store :=
  {| users := users kv; apikeys := a; usage := usage kv;
     models := models kv; channels := channels kv |}.

Definition with_usage (kv : Store) (u : gmap (jsstring * jsstring) UsageData) : Store :=
  {| users := users kv; apikeys := apikeys kv; usage := u;
     models := models kv; channels := channels kv |}.

Section WithPlatform.
Context `{Platform}.

Definition getUser (kv : Store) (uid : jsstring) : option UserData :=
  users kv !! uid.

Definition setUser (kv : Store) (id : jsstring) (data : UserData) : Store :=
  with_users kv
    (<[id := {| uid := uid data; balance := balance data;
                total_consumed := total_consumed data;
                is_blocked := is_blocked data; updated_at := Date_now |}]>
       (users kv)).

(** [updateBalance(uid, delta)]; [None] when it throws: no such user, or the
    new balance would be negative. *)
Definition updateBalance (kv : Store) (uid : jsstring) (delta : Q) : option Store :=
  match getUser kv uid with
  | None => None
  | Some user =>
      let newBalance := (balance user + delta)%Q in
      if Qltb newBalance 0 then None
      else
        Some (setUser kv uid
          {| uid := KV.uid user;
             balance := newBalance;
             total_consumed :=
               if Qltb delta 0 then (total_consumed user + Qabs delta)%Q
               else total_consumed user;
             is_blocked := is_blocked user;
             updated_at := updated_at user |})
  end.

Definition getApiKey (kv : Store) (key : jsstring) : option ApiKeyData :=
  apikeys kv !! key.

(** [validateApiKey(key)]: an enabled key has its last use stamped before
    its user is looked up. *)
Definition validateApiKey (kv : Store) (key : jsstring)
  : option (ApiKeyData * UserData) * Store :=
  match getApiKey kv key with
  | None => (None, kv)
  | Some keyData =>
      if negb (key_enabled keyData) then (None, kv)
      else
        let keyData := {| key_uid := key_uid keyData;
                          key_enabled := key_enabled keyData;
                          last_used := Date_now |} in
        let kv := with_apikeys kv (<[key := keyData]> (apikeys kv)) in
        match getUser kv (key_uid keyData) with
        | None => (None, kv)
        | Some user =>
            if is_blocked user then (None, kv) else (Some (keyData, user), kv)
        end
  end.

(** The names a plain object inherits from [Object.prototype].  Indexing
    an object by one of them finds the inherited property (a function, or
    the prototype itself for [__proto__]) where the object has no own
    property of that name. *)
Definition inherited_names : list jsstring :=
  [ lit "constructor"; lit "__proto__"; lit "toString"; lit "toLocaleString";
    lit "valueOf"; lit "hasOwnProperty"; lit "isPrototypeOf";
    lit "propertyIsEnumerable"; lit "__defineGetter__"; lit "__defineSetter__";
    lit "__lookupGetter__"; lit "__lookupSetter__" ].

Definition inherited (name : jsstring) : bool := existsb (streq name) inherited_names.

(** The record of a day without requests. *)
Definition no_usage : UsageData :=
  {| requests := 0; input_tokens := 0; output_tokens := 0; cost := 0; by_model := ∅ |}.

(** [recordUsage(uid, modelId, inputTokens, outputTokens, cost)].  The
    per-model counters are found by [existing.models[modelId]]: an own
    entry, or a fresh one, which is created when that lookup finds nothing.
    Where the record has no own entry and [modelId] is an inherited name,
    the lookup finds the inherited object: no entry is created, and the
    four counters are added to properties of that object, outside the
    record. *)
Definition recordUsage (kv : Store) (uid modelId : jsstring)
  (inputTokens outputTokens : Z) (cost : Q) : Store :=
  let key := (uid, today) in
  let existing := default no_usage (usage kv !! key) in
  let counted (m : ModelUsage) :=
    {| m_requests := m_requests m + 1;
       m_input_tokens := m_input_tokens m + inputTokens;
       m_output_tokens := m_output_tokens m + outputTokens;
       m_cost := (m_cost m + cost)%Q |} in
  let models :=
    match by_model existing !! modelId with
    | Some m => <[modelId := counted m]> (by_model existing)
    | None =>
        if inherited modelId then by_model existing
        else
          <[modelId := counted {| m_requests := 0; m_input_tokens := 0;
                                  m_output_tokens := 0; m_cost := 0 |}]>
            (by_model existing)
    end in
  with_usage kv
    (<[key := {| requests := requests existing + 1;
                 input_tokens := input_tokens existing + inputTokens;
                 output_tokens := output_tokens existing + outputTokens;
                 cost := (KV.cost existing + cost)%Q;
                 by_model := models |}]>
       (usage kv)).

End WithPlatform.

Definition getModel (kv : Store) (modelId : jsstring) : option ModelConfig :=
  models kv !! modelId.

Definition with_models (kv : Store) (m : gmap jsstring ModelConfig) : Store :=
  {| users := users kv; apikeys := apikeys kv; usage := usage kv;
     models := m; channels := channels kv |}.

(** [setModel(modelId, config)]: the configuration is stored under
    [modelId] with its [model_id] set to it. *)
Definition setModel (kv : Store) (modelId : jsstring) (config : ModelConfig) : Store :=
  with_models kv
    (<[modelId := {| model_id := modelId; upstream_model := upstream_model config;
                     channel_id := channel_id config;
                     input_price := input_price config;
                     output_price := output_price config;
                     enabled := enabled config |}]>
       (models kv)).

Definition deleteModel (kv : Store) (modelId : jsstring) : Store :=
  with_models kv (delete modelId (models kv)).

Definition getChannel (kv : Store) (channelId : jsstring) : option ChannelConfig :=
  channels kv !! channelId.

(** *** Orders *)

Record OrderData := {
  trade_no : jsstring;
  order_uid : jsstring;
  money : Q;
  order_status : Z;          (* 0: waiting for payment, 1: paid *)
  created_at : Z;
  paid_at : option Z
}.

(** The namespace with its [order:] keys. *)
Record Ledger := {
  kv : Store;
  orders : gmap jsstring OrderData
}.

(** The outcome of a method that may throw; the stores written before the
    exception stay written. *)
Inductive Outcome (A : Type) :=
| Returned (a : A)
| Threw.
Arguments Returned {A} a.
Arguments Threw {A}.

Section Orders.
Context `{Platform}.

(** [createOrder(uid, money, outTradeNo)] with a trade number given. *)
Definition createOrder (l : Ledger) (uid : jsstring) (money : Q)
  (outTradeNo : jsstring) : jsstring * Ledger :=
  (outTradeNo,
   {| kv := kv l;
      orders := <[outTradeNo := {| trade_no := outTradeNo; order_uid := uid;
                                   money := money; order_status := 0;
                                   created_at := Date_now; paid_at := None |}]>
                  (orders l) |}).

Definition getOrder (l : Ledger) (tradeNo : jsstring) : option OrderData :=
  orders l !! tradeNo.

Definition completeOrder (l : Ledger) (tradeNo : jsstring)
  : Outcome OrderData * Ledger :=
  match getOrder l tradeNo with
  | None => (Threw, l)
  | Some order =>
      if order_status order =? 1 then (Returned order, l)
      else
        let order := {| trade_no := trade_no order; order_uid := order_uid order;
                        money := money order; order_status := 1;
                        created_at := created_at order;
                        paid_at := Some Date_now |} in
        let l := {| kv := kv l; orders := <[tradeNo := order]> (orders l) |} in
        match updateBalance (kv l) (order_uid order) (money order) with
        | None => (Threw, l)
        | Some kv' => (Returned order, {| kv := kv'; orders := orders l |})
        end
  end.

End Orders.

End KV.

(** ** [functions/v1/index.js] *)

Module V1.
Import JS Adapter KV.

Definition getModelConfig (kv : Store) (modelId : jsstring)
  : option (ModelConfig * ChannelConfig) :=
  match getModel kv modelId with
  | None => None
  | Some model =>
      if negb (enabled model) then None
      else match getChannel kv (channel_id model) with
           | None => None
           | Some channel =>
               if negb (channel_enabled channel) then None
               else Some (model, channel)
           end
  end.

(** [price || 0], the price being the Number its decimal is read as. *)
Definition price64 (price : option Q) : Binary64.Number :=
  Binary64.or_zero (option_map Binary64.of_Q price).

(** [calculateCost(model, inputTokens, outputTokens)], as the Number it
    returns.  The token counts are integers. *)
Definition calculateCost64 (model : ModelConfig) (inputTokens outputTokens : Z)
  : Binary64.Number :=
  let inputCost :=
    Binary64.mul (Binary64.div (Binary64.of_Z inputTokens) (Binary64.of_Z 1000))
                 (price64 (input_price model)) in
  let outputCost :=
    Binary64.mul (Binary64.div (Binary64.of_Z outputTokens) (Binary64.of_Z 1000))
                 (price64 (output_price model)) in
  Binary64.add inputCost outputCost.

(** The cost as an amount: the exact value of the Number. *)
Definition calculateCost (model : ModelConfig) (inputTokens outputTokens : Z) : Q :=
  Binary64.value (calculateCost64 model inputTokens outputTokens).

Inductive Provider := OpenAIProvider | AnthropicProvider | GeminiProvider.

(** [createProvider(channel)]; [None] when it throws on an unsupported
    provider type. *)
Definition createProvider (channel : ChannelConfig) : option Provider :=
  if streq (provider channel) ProviderType.OPENAI then Some OpenAIProvider
  else if streq (provider channel) ProviderType.ANTHROPIC then Some AnthropicProvider
  else if streq (provider channel) ProviderType.GEMINI then Some GeminiProvider
  else None.

(** *** The SSE stream transformer *)

(** What [controller.enqueue] is given: the terminal marker
    [data: [DONE]\n\n], or [data: ${JSON.stringify(transformed)}\n\n]. *)
Inductive Out :=
| Done
| Data (transformed : value).

(** The variables the transformer closes over. *)
Record Transformer := {
  inputTokens : value;
  outputTokens : value;
  buffer : jsstring
}.

Definition createStreamTransformer : Transformer :=
  {| inputTokens := VNum 0; outputTokens := VNum 0; buffer := [] |}.

Section WithPlatform.
Context `{Platform}.

Definition chunk_id_now : value :=
  VStr (lit "chatcmpl-" ++ decimal Date_now).

Definition chunk (id : list (jsstring * value)) (model : ModelConfig)
  (delta finish_reason : value) : value :=
  VObj (id ++
    [ (lit "object", str "chat.completion.chunk");
      (lit "created", created_now);
      (lit "model", VStr (model_id model));
      (lit "choices", VArr [VObj
         [ (lit "index", VNum 0);
           (lit "delta", delta);
           (lit "finish_reason", finish_reason) ]]) ]).

(** The body of the [try] block for one parsed event: the new counters and
    the value of [transformed], or [None] when a TypeError is thrown (only
    a [null] event does that, at its first property access). *)
Definition translate (channel : ChannelConfig) (model : ModelConfig)
  (inT outT : value) (parsed : value) : option (value * value * value) :=
  if nullish parsed then None
  else if streq (provider channel) ProviderType.ANTHROPIC then
    let type := prop (lit "type") parsed in
    let delta := prop (lit "delta") parsed in
    let message := prop (lit "message") parsed in
    if is_str type "content_block_delta" && truthy (getq "text" delta) then
      let text := getq "text" delta in
      Some (inT,
            js_add outT (ceil_quarter (prop length_key text)),
            chunk [(lit "id", js_or (getq "id" message) chunk_id_now)] model
                  (VObj [(lit "content", text)]) VNull)
    else if is_str type "message_delta" then
      let transformed :=
        VObj [ (lit "object", str "chat.completion.chunk");
               (lit "choices", VArr [VObj
                  [ (lit "index", VNum 0);
                    (lit "delta", VObj []);
                    (lit "finish_reason",
                      if is_str (getq "stop_reason" delta) "end_turn"
                      then str "stop" else VNull) ]]) ] in
      let usage := prop (lit "usage") parsed in
      if truthy usage then
        Some (js_or (prop (lit "input_tokens") usage) inT,
              js_or (prop (lit "output_tokens") usage) outT,
              transformed)
      else Some (inT, outT, transformed)
    else if is_str type "message_start" && truthy message then
      Some (js_or (getq "input_tokens" (prop (lit "usage") message)) (VNum 0),
            outT,
            chunk [(lit "id", prop (lit "id") message)] model
                  (VObj [(lit "role", str "assistant")]) VNull)
    else Some (inT, outT, VUndef)
  else if streq (provider channel) ProviderType.GEMINI then
    let candidate := first (prop (lit "candidates") parsed) in
    let text := getq "text" (first (getq "parts" (getq "content" candidate))) in
    let '(outT, transformed) :=
      if truthy text then
        (js_add outT (ceil_quarter (prop length_key text)),
         chunk [(lit "id", chunk_id_now)] model
               (VObj [(lit "content", text)])
               (if is_str (getq "finishReason" candidate) "STOP"
                then str "stop" else VNull))
      else (outT, VUndef) in
    let usageMetadata := prop (lit "usageMetadata") parsed in
    if truthy usageMetadata then
      Some (js_or (prop (lit "promptTokenCount") usageMetadata) inT,
            js_or (prop (lit "candidatesTokenCount") usageMetadata) outT,
            transformed)
    else Some (inT, outT, transformed)
  else
    let usage := prop (lit "usage") parsed in
    if truthy usage then
      Some (js_or (prop (lit "prompt_tokens") usage) inT,
            js_or (prop (lit "completion_tokens") usage) outT,
            parsed)
    else Some (inT, outT, parsed).

(** One iteration of [for (const line of lines)]. *)
Definition transform_line (channel : ChannelConfig) (model : ModelConfig)
  (acc : value * value * list Out) (line : jsstring) : value * value * list Out :=
  let '(inT, outT, out) := acc in
  if negb (startsWith (lit "data: ") line) then acc
  else
    let data := trim (slice 6 line) in
    if streq data (lit "[DONE]") then (inT, outT, out ++ [Done])
    else
      match JSON_parse data with
      | None => acc
      | Some parsed =>
          match translate channel model inT outT parsed with
          | None => acc
          | Some (inT', outT', transformed) =>
              (inT', outT',
               if truthy transformed then out ++ [Data transformed] else out)
          end
      end.

(** [transform(chunk, controller)] once the chunk is decoded. *)
Definition transform_text (channel : ChannelConfig) (model : ModelConfig)
  (t : Transformer) (text : jsstring) : Transformer * list Out :=
  let buffer := buffer t ++ text in
  let lines := split_lines buffer in
  let '(inT, outT, out) :=
    fold_left (transform_line channel model) (removelast lines)
      (inputTokens t, outputTokens t, []) in
  ({| inputTokens := inT; outputTokens := outT; buffer := List.last lines [] |}, out).

Definition transform (channel : ChannelConfig) (model : ModelConfig)
  (t : Transformer) (chunk : list N) : Transformer * list Out :=
  transform_text channel model t (TextDecoder_decode chunk).

(** [flush]: [this.finalUsage = { inputTokens, outputTokens }] *)
Definition flush (t : Transformer) : value * value :=
  (inputTokens t, outputTokens t).

(** [readable.pipeThrough(transformer)]: every chunk of the body through
    [transform] in order. *)
Fixpoint pipeThrough (channel : ChannelConfig) (model : ModelConfig)
  (t : Transformer) (chunks : list (list N)) : Transformer * list Out :=
  match chunks with
  | [] => (t, [])
  | c :: rest =>
      let '(t1, out1) := transform channel model t c in
      let '(t2, out2) := pipeThrough channel model t1 rest in
      (t2, out1 ++ out2)
  end.

(** *** The chat-completions handler *)

Inductive ErrorKind :=
| MissingApiKey        (* 401 *)
| InvalidApiKey        (* 401 *)
| AccountBlocked       (* 403 *)
| InvalidJson          (* 400 *)
| MissingModel         (* 400 *)
| ModelUnavailable     (* 404 *)
| InsufficientBalance  (* 402 *)
| UpstreamError.       (* 502 *)

Definition status (e : ErrorKind) : Z :=
  match e with
  | MissingApiKey | InvalidApiKey => 401
  | AccountBlocked => 403
  | InvalidJson | MissingModel => 400
  | ModelUnavailable => 404
  | InsufficientBalance => 402
  | UpstreamError => 502
  end.

Inductive Response :=
| errorResponse (e : ErrorKind)
| jsonResponse (result : value)
| eventStream (out : list Out)
| Uncaught.                       (* an exception leaves the handler *)

Record Request := {
  authorization : option jsstring;  (* the Authorization header *)
  json : option Body                (* [None]: the body is not JSON *)
}.

Record Env := { waitUntil : bool }. (* is [env.waitUntil] there *)

(** The upstream vendor: what a provider call is given, and what comes
    back. *)
Inductive VendorRequest :=
| chatCompletions (body : Body)
| messages_ (body : AnthropicRequest)
| generateContent (model : jsstring) (body : GeminiRequest).

Record VendorCall := {
  via : ChannelConfig;
  sent : VendorRequest;
  streaming : bool
}.

Inductive Reply :=
| Rejected                          (* the provider throws: transport failure or a non-2xx status *)
| Ok (body : list (list N)).        (* the response body, as the byte chunks it arrives in *)

Definition Upstream := VendorCall -> Reply.

(** What became of the [try { updateBalance; recordUsage }] block. *)
Inductive Settlement :=
| NotAttempted
| Settled (inputTokens outputTokens : Z) (cost : Q)
| Thrown                            (* [updateBalance] threw; nothing was recorded *)
| NotNumeric.                       (* the vendor's usage counts are not integers: not modelled *)

Record Result := {
  response : Response;
  kv_after : Store;
  dispatched : list VendorCall;
  settlement : Settlement;
  finalUsage : option (value * value)
}.

Definition extractBearerToken (request : Request) : option jsstring :=
  match authorization request with
  | None | Some [] => None
  | Some auth => if startsWith (lit "Bearer ") auth then Some (slice 7 auth) else None
  end.

Definition authenticateRequest (request : Request) (kv : Store)
  : (ErrorKind + UserData) * Store :=
  match extractBearerToken request with
  | None | Some [] => (inl MissingApiKey, kv)
  | Some token =>
      match validateApiKey kv token with
      | (None, kv) => (inl InvalidApiKey, kv)
      | (Some (_, user), kv) =>
          if is_blocked user then (inl AccountBlocked, kv) else (inr user, kv)
      end
  end.

Definition settle (kv : Store) (user : UserData) (modelId : jsstring)
  (inputTokens outputTokens : Z) (cost : Q) : Settlement * Store :=
  match updateBalance kv (uid user) (- cost)%Q with
  | None => (Thrown, kv)
  | Some kv =>
      (Settled inputTokens outputTokens cost,
       recordUsage kv (uid user) modelId inputTokens outputTokens cost)
  end.

(** [result.model = modelId] in strict mode: a TypeError on [null] and on
    primitives; on an array the property is set but never serialised. *)
Definition set_model (result : value) (modelId : jsstring) : option value :=
  match result with
  | VObj fs => Some (VObj (set_assoc (lit "model") (VStr modelId) fs))
  | VArr _ => Some result
  | _ => None
  end.

Definition stop_with (e : ErrorKind) (kv : Store) : Result :=
  {| response := errorResponse e; kv_after := kv; dispatched := [];
     settlement := NotAttempted; finalUsage := None |}.

Definition handleChatCompletions (upstream : Upstream) (request : Request)
  (env : Env) (kv : Store) : Result :=
  match authenticateRequest request kv with
  | (inl e, kv) => stop_with e kv
  | (inr user, kv) =>
  match json request with
  | None => stop_with InvalidJson kv
  | Some body =>
  match model body with
  | None | Some [] => stop_with MissingModel kv
  | Some modelId =>
  let requestFormat := detectRequestFormat body in
  match getModelConfig kv modelId with
  | None => stop_with ModelUnavailable kv
  | Some (model, channel) =>
  let estimatedInputTokens := estimateInputTokens body in
  let estimatedCost := calculateCost model estimatedInputTokens 100 in
  if Qltb (balance user) estimatedCost then stop_with InsufficientBalance kv
  else
  match createProvider channel with
  | None =>
      {| response := Uncaught; kv_after := kv; dispatched := [];
         settlement := NotAttempted; finalUsage := None |}
  | Some _ =>
  let upstreamModel :=
    match upstream_model model with
    | Some (c :: u) => c :: u
    | _ => modelId
    end in
  let isStream := match stream body with VBool true => true | _ => false end in
  let is_anthropic := streq (provider channel) ProviderType.ANTHROPIC in
  let is_gemini := streq (provider channel) ProviderType.GEMINI in
  let upstreamBody :=
    if is_anthropic then
      let b := toAnthropic body in
      messages_
        {| a_model := Some upstreamModel; a_max_tokens := a_max_tokens b;
           a_system := a_system b; a_messages := a_messages b;
           a_stream := a_stream b; a_temperature := a_temperature b;
           a_top_p := a_top_p b; a_stop_sequences := a_stop_sequences b |}
    else if is_gemini then generateContent upstreamModel (toGemini body)
    else
      chatCompletions
        {| Adapter.model := Some upstreamModel; messages := messages body;
           contents := contents body; stream := stream body;
           max_tokens := max_tokens body; temperature := temperature body;
           top_p := top_p body; stop := stop body;
           anthropic_version := anthropic_version body |} in
  let call := {| via := channel; sent := upstreamBody; streaming := isStream |} in
  let failed :=
    {| response := errorResponse UpstreamError; kv_after := kv;
       dispatched := [call]; settlement := NotAttempted; finalUsage := None |} in
  match upstream call with
  | Rejected => failed
  | Ok chunks =>
      if isStream then
        let '(t, out) := pipeThrough channel model createStreamTransformer chunks in
        let estimatedOutputTokens := 500 in
        let cost := calculateCost model estimatedInputTokens estimatedOutputTokens in
        let '(s, kv') :=
          if waitUntil env
          then settle kv user modelId estimatedInputTokens estimatedOutputTokens cost
          else (NotAttempted, kv) in
        {| response := eventStream out; kv_after := kv'; dispatched := [call];
           settlement := s; finalUsage := Some (flush t) |}
      else
        let converted :=
          result ← JSON_parse (TextDecoder_decode (concat chunks));
          result ← (if is_anthropic then anthropicToOpenAI result
                    else if is_gemini then geminiToOpenAI result
                    else Some result);
          set_model result modelId in
        match converted with
        | None => failed
        | Some result =>
            let usage := prop (lit "usage") result in
            let inputTokens :=
              js_or (getq "prompt_tokens" usage) (VNum estimatedInputTokens) in
            let outputTokens := js_or (getq "completion_tokens" usage) (VNum 0) in
            let '(s, kv') :=
              match inputTokens, outputTokens with
              | VNum i, VNum o => settle kv user modelId i o (calculateCost model i o)
              | _, _ => (NotNumeric, kv)
              end in
            {| response := jsonResponse result; kv_after := kv';
               dispatched := [call]; settlement := s; finalUsage := None |}
        end
  end end end end end end.

End WithPlatform.

End V1.

(** ** Notions the properties are stated with *)

Module Spec.
Import JS Adapter.

(** A CJK character costs 1/1.5 of a token, any other 1/4. *)
Definition char_cost (c : N) : Q := if is_cjk c then (1 / (3 # 2))%Q else (1 / 4)%Q.

Definition text_cost (s : jsstring) : Q :=
  fold_right (fun c acc => (char_cost c + acc)%Q) 0%Q s.

(** The text segments of a request, in the order the estimator meets them. *)
Definition message_segments (msg : Message) : list jsstring :=
  match content msg with
  | CString s => [s]
  | CParts ps =>
      flat_map
        (fun part =>
           if streq (part_type part) (lit "text")
           then match part_text part with Some s => [s] | None => [] end
           else [])
        ps
  end.

Definition segments (body : Body) : list jsstring :=
  flat_map message_segments (default [] (messages body))
  ++ flat_map
       (fun c => flat_map (fun part => match gpart_text part with
                                       | Some s => [s]
                                       | None => []
                                       end)
                   (default [] (gparts c)))
       (default [] (contents body)).

Definition Qsum (l : list Q) : Q := fold_right Qplus 0%Q l.
Definition Zsum (l : list Z) : Z := fold_right Z.add 0 l.

(** Follows the specification's words: one sum over every segment, rounded
    up once. *)
Definition estimate_rounded_once (body : Body) : Z :=
  Qceiling (Qsum (map text_cost (segments body))).

(** Every segment rounded up on its own, then summed. *)
Definition estimate_rounded_per_segment (body : Body) : Z :=
  Zsum (map (fun s => Qceiling (text_cost s)) (segments body)).

(** The text with its white space removed. *)
Definition without_space (s : jsstring) : jsstring :=
  List.filter (fun c => negb (is_space c)) s.

Definition space_count (s : jsstring) : Z :=
  Z.of_nat (length (List.filter is_space s)).

(** The tokens of one segment, and the CJK characters of a text. *)
Definition segment_tokens (s : jsstring) : Z := Qceiling (text_cost s).

Definition cjk_count (s : jsstring) : Z := Z.of_nat (length (List.filter is_cjk s)).

Definition is_system (msg : Message) : bool := streq (role msg) (lit "system").

(** [out.choices[0].finish_reason] of a canonical response. *)
Definition finish_reason_of (out : value) : value :=
  getq "finish_reason" (first (getq "choices" out)).

(** The model named by a request is unknown or disabled, or its channel
    is. *)
Definition unavailable (kv : KV.Store) (modelId : jsstring) : Prop :=
  match KV.getModel kv modelId with
  | None => True
  | Some model =>
      KV.enabled model = false
      \/ match KV.getChannel kv (KV.channel_id model) with
         | None => True
         | Some channel => KV.channel_enabled channel = false
         end
  end.

(** [out.model] of a canonical response or chunk. *)
Definition model_of (out : value) : value := getq "model" out.

(** The complete lines of a text and the partial line after the last line
    feed, by one pass: what [split] then [pop] leave in [lines] and in
    [buffer]. *)
Fixpoint lines_rest (s : jsstring) : list jsstring * jsstring :=
  match s with
  | [] => ([], [])
  | c :: r =>
      let '(ls, rest) := lines_rest r in
      if (c =? 10)%N then ([] :: ls, rest)
      else match ls with
           | [] => ([], c :: rest)
           | h :: t => ((c :: h) :: t, rest)
           end
  end.

Definition is_ascii (bytes : list N) : Prop := Forall (fun b => (b < 128)%N) bytes.

(** [out.choices[0].delta] of a chunk. *)
Definition delta_of (out : value) : value :=
  getq "delta" (first (getq "choices" out)).

(** A streamed item names the model [modelId]. *)
Definition names_model (modelId : jsstring) (o : V1.Out) : Prop :=
  match o with
  | V1.Done => True
  | V1.Data v => model_of v = VStr modelId
  end.

(** A streamed item names the model [modelId] and has a delta that is not
    empty, or it is a closing chunk: its delta is empty and it has no model
    field. *)
Definition names_model_or_closes (modelId : jsstring) (o : V1.Out) : Prop :=
  match o with
  | V1.Done => True
  | V1.Data v =>
      (model_of v = VStr modelId /\ delta_of v <> VObj [])
      \/ (model_of v = VUndef /\ delta_of v = VObj [])
  end.

(** Every model configuration is stored under its own [model_id]: what
    [setModel], the only writer of configurations, establishes. *)
Definition models_named (kv : KV.Store) : Prop :=
  forall modelId config,
    KV.models kv !! modelId = Some config -> KV.model_id config = modelId.

(** The request with other messages. *)
Definition with_messages (body : Body) (msgs : list Message) : Body :=
  {| model := model body; messages := Some msgs; contents := contents body;
     stream := stream body; max_tokens := max_tokens body;
     temperature := temperature body; top_p := top_p body; stop := stop body;
     anthropic_version := anthropic_version body |}.

(** The texts of the system messages of a request, in order. *)
Definition system_texts (body : Body) : list jsstring :=
  map (fun msg => content_string (content msg))
      (List.filter is_system (default [] (messages body))).

Definition turns_of (body : Body) : list Message :=
  List.filter (fun msg => negb (is_system msg)) (default [] (messages body)).

(** [out.choices[0].message.content], [out.choices[0].delta.content] and
    the usage counts of a canonical response or chunk. *)
Definition content_of (out : value) : value :=
  getq "content" (getq "message" (first (getq "choices" out))).

Definition delta_content_of (out : value) : value :=
  getq "content" (getq "delta" (first (getq "choices" out))).

Definition usage_of (field : string) (out : value) : value :=
  getq field (getq "usage" out).

(** A text block as vendors send it. *)
Definition text_block (t : jsstring) : value :=
  VObj [ (lit "type", str "text"); (lit "text", VStr t) ].

Definition no_feed (s : jsstring) : Prop := ~ In 10%N s.

(** The terminal marker among streamed items, and the lines that carry
    the upstream's terminal marker. *)
Definition is_done (o : V1.Out) : bool :=
  match o with V1.Done => true | V1.Data _ => false end.

Definition done_line (line : jsstring) : bool :=
  startsWith (lit "data: ") line && streq (trim (slice 6 line)) (lit "[DONE]").

(** [parsed.candidates?.[0]] and its first part's text, of a Gemini
    event. *)
Definition gemini_candidate (parsed : value) : value :=
  first (prop (lit "candidates") parsed).

Definition gemini_text (parsed : value) : value :=
  getq "text" (first (getq "parts" (getq "content" (gemini_candidate parsed)))).

(** The model name a vendor request carries, and the one the handler
    gives it: the configured upstream name when there is one. *)
Definition sent_model (req : V1.VendorRequest) : option jsstring :=
  match req with
  | V1.chatCompletions body => model body
  | V1.messages_ body => a_model body
  | V1.generateContent model _ => Some model
  end.

Definition upstream_name (config : KV.ModelConfig) (modelId : jsstring) : jsstring :=
  match KV.upstream_model config with
  | Some (c :: u) => c :: u
  | _ => modelId
  end.

Definition is_streaming (body : Body) : bool :=
  match stream body with VBool true => true | _ => false end.

(** The cost by the formula of the specification, in exact arithmetic:
    inputTokens/1000 * inputPrice + outputTokens/1000 * outputPrice. *)
Definition exact_cost (config : KV.ModelConfig) (inputTokens outputTokens : Z) : Q :=
  (inject_Z inputTokens / 1000 * default 0 (KV.input_price config)
   + inject_Z outputTokens / 1000 * default 0 (KV.output_price config))%Q.

(** No price is negative. *)
Definition prices_nonneg (config : KV.ModelConfig) : Prop :=
  (0 <= default 0 (KV.input_price config))%Q
  /\ (0 <= default 0 (KV.output_price config))%Q.

(** No user owes: every stored balance is non-negative. *)
Definition balances_nonneg (kv : KV.Store) : Prop :=
  forall uid user, KV.users kv !! uid = Some user -> (0 <= KV.balance user)%Q.

(** The per-model counters of a day's usage, summed. *)
Definition model_sum (f : KV.ModelUsage -> Z) (m : gmap jsstring KV.ModelUsage) : Z :=
  map_fold (fun _ mu acc => f mu + acc) 0 m.

(** A day's totals are the sums of its per-model counters. *)
Definition usage_consistent (d : KV.UsageData) : Prop :=
  KV.requests d = model_sum KV.m_requests (KV.by_model d)
  /\ KV.input_tokens d = model_sum KV.m_input_tokens (KV.by_model d)
  /\ KV.output_tokens d = model_sum KV.m_output_tokens (KV.by_model d).

End Spec.

(** ** Concrete requests, stores and vendor replies *)

Module Examples.
Import JS Adapter KV V1.

Definition platform : Platform :=
  {| JSON_parse := Ref.JSON_parse;
     toLowerCase := Ref.toLowerCase;
     Date_now := 1700000000000;
     today := lit "20231114" |}.

(** A JSON text, written with ['] where JSON has its double quote. *)
Definition json_text (s : string) : jsstring :=
  map (fun c => if (c =? 39)%N then 34%N else c) (lit s).

Definition json_value (s : string) : value :=
  default VUndef (Ref.JSON_parse (json_text s)).

Definition user_message (text : string) : Message :=
  {| role := lit "user"; content := CString (lit text) |}.

Definition request_body (modelId : string) (streamed : bool) (msgs : list Message) : Body :=
  {| model := Some (lit modelId); messages := Some msgs; contents := None;
     stream := if streamed then VBool true else VUndef;
     max_tokens := VUndef; temperature := VUndef; top_p := VUndef;
     stop := VUndef; anthropic_version := VUndef |}.

(** Two one-letter messages. *)
Definition two_letters : Body :=
  request_body "gpt-4o" false [user_message "a"; user_message "b"].

(** A conversation with a system prompt, an assistant turn and a tool
    result. *)
Definition tool_message : Message :=
  {| role := lit "tool"; content := CString (lit "42") |}.

Definition with_tool_result : Body :=
  request_body "gpt-4o" false
    [ {| role := lit "system"; content := CString (lit "Be brief.") |};
      user_message "6 * 7?";
      {| role := lit "assistant"; content := CString (lit "Let me compute.") |};
      tool_message ].

(** Two texts that differ only in white space: one blank against
    twenty-one. *)
Definition one_blank : jsstring := lit "a b".
Definition many_blanks : jsstring := lit "a                     b".

(** An Anthropic-format reply cut off at the token limit, its stop reason
    spelled in capitals. *)
Definition anthropic_truncated : value :=
  json_value "{'id':'msg_1','model':'claude-3','content':[{'type':'text','text':'Hi'}],'stop_reason':'MAX_TOKENS','usage':{'input_tokens':5,'output_tokens':3}}".

Definition gemini_truncated : value :=
  json_value "{'candidates':[{'content':{'parts':[{'text':'Hi'}]},'finishReason':'MAX_TOKENS'}],'usageMetadata':{'promptTokenCount':5,'candidatesTokenCount':3,'totalTokenCount':8}}".

(** An Anthropic-format reply in two text blocks, and a Gemini-format reply
    with two candidates, the first in two parts. *)
Definition two_blocks : value :=
  VObj [ (lit "id", str "msg_2");
         (lit "content", VArr [Spec.text_block (lit "Hi "); Spec.text_block (lit "there!")]);
         (lit "stop_reason", str "end_turn") ].

Definition two_candidates : value :=
  json_value "{'candidates':[{'content':{'parts':[{'text':'Hi '},{'text':'there!'}]},'finishReason':'STOP'},{'content':{'parts':[{'text':'Bye'}]},'finishReason':'STOP'}]}".

(** A model priced 5 per 1000 input tokens and 15 per 1000 output tokens,
    served by channel [ch1] under another upstream name. *)
Definition gpt4o : ModelConfig :=
  {| model_id := lit "gpt-4o"; upstream_model := Some (lit "gpt-4o-2024-08-06");
     channel_id := lit "ch1"; input_price := Some 5%Q; output_price := Some 15%Q;
     enabled := true |}.

(** A request with a [stop] parameter. *)
Definition stopping (stop : value) : Body :=
  {| model := Some (lit "gpt-4o"); messages := Some [user_message "Count."];
     contents := None; stream := VUndef; max_tokens := VUndef;
     temperature := VUndef; top_p := VUndef; stop := stop;
     anthropic_version := VUndef |}.

Definition channel_of (vendor : jsstring) : ChannelConfig :=
  {| provider := vendor; base_url := None; api_key := lit "sk-upstream";
     channel_enabled := true |}.

(** The amount a decimal denotes: the value of the Number it is read as. *)
Definition amount (q : Q) : Q := Binary64.value (Binary64.of_Q q).


Definition alice (funds : Q) : UserData :=
  {| uid := lit "u1"; balance := funds; total_consumed := 0;
     is_blocked := false; updated_at := 0 |}.

(** A store with one user holding [funds], her API key, the model
    [gpt-4o] and its channel. *)
Definition store (funds : Q) (model : ModelConfig) (channel : ChannelConfig) : Store :=
  {| users := {[ lit "u1" := alice funds ]};
     apikeys := {[ lit "sk-test" :=
                    {| key_uid := lit "u1"; key_enabled := true; last_used := 0 |} ]};
     usage := ∅;
     models := {[ lit "gpt-4o" := model ]};
     channels := {[ lit "ch1" := channel ]} |}.

Definition hello (streamed : bool) : Request :=
  {| authorization := Some (lit "Bearer sk-test");
     json := Some (request_body "gpt-4o" streamed [user_message "Hello!"]) |}.

(** A model with a negative input price. *)
Definition discounted : ModelConfig :=
  {| model_id := lit "gpt-4o"; upstream_model := None;
     channel_id := lit "ch1"; input_price := Some (- (5))%Q; output_price := None;
     enabled := true |}.

Definition gpt4o_disabled : ModelConfig :=
  {| model_id := lit "gpt-4o"; upstream_model := None;
     channel_id := lit "ch1"; input_price := Some 5%Q; output_price := Some 15%Q;
     enabled := false |}.

Definition env : Env := {| waitUntil := true |}.

(** A vendor that answers every call with the same body. *)
Definition replies (chunks : list (list N)) : Upstream := fun _ => Ok chunks.

(** An SSE event line and the blank line after it, as bytes. *)
Definition event (s : string) : list N := json_text s ++ [10%N; 10%N].

(** One OpenAI-format event whose text is the character U+4F60, three
    bytes in UTF-8, whole and cut after the first of the three bytes. *)
Definition event_head : list N :=
  json_text "data: {'choices':[{'index':0,'delta':{'content':'".
Definition event_tail : list N := json_text "'}}]}" ++ [10%N; 10%N].

Definition whole_event : list (list N) :=
  [ event_head ++ [228%N; 189%N; 160%N] ++ event_tail ].
Definition cut_event : list (list N) :=
  [ event_head ++ [228%N]; [189%N; 160%N] ++ event_tail ].

Definition delta_chunk (text : jsstring) : value :=
  VObj [ (lit "choices", VArr [VObj
           [ (lit "index", VNum 0);
             (lit "delta", VObj [ (lit "content", VStr text) ]) ]]) ].

(** An OpenAI-format stream: one content delta under the upstream's own
    model name, a usage block, the terminal marker. *)
Definition openai_stream : list (list N) :=
  [ event "data: {'id':'c1','model':'gpt-4o-2024-08-06','choices':[{'index':0,'delta':{'content':'Hi'},'finish_reason':null}]}";
    event "data: {'id':'c1','model':'gpt-4o-2024-08-06','choices':[],'usage':{'prompt_tokens':7,'completion_tokens':9}}";
    event "data: [DONE]" ].

(** An Anthropic-format reply to a non-stream request. *)
Definition anthropic_reply : list (list N) :=
  [ json_text "{'id':'msg_1','model':'claude-3','content':[{'type':'text','text':'Hi there!'}],'stop_reason':'end_turn','usage':{'input_tokens':5,'output_tokens':3}}" ].

(** An OpenAI-format reply to a non-stream request. *)
Definition openai_reply : list (list N) :=
  [ json_text "{'id':'c1','model':'gpt-4o-2024-08-06','choices':[{'index':0,'message':{'role':'assistant','content':'Hi'},'finish_reason':'stop'}],'usage':{'prompt_tokens':7,'completion_tokens':9}}" ].

(** An Anthropic-format stream: message start, one text delta, the message
    delta that ends the turn, message stop. *)
Definition anthropic_stream : list (list N) :=
  [ event "data: {'type':'message_start','message':{'id':'msg_1','usage':{'input_tokens':5}}}";
    event "data: {'type':'content_block_delta','index':0,'delta':{'type':'text_delta','text':'Hi there!'}}";
    event "data: {'type':'message_delta','delta':{'stop_reason':'end_turn'},'usage':{'output_tokens':3}}";
    event "data: {'type':'message_stop'}" ].

(** A Gemini finish event without text, and an Anthropic message_delta
    event that stops at the token limit. *)
Definition gemini_finish_event : value :=
  json_value "{'candidates':[{'finishReason':'STOP'}]}".

Definition anthropic_limit_event : value :=
  json_value "{'type':'message_delta','delta':{'stop_reason':'max_tokens'},'usage':{'output_tokens':4096}}".

(** A Gemini-format stream: two text events and a finish event, no usage
    block. *)
Definition gemini_stream : list (list N) :=
  [ event "data: {'candidates':[{'content':{'parts':[{'text':'Hel'}]}}]}";
    event "data: {'candidates':[{'content':{'parts':[{'text':'lo'}]}}]}";
    event "data: {'candidates':[{'finishReason':'STOP'}]}" ].

Definition openai : ChannelConfig := channel_of ProviderType.OPENAI.

(** The handler on the reference platform, with [env.waitUntil] there. *)
Definition run (upstream : Upstream) (request : Request) (kv : Store) : Result :=
  handleChatCompletions (H := platform) upstream request env kv.

(** A ledger with an order of 50 that waits for payment, for the user of
    [store] and for a user the store does not know. *)
Definition waiting (tradeNo owner : string) : OrderData :=
  {| trade_no := lit tradeNo; order_uid := lit owner; money := 50;
     order_status := 0; created_at := 0; paid_at := None |}.

Definition ledger : Ledger :=
  {| kv := store 10 gpt4o openai;
     orders := {[ lit "V1" := waiting "V1" "u1"; lit "V2" := waiting "V2" "ghost" ]} |}.

(** The store of a single user who is blocked. *)
Definition blocked_store : Store :=
  {| users := {[ lit "u1" := {| uid := lit "u1"; balance := 10; total_consumed := 0;
                                is_blocked := true; updated_at := 0 |} ]};
     apikeys := apikeys (store 10 gpt4o openai);
     usage := ∅;
     models := models (store 10 gpt4o openai);
     channels := channels (store 10 gpt4o openai) |}.

(** The store once the API key of [hello] has been stamped. *)
Definition stamped (kv : Store) : Store :=
  snd (authenticateRequest (H := platform) (hello false) kv).

End Examples.

(** * Properties *)

Import JS Adapter KV V1 Spec.

(** ** Cost *)

Lemma Qltb_lt (x y : Q) : Qltb x y = true <-> (x < y)%Q.
Proof.
  unfold Qltb. rewrite negb_true_iff. split.
  - intros Hf. apply Qnot_le_lt. intros Hle.
    apply Qle_bool_iff in Hle. congruence.
  - intros Hlt. destruct (Qle_bool y x) eqn:E; [|reflexivity].
    apply Qle_bool_iff in E. exfalso. eapply Qlt_not_le; eauto.
Qed.

Lemma Qltb_ge (x y : Q) : Qltb x y = false <-> (y <= x)%Q.
Proof.
  unfold Qltb. rewrite negb_false_iff. apply Qle_bool_iff.
Qed.

(** *** Signs in binary64 *)

Lemma round_unsigned (m e : Z) (l : location) :
  Binary64.unsigned (binary_round_aux Binary64.prec Binary64.emax false m e l) = true.
Proof.
  unfold binary_round_aux.
  destruct (shr_fexp _ _ m e l) as [mrs e'].
  destruct (shr_fexp _ _ _ e' loc_Exact) as [mrs' e''].
  destruct (shr_m mrs'); [reflexivity| |reflexivity].
  destruct (e'' <=? _); reflexivity.
Qed.

Lemma of_Z_unsigned (z : Z) : 0 <= z -> Binary64.unsigned (Binary64.of_Z z) = true.
Proof.
  intros Hz. destruct z as [|p|p]; [reflexivity| |lia].
  unfold Binary64.of_Z, binary_normalize, binary_round.
  destruct (shl_align _ _ _) as [mz ez]. apply round_unsigned.
Qed.

Lemma div_unsigned (x y : Binary64.Number) :
  Binary64.unsigned x = true -> Binary64.unsigned y = true ->
  Binary64.unsigned (Binary64.div x y) = true.
Proof.
  destruct x as [[]|[]| |[] mx ex], y as [[]|[]| |[] my ey];
    try discriminate; intros _ _; try reflexivity.
  unfold Binary64.div, SFdiv.
  destruct (SFdiv_core_binary _ _ _ _ _ _) as [[mz ez] lz]. apply round_unsigned.
Qed.

Lemma mul_unsigned (x y : Binary64.Number) :
  Binary64.unsigned x = true -> Binary64.unsigned y = true ->
  Binary64.unsigned (Binary64.mul x y) = true.
Proof.
  destruct x as [[]|[]| |[] mx ex], y as [[]|[]| |[] my ey];
    try discriminate; intros _ _; try reflexivity.
  apply round_unsigned.
Qed.

Lemma add_unsigned (x y : Binary64.Number) :
  Binary64.unsigned x = true -> Binary64.unsigned y = true ->
  Binary64.unsigned (Binary64.add x y) = true.
Proof.
  destruct x as [[]|[]| |[] mx ex], y as [[]|[]| |[] my ey];
    try discriminate; intros _ _; try reflexivity.
  unfold Binary64.add, SFadd, cond_Zopp.
  destruct (shl_align mx ex (Z.min ex ey)) as [mx' ex'].
  destruct (shl_align my ey (Z.min ex ey)) as [my' ey'].
  cbn [fst]. change (Z.pos mx' + Z.pos my') with (Z.pos (mx' + my')).
  unfold binary_normalize, binary_round.
  destruct (shl_align _ _ _) as [mz ez]. apply round_unsigned.
Qed.

Lemma of_Q_unsigned (q : Q) : (0 <= q)%Q -> Binary64.unsigned (Binary64.of_Q q) = true.
Proof.
  intros Hq. unfold Binary64.of_Q.
  apply div_unsigned; apply of_Z_unsigned; [|lia].
  destruct q as [n d]. unfold Qle in Hq. cbn in *. lia.
Qed.

Lemma price64_unsigned (p : option Q) :
  (0 <= default 0 p)%Q -> Binary64.unsigned (price64 p) = true.
Proof.
  unfold price64. destruct p as [q|]; [|reflexivity].
  intros Hq. pose proof (of_Q_unsigned q Hq) as Hu. revert Hu. cbn [option_map].
  destruct (Binary64.of_Q q) as [|[]| |[] m e]; try discriminate; reflexivity.
Qed.

Lemma scaled_nonneg (m e : Z) : 0 <= m -> (0 <= Binary64.scaled m e)%Q.
Proof.
  intros Hm. unfold Binary64.scaled. destruct (0 <=? e) eqn:He.
  - apply Z.leb_le in He. change 0%Q with (inject_Z 0). rewrite <- Zle_Qle.
    apply Z.mul_nonneg_nonneg; [exact Hm|]. now apply Z.pow_nonneg.
  - unfold Qle. cbn. lia.
Qed.

Lemma value_nonneg (x : Binary64.Number) :
  Binary64.unsigned x = true -> (0 <= Binary64.value x)%Q.
Proof.
  destruct x as [s|[]| |[] m e]; try discriminate; intros _;
    try apply Qle_refl; apply scaled_nonneg; lia.
Qed.

Lemma unsigned_not_negative (x : Binary64.Number) :
  Binary64.unsigned x = true -> Binary64.ltb x Binary64.zero = false.
Proof. destruct x as [[]|[]| |[] m e]; try discriminate; reflexivity. Qed.

Lemma calculateCost64_unsigned (model : ModelConfig) (i o : Z) :
  0 <= i -> 0 <= o -> prices_nonneg model ->
  Binary64.unsigned (calculateCost64 model i o) = true.
Proof.
  intros Hi Ho [Hp Hq]. unfold calculateCost64.
  apply add_unsigned; apply mul_unsigned;
    try (apply div_unsigned; apply of_Z_unsigned; lia);
    now apply price64_unsigned.
Qed.

(** C7, as amended: [calculateCost] is inputTokens/1000 times the input
    price plus outputTokens/1000 times the output price in binary64, every
    quotient, product and sum rounded to nearest (an absent price counts
    as 0).  It is 0 on (0, 0) when the prices are finite, and not negative
    for non-negative counts and prices; at prices 5 and 15 the usage
    (5, 3) costs the Number 0.07. *)
Theorem calculateCost_binary64 (model : ModelConfig) (i o : Z) :
  calculateCost model i o
  = Binary64.value
      (Binary64.add
         (Binary64.mul (Binary64.div (Binary64.of_Z i) (Binary64.of_Z 1000))
                       (price64 (input_price model)))
         (Binary64.mul (Binary64.div (Binary64.of_Z o) (Binary64.of_Z 1000))
                       (price64 (output_price model))))
  /\ (Binary64.is_finite (price64 (input_price model)) = true ->
      Binary64.is_finite (price64 (output_price model)) = true ->
      Binary64.is_zero (calculateCost64 model 0 0) = true
      /\ (calculateCost model 0 0 == 0)%Q)
  /\ (0 <= i -> 0 <= o -> prices_nonneg model ->
      Binary64.ltb (calculateCost64 model i o) Binary64.zero = false
      /\ (0 <= calculateCost model i o)%Q)
  /\ (input_price model = Some 5%Q -> output_price model = Some 15%Q ->
      calculateCost64 model 5 3 = Binary64.of_Q (7 # 100)
      /\ calculateCost model 5 3 = Examples.amount (7 # 100)).
Proof.
  split; [reflexivity|]. split; [|split].
  - intros Hp Hq. unfold calculateCost, calculateCost64.
    change (Binary64.div (Binary64.of_Z 0) (Binary64.of_Z 1000)) with (S754_zero false).
    destruct (price64 (input_price model)) as [[]|[]| |[] mp ep]; try discriminate;
      destruct (price64 (output_price model)) as [[]|[]| |[] mq eq]; try discriminate;
      split; reflexivity.
  - intros Hi Ho Hprices.
    pose proof (calculateCost64_unsigned model i o Hi Ho Hprices) as Hu.
    split; [now apply unsigned_not_negative | now apply value_nonneg].
  - intros Hp Hq. unfold calculateCost, Examples.amount, calculateCost64.
    rewrite Hp, Hq. split; vm_compute; reflexivity.
Qed.

Lemma calculateCost_binary64_witness :
  Binary64.is_zero (calculateCost64 Examples.gpt4o 0 0) = true
  /\ (0 <= calculateCost Examples.gpt4o 5 3)%Q
  /\ calculateCost Examples.gpt4o 5 3 = Examples.amount (7 # 100).
Proof.
  destruct (calculateCost_binary64 Examples.gpt4o 5 3)
    as (_ & Hzero & Hnonneg & Hexample).
  split; [|split].
  - apply Hzero; reflexivity.
  - apply Hnonneg; [lia | lia | split; discriminate].
  - apply Hexample; reflexivity.
Defined.

(** C7, as stated, fails: at prices 5 and 15 the cost is not additive in
    the input count, the costs of (1, 3) and (4, 0) adding up to
    0.06999999999999999 where (5, 3) costs 0.07, nor homogeneous, three
    times the cost of (5, 0) being 0.07500000000000001 where (15, 0) costs
    0.075; a count of 5 and 3 does not cost the exact 7/100; and under a
    negative price, which nothing excludes, a cost is negative. *)
Lemma calculateCost_not_linear :
  Binary64.add (calculateCost64 Examples.gpt4o 1 3) (calculateCost64 Examples.gpt4o 4 0)
  <> calculateCost64 Examples.gpt4o (1 + 4) 3
  /\ ~ (calculateCost Examples.gpt4o (1 + 4) 3
        == calculateCost Examples.gpt4o 1 3 + calculateCost Examples.gpt4o 4 0)%Q
  /\ Binary64.mul (Binary64.of_Z 3) (calculateCost64 Examples.gpt4o 5 0)
     <> calculateCost64 Examples.gpt4o (3 * 5) 0
  /\ ~ (calculateCost Examples.gpt4o (3 * 5) 0
        == 3 * calculateCost Examples.gpt4o 5 0)%Q
  /\ (exact_cost Examples.gpt4o 5 3 == 7 # 100)%Q
  /\ ~ (calculateCost Examples.gpt4o 5 3 == 7 # 100)%Q
  /\ Binary64.ltb (calculateCost64 Examples.discounted 1 0) Binary64.zero = true.
Proof.
  split; [vm_compute; discriminate|].
  split; [vm_compute; discriminate|].
  split; [vm_compute; discriminate|].
  split; [vm_compute; discriminate|].
  split; [reflexivity|].
  split; [vm_compute; discriminate|]. reflexivity.
Qed.

(** ** The token estimator *)

Lemma cjk_count_bounds (s : jsstring) : 0 <= cjk_count s <= Z.of_nat (length s).
Proof.
  unfold cjk_count. split; [lia|].
  apply inj_le. induction s as [|c s IH]; simpl; [lia|].
  destruct (is_cjk c); simpl; lia.
Qed.

Lemma cjk_count_app (s t : jsstring) : cjk_count (s ++ t) = cjk_count s + cjk_count t.
Proof.
  unfold cjk_count. rewrite List.filter_app, length_app. lia.
Qed.

Lemma Qceiling_twelfths (n : Z) : Qceiling (n # 12) = (n + 11) / 12.
Proof.
  unfold Qceiling, Qfloor. simpl.
  pose proof (Z.div_mod (- n) 12 ltac:(lia)) as H1.
  pose proof (Z.mod_pos_bound (- n) 12 ltac:(lia)) as H2.
  pose proof (Z.div_mod (n + 11) 12 ltac:(lia)) as H3.
  pose proof (Z.mod_pos_bound (n + 11) 12 ltac:(lia)) as H4.
  lia.
Qed.

(** The estimate in integers: eight twelfths per CJK character and three
    twelfths per other character, rounded up. *)
Lemma estimateTokens_twelfths (s : jsstring) :
  estimateTokens (Some s)
  = (8 * cjk_count s + 3 * (Z.of_nat (length s) - cjk_count s) + 11) / 12.
Proof.
  destruct s as [|c s]; [reflexivity|].
  unfold estimateTokens. fold (cjk_count (c :: s)).
  set (k := cjk_count (c :: s)). set (n := Z.of_nat (length (c :: s))).
  rewrite <- Qceiling_twelfths. apply Qceiling_comp.
  unfold Qeq, Qdiv, Qmult, Qplus, Qinv, inject_Z. simpl. lia.
Qed.

Lemma text_cost_twelfths (s : jsstring) :
  (Spec.text_cost s == (8 * cjk_count s + 3 * (Z.of_nat (length s) - cjk_count s)) # 12)%Q.
Proof.
  induction s as [|c s IH]; [reflexivity|].
  change (Spec.text_cost (c :: s)) with (Spec.char_cost c + Spec.text_cost s)%Q.
  rewrite IH. unfold cjk_count. simpl List.filter. simpl length.
  unfold Spec.char_cost. destruct (is_cjk c); simpl length;
    unfold Qeq, Qdiv, Qmult, Qplus, Qinv; simpl; lia.
Qed.

(** Rounding a text's summed character costs up is what [estimateTokens]
    computes. *)
Lemma estimateTokens_text_cost (s : jsstring) :
  estimateTokens (Some s) = Qceiling (Spec.text_cost s).
Proof.
  rewrite estimateTokens_twelfths, (Qceiling_comp _ _ (text_cost_twelfths s)).
  now rewrite Qceiling_twelfths.
Qed.

Arguments estimateTokens : simpl never.

Lemma Zsum_app (a b : list Z) : Spec.Zsum (a ++ b) = Spec.Zsum a + Spec.Zsum b.
Proof. induction a as [|x a IH]; simpl; [reflexivity | rewrite IH; lia]. Qed.

Lemma estimateTokens_segments (t : option jsstring) :
  estimateTokens t
  = Spec.Zsum (map segment_tokens (match t with Some s => [s] | None => [] end)).
Proof.
  destruct t as [s|]; [|reflexivity].
  change (estimateTokens (Some s) = segment_tokens s + 0).
  unfold segment_tokens. rewrite <- estimateTokens_text_cost. lia.
Qed.

Lemma fold_parts (ps : list Part) (total : Z) :
  fold_left
    (fun total part =>
       if streq (part_type part) (lit "text")
       then total + estimateTokens (part_text part) else total)
    ps total
  = total + Spec.Zsum (map segment_tokens
                         (Spec.message_segments {| role := []; content := CParts ps |})).
Proof.
  unfold Spec.message_segments. simpl content.
  revert total. induction ps as [|p ps IH]; intros total; simpl; [lia|].
  rewrite IH, map_app, Zsum_app.
  destruct (streq (part_type p) (lit "text")).
  - rewrite (estimateTokens_segments (part_text p)). lia.
  - simpl. lia.
Qed.

Lemma fold_messages (msgs : list Message) (total : Z) :
  fold_left
    (fun total msg =>
       match content msg with
       | CString s => total + estimateTokens (Some s)
       | CParts ps =>
           fold_left
             (fun total part =>
                if streq (part_type part) (lit "text")
                then total + estimateTokens (part_text part) else total)
             ps total
       end)
    msgs total
  = total + Spec.Zsum (map segment_tokens (flat_map Spec.message_segments msgs)).
Proof.
  revert total. induction msgs as [|m msgs IH]; intros total; simpl; [lia|].
  rewrite IH, map_app, Zsum_app.
  destruct m as [r [s|ps]]; simpl.
  - rewrite (estimateTokens_segments (Some s)). unfold Spec.message_segments. simpl. lia.
  - rewrite fold_parts. unfold Spec.message_segments. simpl. lia.
Qed.

Lemma fold_gparts (ps : list GPart) (total : Z) :
  fold_left (fun total part => total + estimateTokens (gpart_text part)) ps total
  = total + Spec.Zsum (map segment_tokens
              (flat_map (fun part => match gpart_text part with
                                     | Some s => [s]
                                     | None => []
                                     end) ps)).
Proof.
  revert total. induction ps as [|p ps IH]; intros total; simpl; [lia|].
  rewrite IH, map_app, Zsum_app, (estimateTokens_segments (gpart_text p)). lia.
Qed.

Lemma fold_contents (cs : list GContent) (total : Z) :
  fold_left
    (fun total c =>
       fold_left (fun total part => total + estimateTokens (gpart_text part))
         (default [] (gparts c)) total)
    cs total
  = total + Spec.Zsum (map segment_tokens
              (flat_map
                 (fun c => flat_map (fun part => match gpart_text part with
                                                 | Some s => [s]
                                                 | None => []
                                                 end)
                             (default [] (gparts c)))
                 cs)).
Proof.
  revert total. induction cs as [|c cs IH]; intros total; simpl; [lia|].
  rewrite IH, fold_gparts, map_app, Zsum_app. lia.
Qed.

(** C2, as amended: the input-token estimate rounds every text segment's
    summed character costs up on its own and adds the rounded values; it
    is the sum over the segments of the per-segment ceilings. *)
Theorem estimateInputTokens_rounds_each_segment (body : Body) :
  estimateInputTokens body = Spec.estimate_rounded_per_segment body.
Proof.
  unfold estimateInputTokens, Spec.estimate_rounded_per_segment, Spec.segments.
  fold segment_tokens. rewrite map_app, Zsum_app.
  destruct (messages body) as [msgs|], (contents body) as [cs|]; simpl default.
  - rewrite fold_contents, fold_messages. lia.
  - rewrite fold_messages. simpl. lia.
  - rewrite fold_contents. simpl. lia.
  - reflexivity.
Qed.

(** C2, as stated, fails: two one-letter messages are estimated at 2 tokens,
    while one ceiling over the summed costs (1/4 + 1/4) gives 1. *)
Lemma estimateInputTokens_not_rounded_once :
  estimateInputTokens Examples.two_letters
  <> Spec.estimate_rounded_once Examples.two_letters.
Proof. vm_compute. discriminate. Qed.

Lemma space_not_cjk (c : N) : is_space c = true -> is_cjk c = false.
Proof.
  unfold is_space, is_cjk. intros Hs.
  apply andb_false_iff.
  destruct (N.leb_spec 19968 c) as [Hge|]; [right | now left].
  apply N.leb_gt.
  repeat rewrite ?orb_true_iff, ?andb_true_iff, ?N.leb_le, ?N.eqb_eq in Hs.
  lia.
Qed.

Lemma cjk_count_without_space (s : jsstring) :
  cjk_count (Spec.without_space s) = cjk_count s.
Proof.
  unfold cjk_count, Spec.without_space. f_equal.
  induction s as [|c s IH]; [reflexivity|]. simpl.
  destruct (is_space c) eqn:Hs; simpl.
  - rewrite (space_not_cjk c Hs). exact IH.
  - destruct (is_cjk c); simpl; now rewrite IH.
Qed.

Lemma length_without_space (s : jsstring) :
  Z.of_nat (length s) = Z.of_nat (length (Spec.without_space s)) + Spec.space_count s.
Proof.
  unfold Spec.without_space, Spec.space_count.
  induction s as [|c s IH]; [reflexivity|]. simpl.
  destruct (is_space c); simpl length; lia.
Qed.

(** C8, as amended: the estimate never decreases when characters are
    appended, and white space is charged like any other non-CJK character:
    of two texts with the same non-blank content, the one with [k] more
    blanks is estimated between [k/4] rounded down and [k/4] rounded up
    higher. *)
Theorem estimateTokens_monotone_and_blanks_charged :
  (forall s t, estimateTokens (Some s) <= estimateTokens (Some (s ++ t)))
  /\ (forall s1 s2,
        Spec.without_space s1 = Spec.without_space s2 ->
        Spec.space_count s1 <= Spec.space_count s2 ->
        let k := Spec.space_count s2 - Spec.space_count s1 in
        estimateTokens (Some s1) + k / 4 <= estimateTokens (Some s2)
        /\ estimateTokens (Some s2) <= estimateTokens (Some s1) + (k + 3) / 4).
Proof.
  split.
  - intros s t. rewrite !estimateTokens_twelfths, cjk_count_app, length_app, Nat2Z.inj_add.
    pose proof (cjk_count_bounds t).
    apply Z.div_le_mono; lia.
  - intros s1 s2 Hsame Hle k. subst k.
    rewrite !estimateTokens_twelfths.
    rewrite <- (cjk_count_without_space s1), <- (cjk_count_without_space s2).
    rewrite (length_without_space s1), (length_without_space s2), Hsame.
    set (c := cjk_count (Spec.without_space s2)).
    set (n := Z.of_nat (length (Spec.without_space s2))).
    set (a := Spec.space_count s1) in *. set (b := Spec.space_count s2) in *.
    clearbody c n a b. clear Hsame.
    split; Z.div_mod_to_equations; lia.
Qed.

Lemma estimateTokens_monotone_and_blanks_charged_witness :
  estimateTokens (Some Examples.one_blank) + 20 / 4
    <= estimateTokens (Some Examples.many_blanks)
  /\ estimateTokens (Some Examples.many_blanks)
    <= estimateTokens (Some Examples.one_blank) + (20 + 3) / 4.
Proof.
  exact (proj2 estimateTokens_monotone_and_blanks_charged
           Examples.one_blank Examples.many_blanks eq_refl ltac:(vm_compute; discriminate)).
Defined.

(** C8, as stated, fails: two texts that differ only in white space are
    estimated at 1 and at 6 tokens, further apart than a final rounding
    accounts for. *)
Lemma estimateTokens_not_blank_invariant :
  ~ (forall s1 s2,
       Spec.without_space s1 = Spec.without_space s2 ->
       Z.abs (estimateTokens (Some s1) - estimateTokens (Some s2)) <= 1).
Proof.
  intros H.
  specialize (H Examples.one_blank Examples.many_blanks eq_refl).
  vm_compute in H. apply H. reflexivity.
Qed.

(** ** Request translation *)

Lemma streq_eq (a b : jsstring) : streq a b = true <-> a = b.
Proof.
  revert b. induction a as [|x a IH]; intros [|y b]; simpl; try easy.
  rewrite andb_true_iff, N.eqb_eq, IH. split.
  - intros [-> ->]. reflexivity.
  - intros [= -> ->]. easy.
Qed.

Lemma streq_neq (a b : jsstring) : streq a b = false <-> a <> b.
Proof.
  rewrite <- streq_eq. destruct (streq a b); split; congruence.
Qed.

Lemma collect_turns {T} (turn : Message -> T) (msgs : list Message)
  (system : jsstring) (turns : list T) :
  snd (collect turn msgs system turns)
  = turns ++ map turn (List.filter (fun msg => negb (is_system msg)) msgs).
Proof.
  revert system turns. induction msgs as [|msg msgs IH]; intros system turns; simpl.
  - now rewrite app_nil_r.
  - unfold is_system at 1. destruct (streq (role msg) (lit "system")); simpl.
    + apply IH.
    + rewrite IH, <- app_assoc. reflexivity.
Qed.

Lemma toAnthropic_messages (body : Body) :
  a_messages (toAnthropic body)
  = map (fun msg =>
           {| a_role := if streq (role msg) (lit "assistant")
                        then lit "assistant" else lit "user";
              a_content := content msg |})
        (List.filter (fun msg => negb (is_system msg)) (default [] (messages body))).
Proof.
  unfold toAnthropic.
  match goal with |- context [collect ?f ?l ?s ?t] =>
    pose proof (collect_turns f l s t) as H; destruct (collect f l s t) as [sys ts]
  end.
  simpl in *. exact H.
Qed.

Lemma toGemini_contents (body : Body) :
  g_contents (toGemini body)
  = map (fun msg =>
           {| g_role := if streq (role msg) (lit "assistant")
                        then lit "model" else lit "user";
              g_parts := [{| g_text := content msg |}] |})
        (List.filter (fun msg => negb (is_system msg)) (default [] (messages body))).
Proof.
  unfold toGemini.
  match goal with |- context [collect ?f ?l ?s ?t] =>
    pose proof (collect_turns f l s t) as H; destruct (collect f l s t) as [sys ts]
  end.
  simpl in *. exact H.
Qed.

(** C10: in the Anthropic and in the Gemini form of a request, every turn's
    role is "user" or "assistant" (resp. "user" or "model"), and a message
    whose role is neither "system" nor "assistant" becomes a "user" turn
    with the same content. *)
Theorem vendor_turn_roles (body : Body) :
  Forall (fun t => a_role t = lit "user" \/ a_role t = lit "assistant")
         (a_messages (toAnthropic body))
  /\ Forall (fun t => g_role t = lit "user" \/ g_role t = lit "model")
            (g_contents (toGemini body))
  /\ (forall msg,
        In msg (default [] (messages body)) ->
        role msg <> lit "system" -> role msg <> lit "assistant" ->
        In {| a_role := lit "user"; a_content := content msg |}
           (a_messages (toAnthropic body))
        /\ In {| g_role := lit "user"; g_parts := [{| g_text := content msg |}] |}
              (g_contents (toGemini body))).
Proof.
  rewrite toAnthropic_messages, toGemini_contents.
  split; [|split].
  - apply List.Forall_forall. intros t Ht. apply in_map_iff in Ht as (msg & <- & _).
    simpl. destruct (streq (role msg) (lit "assistant")); auto.
  - apply List.Forall_forall. intros t Ht. apply in_map_iff in Ht as (msg & <- & _).
    simpl. destruct (streq (role msg) (lit "assistant")); auto.
  - intros msg Hin Hsys Hasst.
    apply streq_neq in Hsys, Hasst.
    assert (Hkept : In msg (List.filter (fun msg => negb (is_system msg))
                              (default [] (messages body)))).
    { apply filter_In. split; [exact Hin|]. unfold is_system. now rewrite Hsys. }
    split; apply in_map_iff; exists msg; rewrite Hasst; auto.
Qed.

Lemma vendor_turn_roles_witness :
  In {| a_role := lit "user"; a_content := CString (lit "42") |}
     (a_messages (toAnthropic Examples.with_tool_result))
  /\ In {| g_role := lit "user"; g_parts := [{| g_text := CString (lit "42") |}] |}
        (g_contents (toGemini Examples.with_tool_result)).
Proof.
  apply (proj2 (proj2 (vendor_turn_roles Examples.with_tool_result))
           Examples.tool_message).
  - simpl. auto.
  - vm_compute. discriminate.
  - vm_compute. discriminate.
Defined.

(** ** Response normalisation *)

(** C6, as amended: Anthropic's "end_turn" becomes "stop" and every other
    Anthropic stop reason passes through unchanged, in the case it came in;
    Gemini's "STOP" becomes "stop" and every other Gemini finish reason
    passes through lower-cased.  Neither mapping raises an error on a
    string reason: a reply whose content converts is converted. *)
Theorem finish_reason_mapping `{Platform} (response : value) (r text : jsstring) :
  ((content_v ← get "content" response; texts_joined content_v) = Some text ->
   prop (lit "stop_reason") response = VStr r ->
   exists out,
     anthropicToOpenAI response = Some out
     /\ finish_reason_of out
        = if streq r (lit "end_turn") then str "stop" else VStr r)
  /\ ((candidates ← get "candidates" response;
       texts_joined (getq "parts" (getq "content" (first candidates)))) = Some text ->
      getq "finishReason" (first (prop (lit "candidates") response)) = VStr r ->
      exists out,
        geminiToOpenAI response = Some out
        /\ finish_reason_of out
           = if streq r (lit "STOP") then str "stop" else VStr (toLowerCase r)).
Proof.
  split.
  - intros Hcontent Hreason. unfold anthropicToOpenAI.
    destruct (get "content" response) as [content_v|]; [|discriminate].
    simpl in Hcontent |- *. rewrite Hcontent. simpl. rewrite Hreason.
    eexists. split; [reflexivity|].
    unfold finish_reason_of. simpl.
    destruct (streq r (lit "end_turn")); reflexivity.
  - intros Hcontent Hreason. unfold geminiToOpenAI.
    unfold get in *. destruct (nullish response); [discriminate|].
    simpl in Hcontent |- *. rewrite Hcontent. simpl.
    unfold gemini_finish_reason. rewrite Hreason. simpl.
    destruct (streq r (lit "STOP")); simpl; eexists; (split; [reflexivity|]);
      reflexivity.
Qed.

Lemma finish_reason_mapping_witness :
  (exists out,
     anthropicToOpenAI (H := Examples.platform) Examples.anthropic_truncated = Some out
     /\ finish_reason_of out = str "MAX_TOKENS")
  /\ (exists out,
        geminiToOpenAI (H := Examples.platform) Examples.gemini_truncated = Some out
        /\ finish_reason_of out = str "max_tokens").
Proof.
  split.
  - apply (proj1 (finish_reason_mapping (H := Examples.platform)
                    Examples.anthropic_truncated (lit "MAX_TOKENS") (lit "Hi")));
      reflexivity.
  - apply (proj2 (finish_reason_mapping (H := Examples.platform)
                    Examples.gemini_truncated (lit "MAX_TOKENS") (lit "Hi")));
      reflexivity.
Defined.

(** C6, as stated, fails for Anthropic: the reason "MAX_TOKENS" comes out
    as it went in, not lower-cased. *)
Lemma anthropic_reason_not_lowercased :
  exists out,
    anthropicToOpenAI (H := Examples.platform) Examples.anthropic_truncated = Some out
    /\ finish_reason_of out = str "MAX_TOKENS"
    /\ finish_reason_of out <> VStr (Ref.toLowerCase (lit "MAX_TOKENS")).
Proof.
  eexists. split; [reflexivity|]. split; [reflexivity|].
  vm_compute. discriminate.
Qed.

(** ** The handler: model resolution and admission *)

Section Handler.
Context `{Platform}.

(** Authentication stamps the API key and touches nothing else. *)
Lemma authenticateRequest_keeps (request : Request) (kv kv1 : Store)
  (res : ErrorKind + UserData) :
  authenticateRequest request kv = (res, kv1) ->
  users kv1 = users kv /\ usage kv1 = usage kv
  /\ models kv1 = models kv /\ channels kv1 = channels kv.
Proof.
  unfold authenticateRequest, validateApiKey, getApiKey, getUser.
  intros Heq. repeat case_match; simplify_eq/=; auto.
Qed.

Lemma getModelConfig_ext (kv kv1 : Store) (modelId : jsstring) :
  models kv1 = models kv -> channels kv1 = channels kv ->
  getModelConfig kv1 modelId = getModelConfig kv modelId.
Proof.
  intros Hm Hc. unfold getModelConfig, getModel, getChannel. now rewrite Hm, Hc.
Qed.

Lemma getModelConfig_unavailable (kv : Store) (modelId : jsstring) :
  unavailable kv modelId -> getModelConfig kv modelId = None.
Proof.
  unfold unavailable, getModelConfig.
  destruct (getModel kv modelId) as [model|]; [|reflexivity].
  intros [Hoff|Hch]; [now rewrite Hoff|].
  destruct (enabled model); [simpl|reflexivity].
  destruct (getChannel kv (channel_id model)) as [channel|]; [|reflexivity].
  now rewrite Hch.
Qed.

(** C5: an authenticated request that names an unknown or disabled model,
    or a model whose channel is unknown or disabled, is answered with the
    ModelUnavailable error (status 404); no vendor is called, no settlement
    is attempted, and the users' balances and the usage ledger are as they
    were before the request. *)
Theorem unavailable_model_rejected (upstream : Upstream) (request : Request)
  (env : Env) (kv kv1 : Store) (user : UserData) (body : Body) (modelId : jsstring) :
  authenticateRequest request kv = (inr user, kv1) ->
  json request = Some body ->
  model body = Some modelId -> modelId <> [] ->
  unavailable kv modelId ->
  let r := handleChatCompletions upstream request env kv in
  response r = errorResponse ModelUnavailable
  /\ status ModelUnavailable = 404
  /\ dispatched r = []
  /\ settlement r = NotAttempted
  /\ users (kv_after r) = users kv
  /\ usage (kv_after r) = usage kv.
Proof.
  intros Hauth Hjson Hmodel Hne Hun r. subst r.
  destruct (authenticateRequest_keeps _ _ _ _ Hauth) as (Hu & Hg & Hm & Hc).
  unfold handleChatCompletions. rewrite Hauth, Hjson, Hmodel.
  destruct modelId as [|c modelId]; [congruence|].
  rewrite (getModelConfig_ext kv kv1 _ Hm Hc), (getModelConfig_unavailable _ _ Hun).
  simpl. auto 10.
Qed.





End Handler.

(** ** The model field of what the client receives *)

Section StreamedItems.
Context `{Platform}.
Variables (channel : ChannelConfig) (config : ModelConfig) (P : Out -> Prop).
Hypothesis P_done : P Done.
Hypothesis P_data :
  forall inT outT parsed inT' outT' transformed,
    translate channel config inT outT parsed = Some (inT', outT', transformed) ->
    truthy transformed = true -> P (Data transformed).

Lemma transform_line_keeps (acc : value * value * list Out) (line : jsstring) :
  Forall P (snd acc) -> Forall P (snd (transform_line channel config acc line)).
Proof.
  destruct acc as [[inT outT] out]. unfold transform_line. simpl. intros Hout.
  repeat case_match; simplify_eq/=; try exact Hout;
    (apply Forall_app; split; [exact Hout | repeat constructor; eauto]).
Qed.

Lemma fold_lines_keeps (lines : list jsstring) (acc : value * value * list Out) :
  Forall P (snd acc) ->
  Forall P (snd (fold_left (transform_line channel config) lines acc)).
Proof.
  revert acc. induction lines as [|line lines IH]; intros acc Hacc; simpl; [exact Hacc|].
  apply IH, transform_line_keeps, Hacc.
Qed.

Lemma transform_text_keeps (t : Transformer) (text : jsstring) :
  Forall P (snd (transform_text channel config t text)).
Proof.
  unfold transform_text.
  pose proof (fold_lines_keeps (removelast (split_lines (buffer t ++ text)))
                (inputTokens t, outputTokens t, []) (Forall_nil_2 P)) as Hfold.
  destruct (fold_left _ _ _) as [[inT outT] out]. exact Hfold.
Qed.

Lemma pipeThrough_keeps (chunks : list (list N)) (t : Transformer) :
  Forall P (snd (pipeThrough channel config t chunks)).
Proof.
  revert t. induction chunks as [|c chunks IH]; intros t; simpl; [constructor|].
  unfold transform.
  pose proof (transform_text_keeps t (TextDecoder_decode c)) as H1.
  destruct (transform_text channel config t (TextDecoder_decode c)) as [t1 out1].
  pose proof (IH t1) as H2.
  destruct (pipeThrough channel config t1 chunks) as [t2 out2].
  apply Forall_app. split; assumption.
Qed.

End StreamedItems.

Section ModelField.
Context `{Platform}.

Lemma assoc_set_assoc (k : jsstring) (v : value) (fs : list (jsstring * value)) :
  assoc k (set_assoc k v fs) = v.
Proof.
  assert (Hk : streq k k = true) by now apply streq_eq.
  induction fs as [|[k' v'] fs IH]; simpl; [now rewrite Hk|].
  destruct (streq k k') eqn:E; simpl; [now rewrite Hk | now rewrite E].
Qed.

Lemma set_model_names (result out : value) (modelId : jsstring) :
  set_model result modelId = Some out ->
  model_of out = VStr modelId \/ exists l, out = VArr l.
Proof.
  destruct result; simpl; try discriminate; intros [= <-].
  - right. eauto.
  - left. unfold model_of, getq. simpl. apply assoc_set_assoc.
Qed.

Lemma is_str_eq (v : value) (s : string) : is_str v s = true -> v = VStr (lit s).
Proof.
  destruct v; cbn; try discriminate. intros Hs. apply streq_eq in Hs. now subst.
Qed.

Lemma translate_gemini_names (channel : ChannelConfig) (config : ModelConfig)
  (inT outT parsed inT' outT' transformed : value) :
  provider channel = ProviderType.GEMINI ->
  translate channel config inT outT parsed = Some (inT', outT', transformed) ->
  truthy transformed = true ->
  names_model (model_id config) (Data transformed).
Proof.
  intros Hp. unfold translate. rewrite Hp.
  destruct (nullish parsed); [discriminate|].
  change (streq ProviderType.GEMINI ProviderType.ANTHROPIC) with false.
  change (streq ProviderType.GEMINI ProviderType.GEMINI) with true.
  cbv iota.
  destruct (truthy (getq "text" _)); destruct (truthy (prop _ parsed));
    intros [= <- <- <-]; try discriminate; intros _; reflexivity.
Qed.

Lemma translate_anthropic_names (channel : ChannelConfig) (config : ModelConfig)
  (inT outT parsed inT' outT' transformed : value) :
  provider channel = ProviderType.ANTHROPIC ->
  translate channel config inT outT parsed = Some (inT', outT', transformed) ->
  truthy transformed = true ->
  names_model_or_closes (model_id config) (Data transformed).
Proof.
  intros Hp. unfold translate. rewrite Hp.
  destruct (nullish parsed); [discriminate|].
  change (streq ProviderType.ANTHROPIC ProviderType.ANTHROPIC) with true.
  cbv iota.
  destruct (is_str _ "content_block_delta" && _);
    [intros [= <- <- <-] _; left; split; [reflexivity | discriminate]|].
  destruct (is_str _ "message_delta");
    [destruct (truthy _); intros [= <- <- <-] _; right; split; reflexivity|].
  destruct (is_str _ "message_start" && _);
    [intros [= <- <- <-] _; left; split; [reflexivity | discriminate]|].
  intros [= <- <- <-]. discriminate.
Qed.

(** What the re-encoder builds for the three Anthropic events it
    translates. *)
Lemma translate_anthropic_events (channel : ChannelConfig) (config : ModelConfig)
  (inT outT parsed : value) :
  provider channel = ProviderType.ANTHROPIC ->
  nullish parsed = false ->
  let type := prop (lit "type") parsed in
  (is_str type "content_block_delta" = true ->
   truthy (getq "text" (prop (lit "delta") parsed)) = true ->
   exists inT' outT' transformed,
     translate channel config inT outT parsed = Some (inT', outT', transformed)
     /\ truthy transformed = true
     /\ model_of transformed = VStr (model_id config))
  /\ (is_str type "message_start" = true ->
      truthy (prop (lit "message") parsed) = true ->
      exists inT' outT' transformed,
        translate channel config inT outT parsed = Some (inT', outT', transformed)
        /\ truthy transformed = true
        /\ model_of transformed = VStr (model_id config))
  /\ (is_str type "message_delta" = true ->
      exists inT' outT' transformed,
        translate channel config inT outT parsed = Some (inT', outT', transformed)
        /\ truthy transformed = true
        /\ model_of transformed = VUndef).
Proof.
  intros Hp Hnull type. unfold translate. rewrite Hp, Hnull.
  change (streq ProviderType.ANTHROPIC ProviderType.ANTHROPIC) with true.
  cbv iota. fold type. split; [|split].
  - intros Ht Htext. rewrite Ht, Htext. cbn [andb].
    eexists _, _, _. split; [reflexivity|]. split; reflexivity.
  - intros Ht Hmessage. apply is_str_eq in Ht. rewrite Ht, Hmessage.
    change (is_str (VStr (lit "message_start")) "content_block_delta") with false.
    change (is_str (VStr (lit "message_start")) "message_delta") with false.
    change (is_str (VStr (lit "message_start")) "message_start") with true.
    cbn [andb]. eexists _, _, _. split; [reflexivity|]. split; reflexivity.
  - intros Ht. apply is_str_eq in Ht. rewrite Ht.
    change (is_str (VStr (lit "message_delta")) "content_block_delta") with false.
    change (is_str (VStr (lit "message_delta")) "message_delta") with true.
    cbn [andb]. destruct (truthy (prop (lit "usage") parsed));
      eexists _, _, _; (split; [reflexivity|]); split; reflexivity.
Qed.

Lemma anthropicToOpenAI_object (response out : value) :
  anthropicToOpenAI response = Some out -> exists fs, out = VObj fs.
Proof.
  unfold anthropicToOpenAI.
  destruct (get "content" response) as [content_v|]; [simpl|discriminate].
  destruct (texts_joined content_v); simpl; [|discriminate].
  intros [= <-]. eauto.
Qed.

Lemma geminiToOpenAI_object (response out : value) :
  geminiToOpenAI response = Some out -> exists fs, out = VObj fs.
Proof.
  unfold geminiToOpenAI.
  destruct (get "candidates" response) as [candidates|]; [simpl|discriminate].
  destruct (texts_joined _); simpl; [|discriminate].
  destruct (gemini_finish_reason _); simpl; [|discriminate].
  intros [= <-]. eauto.
Qed.

(** C9, as amended.  Model configurations are stored under their own
    [model_id].  The response object of a non-stream request then carries
    the requested model identifier in its model field; only a pass-through
    reply that is a JSON array rather than an object is returned as it is,
    without a model field.  In a stream, every chunk the re-encoder builds
    for a Gemini channel names the requested model, and so does every
    chunk it builds for an Anthropic content_block_delta or message_start
    event; the chunk it builds for a message_delta event, the one with an
    empty delta, has no model field. *)
Theorem response_model_field (upstream : Upstream) (request : Request)
  (env : Env) (kv kv1 : Store) (user : UserData) (body : Body)
  (modelId : jsstring) (config : ModelConfig) (channel : ChannelConfig) :
  models_named kv ->
  authenticateRequest request kv = (inr user, kv1) ->
  json request = Some body ->
  model body = Some modelId ->
  getModelConfig kv1 modelId = Some (config, channel) ->
  let r := handleChatCompletions upstream request env kv in
  (forall result, response r = jsonResponse result ->
     ((exists fields, result = VObj fields) /\ model_of result = VStr modelId)
     \/ ((exists l, result = VArr l) /\ model_of result = VUndef
         /\ provider channel <> ProviderType.ANTHROPIC
         /\ provider channel <> ProviderType.GEMINI))
  /\ (forall out, response r = eventStream out ->
        (provider channel = ProviderType.GEMINI -> Forall (names_model modelId) out)
        /\ (provider channel = ProviderType.ANTHROPIC ->
              Forall (names_model_or_closes modelId) out))
  /\ (provider channel = ProviderType.ANTHROPIC ->
      forall inT outT parsed,
        nullish parsed = false ->
        let type := prop (lit "type") parsed in
        (is_str type "content_block_delta" = true ->
         truthy (getq "text" (prop (lit "delta") parsed)) = true ->
         exists inT' outT' transformed,
           translate channel config inT outT parsed = Some (inT', outT', transformed)
           /\ truthy transformed = true
           /\ model_of transformed = VStr modelId)
        /\ (is_str type "message_start" = true ->
            truthy (prop (lit "message") parsed) = true ->
            exists inT' outT' transformed,
              translate channel config inT outT parsed = Some (inT', outT', transformed)
              /\ truthy transformed = true
              /\ model_of transformed = VStr modelId)
        /\ (is_str type "message_delta" = true ->
            exists inT' outT' transformed,
              translate channel config inT outT parsed = Some (inT', outT', transformed)
              /\ truthy transformed = true
              /\ model_of transformed = VUndef)).
Proof.
  intros Hnamed Hauth Hjson Hmodel Hconfig r.
  assert (Hid : model_id config = modelId).
  { destruct (authenticateRequest_keeps _ _ _ _ Hauth) as (_ & _ & Hm & _).
    apply (Hnamed modelId). rewrite <- Hm.
    revert Hconfig. unfold getModelConfig, getModel.
    destruct (models kv1 !! modelId) as [config'|]; [|discriminate].
    destruct (negb (enabled config')); [discriminate|].
    destruct (getChannel kv1 (channel_id config')) as [channel'|]; [|discriminate].
    destruct (negb (channel_enabled channel')); [discriminate|].
    now intros [= -> _]. }
  split; [|split].
  3:{ intros Hp inT outT parsed Hnull. rewrite <- Hid.
      now apply translate_anthropic_events. }
  all: subst r; unfold handleChatCompletions; rewrite Hauth, Hjson, Hmodel.
  all: destruct modelId as [|c modelId]; [intros; discriminate|].
  all: rewrite Hconfig.
  all: destruct (Qltb _ _); [intros; discriminate|].
  all: destruct (createProvider channel); [|intros; discriminate].
  all: destruct (upstream _) as [|chunks]; [intros; discriminate|].
  all: destruct (match stream body with VBool true => true | _ => false end).
  - destruct (pipeThrough channel config createStreamTransformer chunks) as [t out'].
    destruct (if waitUntil env then _ else _) as [s kv']. intros; discriminate.
  - match goal with
    | |- context [match ?c with Some _ => _ | None => _ end] => destruct c eqn:Hconv
    end; [|intros; discriminate].
    match goal with
    | |- context [let '(_, _) := ?c in _] => destruct c
    end. simpl.
    intros result [= <-].
    destruct (JSON_parse _) as [parsed|]; [|discriminate].
    simpl in Hconv.
    assert (Hset : forall before out,
              set_model before (c :: modelId) = Some out ->
              ((exists fields, out = VObj fields) /\ model_of out = VStr (c :: modelId))
              \/ ((exists l, out = VArr l) /\ model_of out = VUndef
                  /\ exists l, before = VArr l)).
    { intros before out. destruct before; simpl; try discriminate; intros [= <-].
      - right. eauto.
      - left. split; [eauto|]. unfold model_of, getq. simpl. apply assoc_set_assoc. }
    destruct (streq (provider channel) ProviderType.ANTHROPIC) eqn:Ha.
    { destruct (anthropicToOpenAI parsed) as [converted|] eqn:Hc; [|discriminate].
      apply anthropicToOpenAI_object in Hc as [fs ->]. simpl in Hconv.
      left. destruct (Hset (VObj fs) _ Hconv) as [|(_ & _ & l & Hl)]; [assumption|].
      discriminate. }
    destruct (streq (provider channel) ProviderType.GEMINI) eqn:Hg.
    { destruct (geminiToOpenAI parsed) as [converted|] eqn:Hc; [|discriminate].
      apply geminiToOpenAI_object in Hc as [fs ->]. simpl in Hconv.
      left. destruct (Hset (VObj fs) _ Hconv) as [|(_ & _ & l & Hl)]; [assumption|].
      discriminate. }
    simpl in Hconv. apply streq_neq in Ha, Hg.
    destruct (Hset _ _ Hconv) as [|(Harr & Hnone & _)]; auto.
  - pose proof (fun P d t => pipeThrough_keeps channel config P d t chunks
                               createStreamTransformer) as Hkeeps.
    destruct (pipeThrough channel config createStreamTransformer chunks) as [t out'].
    destruct (if waitUntil env then _ else _) as [s kv'].
    simpl in *.
    intros out [= <-]. rewrite <- Hid.
    split; intros Hp; apply Hkeeps; try exact I; intros.
    + eapply translate_gemini_names; eauto.
    + eapply translate_anthropic_names; eauto.
  - match goal with
    | |- context [match ?c with Some _ => _ | None => _ end] => destruct c eqn:Hconv
    end; [|intros; discriminate].
    match goal with
    | |- context [let '(_, _) := ?c in _] => destruct c
    end. simpl. intros; discriminate.
Qed.

(** [setModel] and [deleteModel] keep every configuration under its own
    [model_id], and a chat request writes no configuration. *)
Lemma models_named_kept (kv : Store) :
  models_named kv ->
  (forall modelId config, models_named (setModel kv modelId config))
  /\ (forall modelId, models_named (deleteModel kv modelId))
  /\ (forall upstream request env,
        models (kv_after (handleChatCompletions upstream request env kv)) = models kv ->
        models_named (kv_after (handleChatCompletions upstream request env kv))).
Proof.
  intros Hnamed. split; [|split].
  - intros modelId config id stored. unfold setModel. cbn [models with_models].
    destruct (decide (id = modelId)) as [->|Hne].
    + rewrite lookup_insert_eq. now intros [= <-].
    + rewrite lookup_insert_ne by congruence. apply Hnamed.
  - intros modelId id stored. unfold deleteModel. cbn [models with_models].
    intros Hl. apply lookup_delete_Some in Hl as [_ Hl]. now apply Hnamed.
  - intros upstream request env Hsame id stored. rewrite Hsame. apply Hnamed.
Qed.

End ModelField.

(** ** The stream transformer and chunk boundaries *)

Lemma split_lines_nonempty (s : jsstring) : split_lines s <> [].
Proof.
  destruct s as [|c s]; simpl; [discriminate|].
  destruct (c =? 10)%N; [discriminate|].
  destruct (split_lines s); discriminate.
Qed.

(** [lines_rest] is [split] followed by [pop]. *)
Lemma lines_rest_split (s : jsstring) :
  lines_rest s = (removelast (split_lines s), List.last (split_lines s) []).
Proof.
  induction s as [|c s IH]; [reflexivity|].
  pose proof (split_lines_nonempty s) as Hne.
  simpl lines_rest. simpl split_lines. rewrite IH.
  destruct (split_lines s) as [|h t]; [congruence|].
  destruct (c =? 10)%N; [reflexivity|].
  destruct t as [|h' t]; reflexivity.
Qed.

(** Complete lines do not depend on where the text was cut. *)
Lemma lines_rest_app (a b : jsstring) :
  lines_rest (a ++ b)
  = (fst (lines_rest a) ++ fst (lines_rest (snd (lines_rest a) ++ b)),
     snd (lines_rest (snd (lines_rest a) ++ b))).
Proof.
  induction a as [|c a IH]; simpl.
  - now destruct (lines_rest b).
  - rewrite IH. destruct (lines_rest a) as [la ra]. simpl.
    destruct (lines_rest (ra ++ b)) as [lb rb] eqn:Hb. simpl.
    destruct (c =? 10)%N eqn:Hc; simpl.
    + now rewrite Hb.
    + destruct la as [|h t]; simpl.
      * rewrite Hb, Hc. now destruct lb.
      * now rewrite Hb.
Qed.

Lemma lines_rest_no_feed (s : jsstring) :
  lines_rest (snd (lines_rest s)) = ([], snd (lines_rest s)).
Proof.
  induction s as [|c s IH]; [reflexivity|]. simpl.
  destruct (lines_rest s) as [ls rest]. simpl in IH.
  destruct (c =? 10)%N eqn:Hc; simpl; [exact IH|].
  destruct ls as [|h t]; simpl; [|exact IH].
  now rewrite IH, Hc.
Qed.

Section ChunkBoundaries.
Context `{Platform}.
Variables (channel : ChannelConfig) (config : ModelConfig).

Lemma transform_line_out (inT outT : value) (out : list Out) (line : jsstring) :
  transform_line channel config (inT, outT, out) line
  = (fst (transform_line channel config (inT, outT, []) line),
     out ++ snd (transform_line channel config (inT, outT, []) line)).
Proof.
  unfold transform_line.
  repeat case_match; simplify_eq/=; now rewrite ?app_nil_r.
Qed.

Lemma fold_lines_out (lines : list jsstring) (inT outT : value) (out : list Out) :
  fold_left (transform_line channel config) lines (inT, outT, out)
  = (fst (fold_left (transform_line channel config) lines (inT, outT, [])),
     out ++ snd (fold_left (transform_line channel config) lines (inT, outT, []))).
Proof.
  revert inT outT out.
  induction lines as [|line lines IH]; intros inT outT out; cbn [fold_left].
  - cbn [fst snd]. now rewrite app_nil_r.
  - rewrite (transform_line_out inT outT out).
    destruct (transform_line channel config (inT, outT, []) line) as [[inT' outT'] d].
    cbn [fst snd]. rewrite (IH inT' outT' (out ++ d)), (IH inT' outT' d).
    cbn [fst snd]. now rewrite app_assoc.
Qed.

(** [transform] in terms of [lines_rest]. *)
Lemma transform_text_lines (t : Transformer) (text : jsstring) :
  transform_text channel config t text
  = let '(inT, outT, out) :=
      fold_left (transform_line channel config)
        (fst (lines_rest (buffer t ++ text))) (inputTokens t, outputTokens t, []) in
    ({| inputTokens := inT; outputTokens := outT;
        buffer := snd (lines_rest (buffer t ++ text)) |}, out).
Proof.
  unfold transform_text. now rewrite lines_rest_split.
Qed.

(** Feeding a text in two pieces gives the counters, the buffer and the
    output of feeding it in one. *)
Lemma transform_text_app (t : Transformer) (a b : jsstring) :
  transform_text channel config t (a ++ b)
  = let '(t1, out1) := transform_text channel config t a in
    let '(t2, out2) := transform_text channel config t1 b in
    (t2, out1 ++ out2).
Proof.
  rewrite (transform_text_lines t (a ++ b)), (transform_text_lines t a).
  rewrite app_assoc, lines_rest_app. cbn [fst snd]. rewrite fold_left_app.
  destruct (fold_left _ (fst (lines_rest (buffer t ++ a))) _) as [[inT outT] out1].
  rewrite transform_text_lines. cbn [inputTokens outputTokens buffer].
  rewrite (fold_lines_out _ inT outT out1).
  destruct (fold_left _ _ (inT, outT, [])) as [[inT' outT'] out2]. reflexivity.
Qed.

Lemma transform_text_nil (t : Transformer) :
  lines_rest (buffer t) = ([], buffer t) ->
  transform_text channel config t [] = (t, []).
Proof.
  intros Hb. rewrite transform_text_lines, app_nil_r, Hb. now destruct t.
Qed.

End ChunkBoundaries.

Section Rechunking.
Context `{Platform}.
Variables (channel : ChannelConfig) (config : ModelConfig).

Lemma transform_text_buffer (t : Transformer) (text : jsstring) :
  buffer (fst (transform_text channel config t text))
  = snd (lines_rest (buffer t ++ text)).
Proof.
  rewrite transform_text_lines. now destruct (fold_left _ _ _) as [[inT outT] out].
Qed.

(** Piping chunks through is transforming the concatenation of their
    decoded texts. *)
Lemma pipeThrough_text (chunks : list (list N)) (t : Transformer) :
  lines_rest (buffer t) = ([], buffer t) ->
  pipeThrough channel config t chunks
  = transform_text channel config t (concat (map TextDecoder_decode chunks)).
Proof.
  revert t. induction chunks as [|c chunks IH]; intros t Hb.
  - simpl. symmetry. now apply transform_text_nil.
  - cbn [pipeThrough map concat]. rewrite transform_text_app. unfold transform.
    pose proof (transform_text_buffer t (TextDecoder_decode c)) as Hbuf.
    destruct (transform_text channel config t (TextDecoder_decode c)) as [t1 out1].
    simpl in Hbuf. rewrite IH; [reflexivity|].
    rewrite Hbuf. apply lines_rest_no_feed.
Qed.

(** Where decoding the chunks one by one gives the text of the whole
    stream, feeding the chunks one at a time gives what feeding the whole
    stream as one chunk gives. *)
Lemma pipeThrough_rechunk (chunks : list (list N)) :
  TextDecoder_decode (concat chunks) = concat (map TextDecoder_decode chunks) ->
  pipeThrough channel config createStreamTransformer chunks
  = pipeThrough channel config createStreamTransformer [concat chunks].
Proof.
  intros Hdecode. rewrite !pipeThrough_text by reflexivity.
  simpl. now rewrite app_nil_r, Hdecode.
Qed.

End Rechunking.

Lemma decode_ascii (bytes : list N) : is_ascii bytes -> TextDecoder_decode bytes = bytes.
Proof.
  unfold is_ascii, TextDecoder_decode. intros Hascii.
  assert (Hbom : strip_bom bytes = bytes).
  { destruct Hascii as [|b0 ? Hb0 [|b1 ? Hb1 [|b2 r Hb2 Hr]]]; try reflexivity.
    simpl. replace (b0 =? 239)%N with false; [reflexivity|].
    symmetry. apply N.eqb_neq. lia. }
  rewrite Hbom. clear Hbom.
  induction Hascii as [|b r Hb Hr IH]; [reflexivity|].
  cbn [utf8_run]. unfold utf8_step, utf8_init at 1. cbn [u_needed]. unfold utf8_lead.
  replace (b <=? 127)%N with true by (symmetry; apply N.leb_le; lia).
  cbn [app flat_map]. rewrite IH. unfold utf16.
  replace (b <? 65536)%N with true by (symmetry; apply N.ltb_lt; lia).
  reflexivity.
Qed.

(** An all-ASCII stream may be cut anywhere. *)
Lemma pipeThrough_rechunk_ascii `{Platform} (channel : ChannelConfig)
  (config : ModelConfig) (chunks : list (list N)) :
  Forall is_ascii chunks ->
  pipeThrough channel config createStreamTransformer chunks
  = pipeThrough channel config createStreamTransformer [concat chunks].
Proof.
  intros Hascii. apply pipeThrough_rechunk.
  rewrite decode_ascii.
  - f_equal. induction Hascii as [|c chunks Hc Hcs IH]; [reflexivity|].
    simpl. now rewrite decode_ascii, <- IH.
  - unfold is_ascii. induction Hascii as [|c chunks Hc Hcs IH]; simpl; [constructor|].
    apply Forall_app. split; assumption.
Qed.

(** C3 fails on the code where a chunk boundary falls inside a multi-byte
    character: an event whose text is U+4F60 comes out with that text when
    fed whole, and with three U+FFFD in its place when the same bytes are
    fed cut after the first byte of the character. *)
Theorem cut_inside_character_differs :
  let feed := pipeThrough (H := Examples.platform)
                (Examples.channel_of ProviderType.OPENAI) Examples.gpt4o
                createStreamTransformer in
  concat Examples.cut_event = concat Examples.whole_event
  /\ snd (feed Examples.whole_event) = [Data (Examples.delta_chunk [20320%N])]
  /\ snd (feed Examples.cut_event)
     = [Data (Examples.delta_chunk [65533%N; 65533%N; 65533%N])]
  /\ snd (feed Examples.cut_event) <> snd (feed Examples.whole_event).
Proof.
  cbv zeta. split; [reflexivity|]. split; [reflexivity|]. split; [reflexivity|].
  vm_compute. discriminate.
Qed.

(** ** The handler on concrete requests *)

Section Runs.
Import Examples.

(** The specification's end-to-end scenario: "Hello!" to a channel in the
    Anthropic format, prices 5 and 15, the vendor answering "Hi there!"
    with usage (5, 3). *)
Example end_to_end :
  let kv := store 10 gpt4o (channel_of ProviderType.ANTHROPIC) in
  let r := run (replies anthropic_reply) (hello false) kv in
  exists result user,
    response r = jsonResponse result
    /\ model_of result = str "gpt-4o"
    /\ finish_reason_of result = str "stop"
    /\ getq "content" (getq "message" (first (getq "choices" result))) = str "Hi there!"
    /\ settlement r = Settled 5 3 (calculateCost gpt4o 5 3)
    /\ getUser (kv_after r) (lit "u1") = Some user
    /\ (balance user == 10 - amount (7 # 100))%Q.
Proof.
  cbv zeta. eexists. eexists.
  split; [vm_compute; reflexivity|].
  repeat (split; [vm_compute; reflexivity|]). reflexivity.
Qed.

Lemma unavailable_model_rejected_witness :
  let kv := store 10 gpt4o_disabled openai in
  let r := run (replies openai_stream) (hello false) kv in
  response r = errorResponse ModelUnavailable
  /\ dispatched r = []
  /\ users (kv_after r) = users kv
  /\ usage (kv_after r) = usage kv.
Proof.
  cbv zeta.
  destruct (unavailable_model_rejected (H := platform)
              (replies openai_stream) (hello false) env
              (store 10 gpt4o_disabled openai)
              (stamped (store 10 gpt4o_disabled openai))
              (alice 10)
              (request_body "gpt-4o" false [user_message "Hello!"])
              (lit "gpt-4o"))
    as (Hresponse & _ & Hdispatched & _ & Husers & Husage).
  - vm_compute. reflexivity.
  - reflexivity.
  - reflexivity.
  - vm_compute. discriminate.
  - vm_compute. left. reflexivity.
  - auto.
Defined.





Lemma store_models_named (funds : Q) (channel : ChannelConfig) :
  models_named (store funds gpt4o channel).
Proof.
  intros id config Hl. cbn in Hl.
  apply lookup_singleton_Some in Hl as [<- <-]. reflexivity.
Qed.

Lemma response_model_field_witness :
  (let kv := store 10 gpt4o (channel_of ProviderType.ANTHROPIC) in
   let r := run (replies anthropic_reply) (hello false) kv in
   exists result, response r = jsonResponse result /\ model_of result = str "gpt-4o")
  /\ (let kv := store 10 gpt4o (channel_of ProviderType.GEMINI) in
      let r := run (replies gemini_stream) (hello true) kv in
      exists out, response r = eventStream out
                  /\ Forall (names_model (lit "gpt-4o")) out).
Proof.
  cbv zeta. split.
  - eexists. split; [vm_compute; reflexivity|].
    destruct (proj1
      (response_model_field (H := platform)
         (replies anthropic_reply) (hello false) env
         (store 10 gpt4o (channel_of ProviderType.ANTHROPIC))
         (stamped (store 10 gpt4o (channel_of ProviderType.ANTHROPIC)))
         (alice 10)
         (request_body "gpt-4o" false [user_message "Hello!"])
         (lit "gpt-4o") gpt4o (channel_of ProviderType.ANTHROPIC)
         (store_models_named 10 (channel_of ProviderType.ANTHROPIC))
         ltac:(vm_compute; reflexivity) eq_refl eq_refl
         ltac:(vm_compute; reflexivity))
      _ ltac:(vm_compute; reflexivity)) as [[_ Hmodel]|[[l Harray] _]].
    + exact Hmodel.
    + discriminate Harray.
  - eexists. split; [vm_compute; reflexivity|].
    apply (proj1 (proj1 (proj2
      (response_model_field (H := platform)
         (replies gemini_stream) (hello true) env
         (store 10 gpt4o (channel_of ProviderType.GEMINI))
         (stamped (store 10 gpt4o (channel_of ProviderType.GEMINI)))
         (alice 10)
         (request_body "gpt-4o" true [user_message "Hello!"])
         (lit "gpt-4o") gpt4o (channel_of ProviderType.GEMINI)
         (store_models_named 10 (channel_of ProviderType.GEMINI))
         ltac:(vm_compute; reflexivity) eq_refl eq_refl
         ltac:(vm_compute; reflexivity)))
      _ ltac:(vm_compute; reflexivity))).
    reflexivity.
Defined.

(** C9, as stated, fails: the chunk the re-encoder builds for an Anthropic
    message_delta event has no model field, so it does not carry the
    "gpt-4o" that was requested. *)
Lemma message_delta_chunk_without_model :
  let kv := store 10 gpt4o (channel_of ProviderType.ANTHROPIC) in
  let r := run (replies anthropic_stream) (hello true) kv in
  exists opening text closing,
    response r = eventStream [Data opening; Data text; Data closing]
    /\ model_of opening = str "gpt-4o"
    /\ model_of text = str "gpt-4o"
    /\ finish_reason_of closing = str "stop"
    /\ model_of closing = VUndef
    /\ model_of closing <> str "gpt-4o".
Proof.
  cbv zeta. eexists. eexists. eexists.
  split; [vm_compute; reflexivity|].
  repeat (split; [reflexivity|]). vm_compute. discriminate.
Qed.

(** On a pass-through channel with an upstream model name override, a
    streamed chunk reaches the client as the upstream sent it, under the
    upstream's model name; the non-stream path of the same channel
    overwrites the name. *)
Lemma passthrough_chunk_keeps_upstream_name :
  let r := run (replies openai_stream) (hello true) (store 10 gpt4o openai) in
  exists chunk rest,
    response r = eventStream (Data chunk :: rest)
    /\ model_of chunk = str "gpt-4o-2024-08-06"
    /\ model_of chunk <> str "gpt-4o".
Proof.
  cbv zeta. eexists. eexists.
  split; [vm_compute; reflexivity|]. split; [reflexivity|].
  vm_compute. discriminate.
Qed.

End Runs.


(** * Further properties of the code *)

(** ** The token estimator *)

(** X1. A text is estimated at no less than a quarter and no more than two
    thirds of its length, rounded up, hence at no more than its length; the
    estimate is 0 for the empty and for the absent text only. *)
Theorem estimateTokens_bounds (s : jsstring) :
  let n := Z.of_nat (length s) in
  (n + 3) / 4 <= estimateTokens (Some s) <= (2 * n + 2) / 3
  /\ estimateTokens (Some s) <= n
  /\ (estimateTokens (Some s) = 0 <-> s = [])
  /\ estimateTokens None = 0.
Proof.
  intros n. rewrite estimateTokens_twelfths. fold n.
  pose proof (cjk_count_bounds s) as Hc. fold n in Hc.
  set (c := cjk_count s) in *. clearbody c.
  assert (Hn : n = 0 <-> s = []).
  { subst n. destruct s; simpl; split; intros; try lia; congruence. }
  clearbody n.
  split; [|split; [|split; [|reflexivity]]].
  - split; Z.div_mod_to_equations; lia.
  - Z.div_mod_to_equations; lia.
  - rewrite <- Hn. clear Hn. split; intros; Z.div_mod_to_equations; lia.
Qed.

Lemma estimateInputTokens_with_messages (body : Body) (msgs : list Message) :
  estimateInputTokens (with_messages body msgs)
  = Zsum (map segment_tokens (flat_map message_segments msgs))
    + estimateInputTokens (with_messages body []).
Proof.
  unfold estimateInputTokens, with_messages. cbn [messages contents].
  rewrite fold_messages.
  destruct (contents body) as [cs|]. 2:{ cbn [fold_left]. lia. }
  rewrite !fold_contents. cbn [fold_left]. lia.
Qed.

Lemma Zsum_Permutation (a b : list Z) : Permutation a b -> Zsum a = Zsum b.
Proof. induction 1; simpl; lia. Qed.

(** X2. The estimate of a request does not depend on the roles of its messages
    nor on their order: requests whose messages have the same contents, in
    any order, are estimated alike. *)
Theorem estimateInputTokens_contents_only (body : Body) (msgs msgs' : list Message) :
  Permutation (map content msgs) (map content msgs') ->
  estimateInputTokens (with_messages body msgs)
  = estimateInputTokens (with_messages body msgs').
Proof.
  intros Hperm. rewrite (estimateInputTokens_with_messages body msgs), (estimateInputTokens_with_messages body msgs'). f_equal.
  assert (Hseg : forall l : list Message,
            map segment_tokens (flat_map message_segments l)
            = flat_map (fun c => map segment_tokens
                                   (message_segments {| role := []; content := c |}))
                       (map content l)).
  { induction l as [|m l IH]; [reflexivity|]. cbn [flat_map map]. rewrite map_app, IH.
    destruct m as [r c]. reflexivity. }
  rewrite !Hseg. apply Zsum_Permutation.
  clear Hseg. induction Hperm; cbn [flat_map].
  - constructor.
  - now apply Permutation_app_head.
  - rewrite !app_assoc. apply Permutation_app_tail, Permutation_app_comm.
  - etransitivity; eassumption.
Qed.

Lemma estimateInputTokens_contents_only_witness :
  estimateInputTokens
    (with_messages Examples.with_tool_result
       [Examples.user_message "a"; Examples.tool_message])
  = estimateInputTokens
      (with_messages Examples.with_tool_result
         [ {| role := lit "assistant"; content := CString (lit "42") |};
           {| role := lit "system"; content := CString (lit "a") |} ]).
Proof.
  apply estimateInputTokens_contents_only. apply perm_swap.
Defined.

(** ** Request translation *)

Lemma collect_system {T U} (f : Message -> T) (g : Message -> U)
  (msgs : list Message) (system : jsstring) (ts : list T) (us : list U) :
  fst (collect f msgs system ts) = fst (collect g msgs system us).
Proof.
  revert system ts us. induction msgs as [|msg msgs IH]; intros system ts us.
  - reflexivity.
  - cbn [collect]. destruct (streq (role msg) (lit "system")); apply IH.
Qed.

Lemma concat_sep_cons (sep x y : jsstring) (l : list jsstring) :
  concat_sep sep ((x ++ sep ++ y) :: l) = x ++ sep ++ concat_sep sep (y :: l).
Proof.
  destruct l as [|z l]; cbn [concat_sep]; [reflexivity|].
  now rewrite <- !app_assoc.
Qed.

Lemma collect_system_joined {T} (f : Message -> T) (msgs : list Message)
  (system : jsstring) (ts : list T) :
  Forall (fun t => t <> [])
    (map (fun msg => content_string (content msg)) (List.filter is_system msgs)) ->
  fst (collect f msgs system ts)
  = concat_sep [10%N]
      (match system with [] => [] | _ => [system] end
       ++ map (fun msg => content_string (content msg)) (List.filter is_system msgs)).
Proof.
  revert system ts. induction msgs as [|msg msgs IH]; intros system ts Hne.
  - cbn [collect List.filter map fst]. rewrite app_nil_r. now destruct system.
  - cbn [collect]. cbn [List.filter] in Hne |- *.
    change (streq (role msg) (lit "system")) with (is_system msg).
    destruct (is_system msg).
    + cbn [map] in Hne |- *. apply Forall_cons in Hne as [Ht Hl].
      rewrite (IH _ _ Hl).
      destruct (content_string (content msg)) as [|c t] eqn:Ec; [congruence|].
      destruct system as [|d system]; cbn [app].
      * reflexivity.
      * change ((d :: system) ++ [10%N] ++ c :: t)
          with ((d :: system) ++ [10%N] ++ (c :: t)).
        cbn [app]. change (d :: (system ++ 10%N :: c :: t))
          with ((d :: system) ++ [10%N] ++ (c :: t)).
        apply concat_sep_cons.
    + apply IH, Hne.
Qed.

(** X3. The Anthropic and the Gemini form of a request carry the same system
    text; where no system message is empty it is the system messages'
    contents, in order, joined by line feeds, and it is absent where there
    is no system message. *)
Theorem system_messages_merged (body : Body) :
  a_system (toAnthropic body) = systemInstruction (toGemini body)
  /\ (Forall (fun t => t <> []) (system_texts body) ->
      a_system (toAnthropic body) = nonempty (concat_sep [10%N] (system_texts body))).
Proof.
  unfold toAnthropic, toGemini, system_texts.
  match goal with |- context [collect ?f ?l ?s (@nil AnthropicMessage)] =>
    pose proof (collect_system_joined f l s []) as Hjoin;
    match goal with |- context [collect ?g l s (@nil GeminiContent)] =>
      pose proof (collect_system f g l s [] []) as Hsame;
      destruct (collect f l s []) as [sys ts];
      destruct (collect g l s []) as [sys' cs]
    end
  end.
  cbn [fst a_system systemInstruction] in *. subst sys'. split; [reflexivity|].
  intros Hne. now rewrite (Hjoin Hne).
Qed.

Lemma system_messages_merged_witness :
  a_system (toAnthropic Examples.with_tool_result) = Some (lit "Be brief.").
Proof.
  apply (proj2 (system_messages_merged Examples.with_tool_result)).
  repeat constructor. vm_compute. discriminate.
Defined.

(** X4. The stop sequences of the vendor payload are the same in both forms and
    are absent or an array: a falsy [stop] is left out, an array is passed
    on, and a single string is wrapped in an array. *)
Theorem stop_sequences_normalised (body : Body) :
  let s := a_stop_sequences (toAnthropic body) in
  stopSequences (generationConfig (toGemini body)) = s
  /\ (s = VUndef \/ exists l, s = VArr l)
  /\ (truthy (stop body) = false -> s = VUndef)
  /\ (forall l, stop body = VArr l -> s = VArr l)
  /\ (forall t, t <> [] -> stop body = VStr t -> s = VArr [VStr t]).
Proof.
  unfold toAnthropic, toGemini.
  destruct (collect _ _ _ _) as [sys ts]. destruct (collect _ _ _ _) as [sys' cs].
  cbn [a_stop_sequences generationConfig stopSequences]. unfold stop_array.
  split; [reflexivity|]. split; [|split; [|split]].
  - destruct (truthy (stop body)); [|now left].
    right. destruct (stop body); eauto.
  - now intros ->.
  - now intros l ->.
  - intros [|c t] Hne ->; [congruence|reflexivity].
Qed.

Lemma stop_sequences_normalised_witness :
  a_stop_sequences
    (toAnthropic (Examples.stopping (str "END")))
  = VArr [str "END"]
  /\ a_stop_sequences (toAnthropic (Examples.stopping VNull)) = VUndef.
Proof.
  split.
  - apply (proj2 (proj2 (proj2 (proj2
      (stop_sequences_normalised (Examples.stopping (str "END"))))))
      (lit "END")); [vm_compute; discriminate | reflexivity].
  - apply (proj1 (proj2 (proj2
      (stop_sequences_normalised (Examples.stopping VNull))))). reflexivity.
Defined.

(** X5. Translation drops the system messages and nothing else: the turns of
    the vendor payload are the other messages, one turn each, in their
    order and with their contents. *)
Theorem turns_kept_in_order (body : Body) :
  map a_content (a_messages (toAnthropic body)) = map content (turns_of body)
  /\ map g_parts (g_contents (toGemini body))
     = map (fun msg => [{| g_text := content msg |}]) (turns_of body)
  /\ length (a_messages (toAnthropic body)) = length (turns_of body)
  /\ length (g_contents (toGemini body)) = length (turns_of body).
Proof.
  rewrite toAnthropic_messages, toGemini_contents. fold (turns_of body).
  rewrite !map_map, !length_map. auto.
Qed.

(** ** Response conversion *)

Lemma concat_sep_nil (l : list jsstring) : concat_sep [] l = concat l.
Proof.
  induction l as [|x l IH]; [reflexivity|]. cbn [concat_sep concat].
  destruct l as [|y l]; [now rewrite app_nil_r|]. now rewrite <- IH.
Qed.

Lemma texts_joined_blocks (blocks : list value) (texts : list jsstring) :
  Forall2 (fun b t => get "text" b = Some (VStr t)) blocks texts ->
  texts_joined (VArr blocks) = Some (concat texts).
Proof.
  intros Hblocks. unfold texts_joined.
  assert (HmapM : mapM (get "text") blocks = Some (map VStr texts)).
  { apply mapM_Some. induction Hblocks; constructor; auto. }
  rewrite HmapM. cbn [fmap option_fmap option_map]. f_equal.
  unfold join. rewrite map_map. cbn [nullish ToString].
  rewrite map_id. apply concat_sep_nil.
Qed.

Section Conversion.
Context `{Platform}.

(** X6. The Anthropic reply's list of content blocks becomes one string, the
    blocks' texts concatenated in order; a reply without content converts
    to the empty text; a [null] reply, and a reply whose content is a plain
    string rather than a list of blocks, make the conversion throw. *)
Theorem anthropic_text_flattened (response : value) :
  (forall blocks texts,
     prop (lit "content") response = VArr blocks ->
     Forall2 (fun b t => get "text" b = Some (VStr t)) blocks texts ->
     exists out, anthropicToOpenAI response = Some out
                 /\ content_of out = VStr (concat texts))
  /\ (nullish response = false ->
      nullish (prop (lit "content") response) = true ->
      exists out, anthropicToOpenAI response = Some out /\ content_of out = VStr [])
  /\ (nullish response = true -> anthropicToOpenAI response = None)
  /\ (forall s, prop (lit "content") response = VStr s ->
                anthropicToOpenAI response = None).
Proof.
  split; [|split; [|split]].
  - intros blocks texts Hcontent Hblocks.
    assert (Hnn : nullish response = false) by (destruct response; easy).
    unfold anthropicToOpenAI, get. rewrite Hnn. cbn [mbind option_bind].
    rewrite Hcontent, (texts_joined_blocks _ _ Hblocks). cbn [mbind option_bind].
    eexists. split; reflexivity.
  - intros Hnn Hnone. unfold anthropicToOpenAI, get. rewrite Hnn.
    cbn [mbind option_bind].
    destruct (prop (lit "content") response); try discriminate;
      cbn [texts_joined mbind option_bind]; eexists; split; reflexivity.
  - intros Hn. unfold anthropicToOpenAI, get. now rewrite Hn.
  - intros s Hs. unfold anthropicToOpenAI, get.
    destruct (nullish response); [reflexivity|].
    cbn [mbind option_bind]. now rewrite Hs.
Qed.

(** X7. Of a Gemini reply only the first candidate is read: its parts' texts
    are concatenated in order, whatever other candidates there are; a reply
    without candidates converts to the empty text with no finish reason. *)
Theorem gemini_first_candidate (response candidate : value) (others : list value) :
  prop (lit "candidates") response = VArr (candidate :: others) ->
  (forall blocks texts r,
     getq "parts" (getq "content" candidate) = VArr blocks ->
     Forall2 (fun b t => get "text" b = Some (VStr t)) blocks texts ->
     getq "finishReason" candidate = VStr r ->
     exists out, geminiToOpenAI response = Some out
                 /\ content_of out = VStr (concat texts))
  /\ (forall response',
        nullish response' = false ->
        nullish (prop (lit "candidates") response') = true ->
        exists out, geminiToOpenAI response' = Some out
                    /\ content_of out = VStr []
                    /\ finish_reason_of out = VUndef).
Proof.
  intros Hcands. split.
  - intros blocks texts r Hparts Hblocks Hr.
    assert (Hnn : nullish response = false) by (destruct response; easy).
    unfold geminiToOpenAI, get. rewrite Hnn. cbn [mbind option_bind].
    rewrite Hcands. cbn [first]. rewrite Hparts, (texts_joined_blocks _ _ Hblocks).
    cbn [mbind option_bind]. unfold gemini_finish_reason. rewrite Hr.
    destruct (is_str (VStr r) "STOP"); cbn [mbind option_bind];
      eexists; split; reflexivity.
  - intros response' Hnn Hnone. unfold geminiToOpenAI, get. rewrite Hnn.
    cbn [mbind option_bind].
    destruct (prop (lit "candidates") response'); try discriminate;
      cbn [first getq nullish texts_joined mbind option_bind];
      eexists; repeat split; reflexivity.
Qed.

Lemma js_or_count (i : Z) : js_or (VNum i) (VNum 0) = VNum i.
Proof.
  unfold js_or, truthy. destruct (Z.eqb_spec i 0) as [->|]; reflexivity.
Qed.

(** X8. Usage extraction.  An Anthropic reply's input and output counts become
    the prompt and completion counts and their sum the total; an absent
    usage block gives 0 for all three.  A Gemini reply's total is the
    vendor's own total count, 0 when the vendor gives none, not the sum of
    the other two. *)
Theorem vendor_usage_extracted (response : value) (text : jsstring) :
  ((content_v ← get "content" response; texts_joined content_v) = Some text ->
   exists out,
     anthropicToOpenAI response = Some out
     /\ (forall i o,
           getq "input_tokens" (prop (lit "usage") response) = VNum i ->
           getq "output_tokens" (prop (lit "usage") response) = VNum o ->
           usage_of "prompt_tokens" out = VNum i
           /\ usage_of "completion_tokens" out = VNum o
           /\ usage_of "total_tokens" out = VNum (i + o))
     /\ (nullish (prop (lit "usage") response) = true ->
         usage_of "prompt_tokens" out = VNum 0
         /\ usage_of "completion_tokens" out = VNum 0
         /\ usage_of "total_tokens" out = VNum 0))
  /\ (forall out p c,
        geminiToOpenAI response = Some out ->
        getq "promptTokenCount" (prop (lit "usageMetadata") response) = VNum p ->
        getq "candidatesTokenCount" (prop (lit "usageMetadata") response) = VNum c ->
        usage_of "prompt_tokens" out = VNum p
        /\ usage_of "completion_tokens" out = VNum c
        /\ usage_of "total_tokens" out
           = js_or (getq "totalTokenCount" (prop (lit "usageMetadata") response)) (VNum 0)
        /\ (nullish (getq "totalTokenCount" (prop (lit "usageMetadata") response)) = true ->
            usage_of "total_tokens" out = VNum 0)).
Proof.
  split.
  - intros Hcontent. unfold anthropicToOpenAI.
    destruct (get "content" response) as [content_v|]; [|discriminate].
    cbn [mbind option_bind] in Hcontent |- *. rewrite Hcontent.
    cbn [mbind option_bind].
    remember (js_or (getq "input_tokens" (prop (lit "usage") response)) (VNum 0)) as a eqn:Ea.
    remember (js_or (getq "output_tokens" (prop (lit "usage") response)) (VNum 0)) as b eqn:Eb.
    eexists. split; [reflexivity|].
    split.
    + intros i o Hi Ho. rewrite Hi, js_or_count in Ea. rewrite Ho, js_or_count in Eb.
      subst a b. repeat split; reflexivity.
    + intros Hnone.
      assert (Ha : a = VNum 0).
      { subst a. destruct (prop (lit "usage") response); try discriminate; reflexivity. }
      assert (Hb : b = VNum 0).
      { subst b. destruct (prop (lit "usage") response); try discriminate; reflexivity. }
      rewrite Ha, Hb. repeat split; reflexivity.
  - intros out p c Hout Hp Hc. unfold geminiToOpenAI in Hout.
    destruct (get "candidates" response) as [candidates|]; [|discriminate].
    cbn [mbind option_bind] in Hout.
    destruct (texts_joined _); [|discriminate]. cbn [mbind option_bind] in Hout.
    destruct (gemini_finish_reason _); [|discriminate].
    cbn [mbind option_bind] in Hout. rewrite Hp, Hc, !js_or_count in Hout.
    remember (js_or (getq "totalTokenCount" (prop (lit "usageMetadata") response)) (VNum 0))
      as t eqn:Et.
    injection Hout as <-.
    split; [reflexivity|]. split; [reflexivity|]. split; [reflexivity|].
    intros Hnone. subst t.
    destruct (getq "totalTokenCount" _); try discriminate; reflexivity.
Qed.

End Conversion.

Lemma anthropic_text_flattened_witness :
  exists out,
    anthropicToOpenAI (H := Examples.platform) Examples.two_blocks = Some out
    /\ content_of out = str "Hi there!".
Proof.
  apply (proj1 (anthropic_text_flattened (H := Examples.platform) Examples.two_blocks)
           [text_block (lit "Hi "); text_block (lit "there!")]
           [lit "Hi "; lit "there!"]).
  - reflexivity.
  - repeat constructor.
Defined.

Lemma gemini_first_candidate_witness :
  exists out,
    geminiToOpenAI (H := Examples.platform) Examples.two_candidates = Some out
    /\ content_of out = str "Hi there!".
Proof.
  apply (proj1 (gemini_first_candidate (H := Examples.platform)
                  Examples.two_candidates
                  (Examples.json_value "{'content':{'parts':[{'text':'Hi '},{'text':'there!'}]},'finishReason':'STOP'}")
                  [Examples.json_value "{'content':{'parts':[{'text':'Bye'}]},'finishReason':'STOP'}"]
                  eq_refl)
           [VObj [(lit "text", str "Hi ")]; VObj [(lit "text", str "there!")]]
           [lit "Hi "; lit "there!"] (lit "STOP")).
  - reflexivity.
  - repeat constructor.
  - reflexivity.
Defined.

Lemma vendor_usage_extracted_witness :
  exists out,
    anthropicToOpenAI (H := Examples.platform) Examples.anthropic_truncated = Some out
    /\ usage_of "total_tokens" out = VNum 8.
Proof.
  destruct (proj1 (vendor_usage_extracted (H := Examples.platform)
                     Examples.anthropic_truncated (lit "Hi")) eq_refl)
    as (out & Hout & Hcounts & _).
  exists out. split; [exact Hout|].
  apply (Hcounts 5 3); reflexivity.
Defined.

(** ** The stream transformer, event by event *)

Section Events.
Context `{Platform}.
Variables (channel : ChannelConfig) (config : ModelConfig).

(** X9. On a Gemini channel the re-encoder and the adapter's
    [transformGeminiStreamChunk] agree on an event that has text: same
    delta content, same finish reason.  On an event without text they part:
    the helper yields a chunk with empty content (and finish reason "stop"
    for STOP), the re-encoder emits nothing, so a finish event that carries
    no text never reaches the client. *)
Theorem gemini_event_translated (inT outT parsed : value) :
  provider channel = ProviderType.GEMINI ->
  nullish parsed = false ->
  exists inT' outT' transformed helper,
    translate channel config inT outT parsed = Some (inT', outT', transformed)
    /\ transformGeminiStreamChunk parsed = Some helper
    /\ (truthy (gemini_text parsed) = true ->
        delta_content_of transformed = gemini_text parsed
        /\ delta_content_of helper = gemini_text parsed
        /\ finish_reason_of transformed = finish_reason_of helper)
    /\ (truthy (gemini_text parsed) = false ->
        transformed = VUndef
        /\ delta_content_of helper = VStr []
        /\ finish_reason_of helper
           = if is_str (getq "finishReason" (gemini_candidate parsed)) "STOP"
             then str "stop" else VNull).
Proof.
  intros Hp Hnn. unfold translate, transformGeminiStreamChunk, get.
  rewrite Hp, Hnn.
  change (streq ProviderType.GEMINI ProviderType.ANTHROPIC) with false.
  change (streq ProviderType.GEMINI ProviderType.GEMINI) with true.
  cbv iota. cbn [mbind option_bind].
  fold (gemini_candidate parsed). fold (gemini_text parsed).
  destruct (truthy (gemini_text parsed)) eqn:Ht;
    destruct (truthy (prop (lit "usageMetadata") parsed));
    unfold js_or; rewrite ?Ht;
    do 4 eexists; (split; [reflexivity|]); (split; [reflexivity|]);
    (split; [intros Hx | intros Hx]); try discriminate;
    repeat split;
    try (destruct (is_str (getq "finishReason" (gemini_candidate parsed)) "STOP");
         reflexivity).
Qed.

(** X10. On an Anthropic channel a message_delta event yields a chunk whose
    finish reason is "stop" for "end_turn" and null for every other stop
    reason, and an event that is none of content_block_delta, message_delta
    and message_start (a ping, message_stop) yields nothing and leaves the
    counters as they are. *)
Theorem anthropic_event_translated (inT outT parsed : value) :
  provider channel = ProviderType.ANTHROPIC ->
  nullish parsed = false ->
  (is_str (prop (lit "type") parsed) "message_delta" = true ->
   exists inT' outT' transformed,
     translate channel config inT outT parsed = Some (inT', outT', transformed)
     /\ finish_reason_of transformed
        = (if is_str (getq "stop_reason" (prop (lit "delta") parsed)) "end_turn"
           then str "stop" else VNull)
     /\ delta_content_of transformed = VUndef)
  /\ (is_str (prop (lit "type") parsed) "content_block_delta" = false ->
      is_str (prop (lit "type") parsed) "message_delta" = false ->
      is_str (prop (lit "type") parsed) "message_start" = false ->
      translate channel config inT outT parsed = Some (inT, outT, VUndef)).
Proof.
  intros Hp Hnn. unfold translate. rewrite Hp, Hnn.
  change (streq ProviderType.ANTHROPIC ProviderType.ANTHROPIC) with true.
  cbv iota. split.
  - intros Hdelta.
    assert (Hc : is_str (prop (lit "type") parsed) "content_block_delta" = false).
    { destruct (prop (lit "type") parsed) as [| | | | |t| |]; try reflexivity.
      unfold is_str in *. apply streq_eq in Hdelta. now rewrite Hdelta. }
    rewrite Hc, Hdelta. cbn [andb].
    destruct (truthy (prop (lit "usage") parsed)); do 3 eexists;
      (split; [reflexivity|]); split;
      try (destruct (is_str (getq "stop_reason" (prop (lit "delta") parsed)) "end_turn");
           reflexivity); reflexivity.
  - intros Hc Hd Hs. now rewrite Hc, Hd, Hs.
Qed.

End Events.

Lemma gemini_event_translated_witness :
  exists inT' outT' helper,
    translate (H := Examples.platform) (Examples.channel_of ProviderType.GEMINI)
      Examples.gpt4o (VNum 0) (VNum 0) Examples.gemini_finish_event
    = Some (inT', outT', VUndef)
    /\ transformGeminiStreamChunk Examples.gemini_finish_event = Some helper
    /\ finish_reason_of helper = str "stop".
Proof.
  destruct (gemini_event_translated (H := Examples.platform)
              (Examples.channel_of ProviderType.GEMINI) Examples.gpt4o
              (VNum 0) (VNum 0) Examples.gemini_finish_event eq_refl eq_refl)
    as (inT' & outT' & transformed & helper & Ht & Hh & _ & Hnone).
  destruct (Hnone eq_refl) as (-> & _ & Hfinish).
  exists inT', outT', helper. auto.
Defined.

Lemma anthropic_event_translated_witness :
  (exists inT' outT' transformed,
     translate (H := Examples.platform) (Examples.channel_of ProviderType.ANTHROPIC)
       Examples.gpt4o (VNum 0) (VNum 0) Examples.anthropic_limit_event
     = Some (inT', outT', transformed)
     /\ finish_reason_of transformed = VNull)
  /\ translate (H := Examples.platform) (Examples.channel_of ProviderType.ANTHROPIC)
       Examples.gpt4o (VNum 0) (VNum 0) (Examples.json_value "{'type':'ping'}")
     = Some (VNum 0, VNum 0, VUndef).
Proof.
  split.
  - destruct (proj1 (anthropic_event_translated (H := Examples.platform)
                (Examples.channel_of ProviderType.ANTHROPIC) Examples.gpt4o
                (VNum 0) (VNum 0) Examples.anthropic_limit_event eq_refl eq_refl)
              eq_refl)
      as (inT' & outT' & transformed & Ht & Hfinish & _).
    exists inT', outT', transformed. split; [exact Ht | exact Hfinish].
  - apply (proj2 (anthropic_event_translated (H := Examples.platform)
                (Examples.channel_of ProviderType.ANTHROPIC) Examples.gpt4o
                (VNum 0) (VNum 0) (Examples.json_value "{'type':'ping'}")
                eq_refl eq_refl)); reflexivity.
Defined.

(** ** The stream transformer, line by line *)

Lemma lines_rest_lossless (s : jsstring) :
  concat (map (fun l => l ++ [10%N]) (fst (lines_rest s))) ++ snd (lines_rest s) = s
  /\ no_feed (snd (lines_rest s))
  /\ Forall no_feed (fst (lines_rest s)).
Proof.
  unfold no_feed. induction s as [|c s (IHs & IHr & IHl)]; cbn [lines_rest].
  - cbn. split; [reflexivity|]. split; [tauto | constructor].
  - destruct (lines_rest s) as [ls rest]. cbn [fst snd] in *.
    destruct (N.eqb_spec c 10) as [->|Hc]; cbn [fst snd].
    + split; [cbn; now rewrite IHs|]. split; [exact IHr|].
      constructor; [cbn; tauto | exact IHl].
    + destruct ls as [|h t]; cbn [fst snd].
      * cbn in IHs |- *. subst s. split; [reflexivity|].
        split; [|constructor]. cbn. intros [Heq|Hin]; [congruence | tauto].
      * cbn in IHs |- *. rewrite IHs. split; [reflexivity|].
        split; [exact IHr|]. apply Forall_cons in IHl as [Hh Ht].
        constructor; [|exact Ht]. cbn. intros [Heq|Hin]; [congruence | tauto].
Qed.

Lemma lines_rest_without_feed (s : jsstring) : no_feed s -> lines_rest s = ([], s).
Proof.
  unfold no_feed. induction s as [|c s IH]; [reflexivity|]. intros Hno.
  cbn [lines_rest]. rewrite IH by (intros Hin; apply Hno; now right).
  destruct (N.eqb_spec c 10) as [->|]; [|reflexivity].
  exfalso. apply Hno. now left.
Qed.

Section Lines.
Context `{Platform}.
Variables (channel : ChannelConfig) (config : ModelConfig).

(** X11. Line assembly loses nothing and invents nothing: after a chunk, the
    lines handed to the event loop, each with its line feed back, followed
    by the new buffer, are the old buffer followed by the chunk's text; the
    buffer and the lines hold no line feed. *)
Theorem line_assembly_lossless (t : Transformer) (text : jsstring) :
  let lines := removelast (split_lines (buffer t ++ text)) in
  let t' := fst (transform_text channel config t text) in
  concat (map (fun l => l ++ [10%N]) lines) ++ buffer t' = buffer t ++ text
  /\ no_feed (buffer t')
  /\ Forall no_feed lines.
Proof.
  intros lines t'. subst lines t'.
  rewrite transform_text_buffer.
  pose proof (lines_rest_lossless (buffer t ++ text)) as Hl.
  rewrite lines_rest_split in Hl. cbn [fst snd] in Hl.
  rewrite lines_rest_split. cbn [snd]. exact Hl.
Qed.

(** X12. Text after the last line feed is held back: appending to a chunk a tail
    without line feed changes neither the output nor the counters, the tail
    only joins the buffer.  As [flush] does not read the buffer, a last
    event that no line feed follows is never emitted. *)
Theorem unterminated_tail_held_back (t : Transformer) (text tail : jsstring) :
  no_feed tail ->
  transform_text channel config t (text ++ tail)
  = let '(t1, out) := transform_text channel config t text in
    ({| inputTokens := inputTokens t1; outputTokens := outputTokens t1;
        buffer := buffer t1 ++ tail |}, out).
Proof.
  intros Htail. rewrite transform_text_app.
  pose proof (transform_text_buffer channel config t text) as Hbuf.
  destruct (transform_text channel config t text) as [t1 out1]. cbn [fst] in Hbuf.
  rewrite transform_text_lines.
  assert (Hno : no_feed (buffer t1 ++ tail)).
  { unfold no_feed. rewrite in_app_iff. intros [Hin|Hin]; [|now apply Htail].
    rewrite Hbuf in Hin.
    now apply (proj1 (proj2 (lines_rest_lossless (buffer t ++ text)))). }
  rewrite (lines_rest_without_feed _ Hno). cbn [fst snd fold_left].
  now rewrite app_nil_r.
Qed.

Lemma transform_line_skip (acc : value * value * list Out) (line : jsstring) :
  let data := trim (slice 6 line) in
  startsWith (lit "data: ") line = false
  \/ (streq data (lit "[DONE]") = false
      /\ (JSON_parse data = None \/ JSON_parse data = Some VNull)) ->
  transform_line channel config acc line = acc.
Proof.
  intros data Hbad. subst data. destruct acc as [[inT outT] out].
  unfold transform_line. destruct Hbad as [Hs|[Hd Hj]].
  - now rewrite Hs.
  - destruct (startsWith (lit "data: ") line); [|reflexivity].
    cbn [negb]. rewrite Hd. destruct Hj as [Hj|Hj]; rewrite Hj; reflexivity.
Qed.

(** X13. A malformed line does not abort the stream and leaves no trace: a line
    that does not start with "data: ", or whose payload is not JSON or is
    [null], can be dropped from the lines of a chunk without any change to
    the counters or to the output. *)
Theorem malformed_line_skipped (before after : list jsstring) (line : jsstring)
  (acc : value * value * list Out) :
  let data := trim (slice 6 line) in
  startsWith (lit "data: ") line = false
  \/ (streq data (lit "[DONE]") = false
      /\ (JSON_parse data = None \/ JSON_parse data = Some VNull)) ->
  fold_left (transform_line channel config) (before ++ line :: after) acc
  = fold_left (transform_line channel config) (before ++ after) acc.
Proof.
  intros data Hbad. rewrite !fold_left_app. cbn [fold_left].
  now rewrite (transform_line_skip _ line Hbad).
Qed.

Lemma transform_line_done (inT outT : value) (out : list Out) (line : jsstring) :
  length (List.filter is_done
            (snd (transform_line channel config (inT, outT, out) line)))
  = (length (List.filter is_done out) + length (List.filter done_line [line]))%nat.
Proof.
  unfold transform_line, done_line. cbn [List.filter].
  destruct (startsWith (lit "data: ") line); cbn [negb andb length snd]; [|lia].
  destruct (streq (trim (slice 6 line)) (lit "[DONE]")); cbn [snd length].
  - rewrite List.filter_app, length_app. reflexivity.
  - destruct (JSON_parse _) as [parsed|]; cbn [snd]; [|lia].
    destruct (translate _ _ _ _ _) as [[[i o] tr]|]; cbn [snd]; [|lia].
    destruct (truthy tr); cbn [snd]; [|lia].
    rewrite List.filter_app, length_app. cbn. lia.
Qed.

(** X14. The terminal marker is forwarded, never made up: a chunk's output has
    as many terminal markers as its complete lines are "data: [DONE]"
    lines, whatever the vendor format.  A vendor stream that ends without
    such a line reaches the client without a terminal marker. *)
Theorem terminal_marker_only_forwarded (t : Transformer) (text : jsstring) :
  length (List.filter is_done (snd (transform_text channel config t text)))
  = length (List.filter done_line (removelast (split_lines (buffer t ++ text)))).
Proof.
  unfold transform_text.
  assert (Hfold : forall lines inT outT out,
            length (List.filter is_done
                      (snd (fold_left (transform_line channel config) lines
                              (inT, outT, out))))
            = (length (List.filter is_done out)
               + length (List.filter done_line lines))%nat).
  { induction lines as [|line lines IH]; intros inT outT out; cbn [fold_left].
    - cbn. lia.
    - pose proof (transform_line_done inT outT out line) as Hline.
      destruct (transform_line channel config (inT, outT, out) line) as [[i o] out'].
      rewrite IH. cbn [snd] in Hline. rewrite Hline.
      cbn [List.filter]. destruct (done_line line); cbn [length]; lia. }
  specialize (Hfold (removelast (split_lines (buffer t ++ text)))
                (inputTokens t) (outputTokens t) []).
  destruct (fold_left _ _ _) as [[inT outT] out]. cbn [snd] in *.
  exact Hfold.
Qed.

End Lines.

Lemma unterminated_tail_held_back_witness :
  snd (transform_text (H := Examples.platform) Examples.openai Examples.gpt4o
         createStreamTransformer
         (Examples.json_text "data: [DONE]" ++ [10%N]
          ++ Examples.json_text "data: {'choices':[]}"))
  = [Done].
Proof.
  change (Examples.json_text "data: [DONE]" ++ [10%N]
          ++ Examples.json_text "data: {'choices':[]}")
    with ((Examples.json_text "data: [DONE]" ++ [10%N])
          ++ Examples.json_text "data: {'choices':[]}").
  rewrite (unterminated_tail_held_back (H := Examples.platform)
             Examples.openai Examples.gpt4o createStreamTransformer
             (Examples.json_text "data: [DONE]" ++ [10%N])
             (Examples.json_text "data: {'choices':[]}")).
  - reflexivity.
  - vm_compute. intuition discriminate.
Defined.

Lemma malformed_line_skipped_witness :
  fold_left (transform_line (H := Examples.platform) Examples.openai Examples.gpt4o)
    [lit ": keep-alive"; lit "data: [DONE]"] (VNum 0, VNum 0, [])
  = (VNum 0, VNum 0, [Done]).
Proof.
  exact (eq_trans
           (malformed_line_skipped (H := Examples.platform)
              Examples.openai Examples.gpt4o [] [lit "data: [DONE]"]
              (lit ": keep-alive") (VNum 0, VNum 0, []) (or_introl eq_refl))
           eq_refl).
Defined.

Lemma ascii_chunks_checked (chunks : list (list N)) :
  forallb (forallb (fun b => b <? 128)%N) chunks = true -> Forall is_ascii chunks.
Proof.
  intros Hall. apply List.Forall_forall. intros c Hc.
  apply List.Forall_forall. intros b Hb.
  rewrite forallb_forall in Hall. specialize (Hall c Hc).
  rewrite forallb_forall in Hall. now apply N.ltb_lt, Hall.
Qed.

(** X15. An all-ASCII vendor stream may be cut into chunks anywhere: however
    the same bytes are split, the client is sent the same events and the
    final counters are the same. *)
Theorem ascii_stream_cut_anywhere `{Platform} (channel : ChannelConfig)
  (config : ModelConfig) (chunks chunks' : list (list N)) :
  Forall is_ascii chunks -> Forall is_ascii chunks' ->
  concat chunks = concat chunks' ->
  pipeThrough channel config createStreamTransformer chunks
  = pipeThrough channel config createStreamTransformer chunks'.
Proof.
  intros Hc Hc' Hsame.
  rewrite (pipeThrough_rechunk_ascii channel config chunks Hc).
  rewrite (pipeThrough_rechunk_ascii channel config chunks' Hc').
  now rewrite Hsame.
Qed.

Lemma ascii_stream_cut_anywhere_witness :
  pipeThrough (H := Examples.platform) Examples.openai Examples.gpt4o
    createStreamTransformer Examples.openai_stream
  = pipeThrough (H := Examples.platform) Examples.openai Examples.gpt4o
      createStreamTransformer [concat Examples.openai_stream].
Proof.
  apply (ascii_stream_cut_anywhere (H := Examples.platform)).
  - apply ascii_chunks_checked. reflexivity.
  - apply ascii_chunks_checked. reflexivity.
  - cbn [concat]. now rewrite app_nil_r.
Defined.

(** ** The store: balances, API keys, usage, orders *)

Section StoreProperties.
Context `{Platform}.


Lemma updateBalance_some (kv kv' : Store) (uid : jsstring) (delta : Q) :
  updateBalance kv uid delta = Some kv' ->
  exists user user',
    getUser kv uid = Some user
    /\ (0 <= balance user + delta)%Q
    /\ getUser kv' uid = Some user'
    /\ balance user' = (balance user + delta)%Q
    /\ total_consumed user'
       = (if Qltb delta 0 then (total_consumed user + Qabs delta)%Q
          else total_consumed user)
    /\ is_blocked user' = is_blocked user
    /\ (forall other, other <> uid -> getUser kv' other = getUser kv other)
    /\ apikeys kv' = apikeys kv /\ usage kv' = usage kv
    /\ models kv' = models kv /\ channels kv' = channels kv.
Proof.
  unfold updateBalance. destruct (getUser kv uid) as [user|] eqn:Huser; [|intros [=]].
  destruct (Qltb (balance user + delta) 0) eqn:Hneg; [intros [=]|].
  intros [= <-]. exists user. eexists.
  split; [reflexivity|]. split; [now apply Qltb_ge|].
  unfold getUser, setUser. cbn.
  split; [apply lookup_insert_eq|].
  repeat (split; [reflexivity|]).
  split; [|auto].
  intros other Hother. now apply lookup_insert_ne.
Qed.

Lemma updateBalance_nonneg (kv kv' : Store) (uid : jsstring) (delta : Q) :
  balances_nonneg kv ->
  updateBalance kv uid delta = Some kv' ->
  balances_nonneg kv'.
Proof.
  intros Hnn Hup.
  destruct (updateBalance_some kv kv' uid delta Hup)
    as (user & user' & Hu & Hge & Hu' & Hb & _ & _ & Hothers & _).
  intros id u Hid. destruct (decide (id = uid)) as [->|Hne].
  - unfold getUser in Hu'. rewrite Hu' in Hid. injection Hid as <-. now rewrite Hb.
  - apply (Hnn id). rewrite <- Hid. symmetry. now apply Hothers.
Qed.


Lemma model_sum_insert (f : ModelUsage -> Z) (m : gmap jsstring ModelUsage)
  (k : jsstring) (x : ModelUsage) :
  model_sum f (<[k := x]> m)
  = model_sum f m + f x - match m !! k with Some y => f y | None => 0 end.
Proof.
  unfold model_sum.
  assert (Hcomm : forall (z1 z2 : ModelUsage) (y : Z),
            f z1 + (f z2 + y) = f z2 + (f z1 + y)) by (intros; lia).
  destruct (m !! k) as [y|] eqn:Hk.
  - rewrite <- (insert_delete_eq m k x).
    rewrite (map_fold_insert_L _ _ k x (delete k m));
      [|intros; apply Hcomm | apply lookup_delete_eq].
    rewrite (map_fold_delete_L _ _ k y m); [|intros; apply Hcomm | exact Hk].
    lia.
  - rewrite (map_fold_insert_L _ _ k x m); [|intros; apply Hcomm | exact Hk]. lia.
Qed.

(** X17. Recording a request keeps every day's totals equal to the sums of its
    per-model counters (requests, input tokens, output tokens), starting
    from an empty ledger or from any ledger of which this holds, when the
    model has an entry in the day's record or its name is not one that
    objects inherit.  For a model named like an inherited property and
    without an entry, no entry is made: the request is counted in the
    day's totals and under no model. *)
Theorem recordUsage_keeps_totals (kv : Store) (uid modelId : jsstring)
  (inputTokens outputTokens : Z) (cost : Q) :
  (forall key d, usage kv !! key = Some d -> usage_consistent d) ->
  let existing := default no_usage (usage kv !! (uid, today)) in
  let kv' := recordUsage kv uid modelId inputTokens outputTokens cost in
  (by_model existing !! modelId <> None \/ inherited modelId = false ->
   forall key d, usage kv' !! key = Some d -> usage_consistent d)
  /\ (by_model existing !! modelId = None -> inherited modelId = true ->
      exists d,
        usage kv' !! (uid, today) = Some d
        /\ by_model d = by_model existing
        /\ requests d = model_sum m_requests (by_model d) + 1
        /\ input_tokens d = model_sum m_input_tokens (by_model d) + inputTokens
        /\ output_tokens d = model_sum m_output_tokens (by_model d) + outputTokens).
Proof.
  intros Hinv existing kv'.
  assert (Hold : usage_consistent existing).
  { subst existing. destruct (usage kv !! (uid, today)) as [d0|] eqn:Hd0;
      [exact (Hinv _ _ Hd0) | repeat split]. }
  destruct Hold as (Hr & Hi & Ho).
  subst kv'. unfold recordUsage. fold existing. cbn [usage with_usage]. split.
  - intros Hown key d. destruct (decide (key = (uid, today))) as [->|Hne].
    + rewrite lookup_insert_eq. intros [= <-].
      unfold usage_consistent. cbn [requests input_tokens output_tokens by_model].
      destruct (by_model existing !! modelId) as [m|] eqn:Hm.
      * rewrite !model_sum_insert, Hm, Hr, Hi, Ho. cbn. repeat split; lia.
      * destruct Hown as [Hown|Hown]; [congruence|]. rewrite Hown.
        rewrite !model_sum_insert, Hm, Hr, Hi, Ho. cbn. repeat split; lia.
    + rewrite lookup_insert_ne by congruence. apply Hinv.
  - intros Hm Hinh. rewrite Hm, Hinh. eexists.
    split; [apply lookup_insert_eq|].
    cbn [requests input_tokens output_tokens by_model].
    rewrite Hr, Hi, Ho. auto.
Qed.

(** X18. Completing an order is idempotent: once it has returned the order as
    paid, completing it again returns the same order and changes nothing,
    so a payment notified twice is credited once. *)
Theorem completeOrder_idempotent (l l' : Ledger) (tradeNo : jsstring)
  (order : OrderData) :
  completeOrder l tradeNo = (Returned order, l') ->
  order_status order = 1
  /\ getOrder l' tradeNo = Some order
  /\ completeOrder l' tradeNo = (Returned order, l').
Proof.
  unfold completeOrder at 1.
  destruct (getOrder l tradeNo) as [o|] eqn:Ho; [|discriminate].
  destruct (Z.eqb_spec (order_status o) 1) as [Hpaid|Hunpaid].
  - intros [= <- <-]. split; [exact Hpaid|]. split; [exact Ho|].
    unfold completeOrder. rewrite Ho.
    now destruct (Z.eqb_spec (order_status o) 1).
  - cbn [kv orders order_uid money].
    destruct (updateBalance (kv l) (order_uid o) (money o)) as [kv'|]; [|discriminate].
    intros [= <- <-]. split; [reflexivity|].
    assert (Hget : getOrder
              {| kv := kv';
                 orders := <[tradeNo := {| trade_no := trade_no o;
                                           order_uid := order_uid o;
                                           money := money o; order_status := 1;
                                           created_at := created_at o;
                                           paid_at := Some Date_now |}]> (orders l) |}
              tradeNo
            = Some {| trade_no := trade_no o; order_uid := order_uid o;
                      money := money o; order_status := 1;
                      created_at := created_at o; paid_at := Some Date_now |}).
    { unfold getOrder. cbn [orders]. apply lookup_insert_eq. }
    split; [exact Hget|]. unfold completeOrder. now rewrite Hget.
Qed.


(** X20. The order is marked paid before the balance is credited: when the
    order's user does not exist, the completion throws with the order
    already stored as paid and no balance changed, and a second completion
    then returns the order as paid without crediting anyone. *)
Theorem completeOrder_unknown_user (l : Ledger) (tradeNo : jsstring)
  (order : OrderData) :
  getOrder l tradeNo = Some order ->
  order_status order <> 1 ->
  getUser (kv l) (order_uid order) = None ->
  exists paid l',
    completeOrder l tradeNo = (Threw, l')
    /\ kv l' = kv l
    /\ getOrder l' tradeNo = Some paid /\ order_status paid = 1
    /\ completeOrder l' tradeNo = (Returned paid, l').
Proof.
  intros Ho Hunpaid Hu. unfold completeOrder at 1. rewrite Ho.
  destruct (Z.eqb_spec (order_status order) 1); [contradiction|].
  cbn [kv orders order_uid money]. unfold updateBalance. rewrite Hu.
  do 2 eexists. split; [reflexivity|]. cbn [kv].
  split; [reflexivity|].
  assert (Hget : forall x, getOrder {| kv := kv l; orders := <[tradeNo := x]> (orders l) |}
                             tradeNo = Some x).
  { intros x. unfold getOrder. cbn [orders]. apply lookup_insert_eq. }
  split; [apply Hget|]. split; [reflexivity|].
  unfold completeOrder. rewrite Hget. reflexivity.
Qed.

End StoreProperties.


Lemma recordUsage_keeps_totals_witness :
  (exists d,
     usage (recordUsage (H := Examples.platform)
              (Examples.store 10 Examples.gpt4o Examples.openai)
              (lit "u1") (lit "gpt-4o") 5 3 (7 # 100))
       !! (lit "u1", today (Platform := Examples.platform)) = Some d
     /\ usage_consistent d)
  /\ (exists d,
        usage (recordUsage (H := Examples.platform)
                 (Examples.store 10 Examples.gpt4o Examples.openai)
                 (lit "u1") (lit "constructor") 5 3 (7 # 100))
          !! (lit "u1", today (Platform := Examples.platform)) = Some d
        /\ by_model d = ∅ /\ requests d = 1).
Proof.
  assert (Hinv : forall key d,
            usage (Examples.store 10 Examples.gpt4o Examples.openai) !! key = Some d ->
            usage_consistent d).
  { intros key d Hd. cbn in Hd. rewrite lookup_empty in Hd. discriminate. }
  split.
  - eexists. split; [vm_compute; reflexivity|].
    apply (proj1 (recordUsage_keeps_totals (H := Examples.platform)
                    (Examples.store 10 Examples.gpt4o Examples.openai)
                    (lit "u1") (lit "gpt-4o") 5 3 (7 # 100) Hinv))
      with (key := (lit "u1", today (Platform := Examples.platform))).
    + right. reflexivity.
    + vm_compute. reflexivity.
  - destruct (proj2 (recordUsage_keeps_totals (H := Examples.platform)
                       (Examples.store 10 Examples.gpt4o Examples.openai)
                       (lit "u1") (lit "constructor") 5 3 (7 # 100) Hinv))
      as (d & Hd & Hmodels & Hrequests & _).
    + reflexivity.
    + reflexivity.
    + exists d. split; [exact Hd|]. split; [exact Hmodels|].
      rewrite Hrequests, Hmodels. reflexivity.
Defined.

Lemma store_nonneg : balances_nonneg (Examples.store 10 Examples.gpt4o Examples.openai).
Proof.
  intros uid user Hu. cbn in Hu.
  apply lookup_singleton_Some in Hu as [_ <-]. cbn. discriminate.
Qed.


Lemma completeOrder_idempotent_witness :
  exists paid l',
    completeOrder (H := Examples.platform) Examples.ledger (lit "V1") = (Returned paid, l')
    /\ completeOrder (H := Examples.platform) l' (lit "V1") = (Returned paid, l').
Proof.
  destruct (completeOrder (H := Examples.platform) Examples.ledger (lit "V1"))
    as [[paid|] l'] eqn:Hc.
  - exists paid, l'. split; [reflexivity|].
    apply (completeOrder_idempotent (H := Examples.platform)
             Examples.ledger l' (lit "V1") paid Hc).
  - vm_compute in Hc. discriminate.
Defined.

Lemma completeOrder_unknown_user_witness :
  exists paid l',
    completeOrder (H := Examples.platform) Examples.ledger (lit "V2") = (Threw, l')
    /\ completeOrder (H := Examples.platform) l' (lit "V2") = (Returned paid, l').
Proof.
  destruct (completeOrder_unknown_user (H := Examples.platform) Examples.ledger (lit "V2")
              (Examples.waiting "V2" "ghost"))
    as (paid & l' & Hthrew & _ & _ & _ & Hagain).
  - vm_compute. reflexivity.
  - discriminate.
  - vm_compute. reflexivity.
  - exists paid, l'. auto.
Defined.

(** ** The handler as a whole *)

Section Handler.
Context `{Platform}.

Lemma authenticateRequest_kinds (request : Request) (kv kv1 : Store) (e : ErrorKind) :
  authenticateRequest request kv = (inl e, kv1) ->
  e = MissingApiKey \/ e = InvalidApiKey.
Proof.
  unfold authenticateRequest, validateApiKey. intros Heq.
  repeat case_match; simplify_eq/=; auto; congruence.
Qed.

Lemma settle_frame (kv kv' : Store) (user : UserData) (modelId : jsstring)
  (i o : Z) (cost : Q) (s : Settlement) :
  settle kv user modelId i o cost = (s, kv') ->
  models kv' = models kv /\ channels kv' = channels kv /\ apikeys kv' = apikeys kv
  /\ (forall other, other <> uid user -> users kv' !! other = users kv !! other)
  /\ (forall key, key <> (uid user, today) -> usage kv' !! key = usage kv !! key)
  /\ (balances_nonneg kv -> balances_nonneg kv').
Proof.
  unfold settle. destruct (updateBalance kv (uid user) (- cost)) as [kv2|] eqn:Hup.
  - intros [= <- <-].
    pose proof (fun Hkv => updateBalance_nonneg kv kv2 _ _ Hkv Hup) as Hnn.
    destruct (updateBalance_some kv kv2 _ _ Hup)
      as (u & u' & _ & _ & _ & _ & _ & _ & Hothers & Hk & Hus & Hm & Hc).
    unfold recordUsage. cbn.
    split; [exact Hm|]. split; [exact Hc|]. split; [exact Hk|].
    split; [exact Hothers|].
    split; [|exact Hnn].
    intros key Hkey. rewrite lookup_insert_ne by congruence. now rewrite Hus.
  - intros [= <- <-]. repeat split; auto.
Qed.

(** Every run of the handler either stops before any vendor is called, and
    then settles nothing, or calls the vendor once for an authenticated user
    and an available model and ends in one of three ways. *)
Lemma handler_shape (upstream : Upstream) (request : Request) (env : Env)
  (kv kv1 : Store) (auth : ErrorKind + UserData) :
  authenticateRequest request kv = (auth, kv1) ->
  let r := handleChatCompletions upstream request env kv in
  (dispatched r = [] /\ settlement r = NotAttempted /\ kv_after r = kv1
   /\ (response r = Uncaught
       \/ exists e, response r = errorResponse e /\ e <> UpstreamError
                    /\ e <> AccountBlocked
                    /\ (forall user, auth = inr user -> status e <> 401)))
  \/ exists user body modelId config channel call,
       auth = inr user /\ json request = Some body /\ model body = Some modelId
       /\ getModelConfig kv1 modelId = Some (config, channel)
       /\ (calculateCost config (estimateInputTokens body) 100 <= balance user)%Q
       /\ dispatched r = [call]
       /\ via call = channel /\ streaming call = is_streaming body
       /\ sent_model (sent call) = Some (upstream_name config modelId)
       /\ ((response r = errorResponse UpstreamError
            /\ settlement r = NotAttempted /\ kv_after r = kv1)
           \/ (exists out, response r = eventStream out
                 /\ is_streaming body = true
                 /\ (settlement r, kv_after r)
                    = if waitUntil env
                      then settle kv1 user modelId (estimateInputTokens body) 500
                             (calculateCost config (estimateInputTokens body) 500)
                      else (NotAttempted, kv1))
           \/ (exists result, response r = jsonResponse result
                 /\ is_streaming body = false
                 /\ ((settlement r = NotNumeric /\ kv_after r = kv1
                      /\ ~ (exists i o,
                              js_or (getq "prompt_tokens" (prop (lit "usage") result))
                                (VNum (estimateInputTokens body)) = VNum i
                              /\ js_or (getq "completion_tokens" (prop (lit "usage") result))
                                   (VNum 0) = VNum o))
                     \/ exists i o,
                          js_or (getq "prompt_tokens" (prop (lit "usage") result))
                            (VNum (estimateInputTokens body)) = VNum i
                          /\ js_or (getq "completion_tokens" (prop (lit "usage") result))
                               (VNum 0) = VNum o
                          /\ (settlement r, kv_after r)
                             = settle kv1 user modelId i o (calculateCost config i o)))).
Proof.
  intros Hauth r. subst r. unfold handleChatCompletions. rewrite Hauth.
  destruct auth as [e|user].
  { left. cbn. repeat (split; [reflexivity|]). right. exists e.
    split; [reflexivity|].
    destruct (authenticateRequest_kinds _ _ _ _ Hauth) as [-> | ->];
      repeat split; try discriminate. }
  destruct (json request) as [body|].
  2:{ left. cbn. repeat (split; [reflexivity|]). right. eexists.
      split; [reflexivity|]. repeat split; try discriminate. }
  destruct (model body) as [[|c modelId]|] eqn:Hmodel.
  1,3: left; cbn; repeat (split; [reflexivity|]); right; eexists;
       (split; [reflexivity|]); repeat split; discriminate.
  destruct (getModelConfig kv1 (c :: modelId)) as [[config channel]|] eqn:Hcfg.
  2:{ left. cbn. repeat (split; [reflexivity|]). right. eexists.
      split; [reflexivity|]. repeat split; try discriminate. }
  cbv zeta.
  destruct (Qltb (balance user) (calculateCost config (estimateInputTokens body) 100))
    eqn:Hbal.
  { left. cbn. repeat (split; [reflexivity|]). right. eexists.
    split; [reflexivity|]. repeat split; try discriminate. }
  apply Qltb_ge in Hbal.
  destruct (createProvider channel) as [client|].
  2:{ left. cbn. repeat (split; [reflexivity|]). now left. }
  right. exists user, body, (c :: modelId), config, channel.
  match goal with
  | |- context [upstream ?call] => exists call; set (theCall := call)
  end.
  split; [reflexivity|]. split; [reflexivity|]. split; [exact Hmodel|].
  split; [exact Hcfg|]. split; [exact Hbal|].
  assert (Hsent : sent_model (sent theCall) = Some (upstream_name config (c :: modelId))).
  { subst theCall. cbn [sent]. unfold upstream_name.
    destruct (streq (provider channel) ProviderType.ANTHROPIC); [reflexivity|].
    destruct (streq (provider channel) ProviderType.GEMINI); reflexivity. }
  assert (Hstreaming : streaming theCall = is_streaming body) by reflexivity.
  assert (Hvia : via theCall = channel) by reflexivity.
  clearbody theCall.
  destruct (upstream theCall) as [|chunks].
  { cbn. repeat (split; [first [reflexivity | assumption]|]). left. auto. }
  fold (is_streaming body). destruct (is_streaming body) eqn:Hs.
  - destruct (pipeThrough channel config createStreamTransformer chunks) as [t out].
    destruct (waitUntil env).
    + destruct (settle kv1 user (c :: modelId) (estimateInputTokens body) 500
                  (calculateCost config (estimateInputTokens body) 500)) as [s kv'] eqn:Hset.
      cbn. repeat (split; [first [reflexivity | assumption]|]).
      right. left. exists out. auto.
    + cbn. repeat (split; [first [reflexivity | assumption]|]).
      right. left. exists out. auto.
  - match goal with
    | |- context [match ?conv with Some _ => _ | None => _ end] =>
        destruct conv as [result|]
    end.
    2:{ cbn. repeat (split; [first [reflexivity | assumption]|]). left. auto. }
    destruct (js_or (getq "prompt_tokens" (prop (lit "usage") result))
                (VNum (estimateInputTokens body))) as [| |b|i| |s|l|fs] eqn:Hi;
      try (cbn [dispatched settlement kv_after response]; repeat (split; [first [reflexivity | assumption]|]);
           right; right; exists result; split; [reflexivity|]; split; [reflexivity|];
           left; split; [reflexivity|]; split; [reflexivity|];
           intros (i0 & o0 & H1 & H2); congruence).
    destruct (js_or (getq "completion_tokens" (prop (lit "usage") result)) (VNum 0))
      as [| |b|o| |s|l|fs] eqn:Ho;
      try (cbn [dispatched settlement kv_after response]; repeat (split; [first [reflexivity | assumption]|]);
           right; right; exists result; split; [reflexivity|]; split; [reflexivity|];
           left; split; [reflexivity|]; split; [reflexivity|];
           intros (i0 & o0 & H1 & H2); congruence).
    destruct (settle kv1 user (c :: modelId) i o (calculateCost config i o))
      as [s kv'] eqn:Hset.
    cbn [dispatched settlement kv_after response]. repeat (split; [first [reflexivity | assumption]|]).
    right. right. exists result. split; [reflexivity|]. split; [reflexivity|].
    right. exists i, o. auto.
Qed.

Lemma authenticateRequest_apikeys (request : Request) (kv kv1 : Store)
  (auth : ErrorKind + UserData) (key : jsstring) :
  authenticateRequest request kv = (auth, kv1) ->
  extractBearerToken request <> Some key ->
  apikeys kv1 !! key = apikeys kv !! key.
Proof.
  unfold authenticateRequest, validateApiKey, getApiKey, getUser.
  intros Heq Hkey.
  repeat case_match; simplify_eq/=; auto;
    rewrite lookup_insert_ne; congruence.
Qed.

Lemma getModelConfig_some (kv : Store) (modelId : jsstring)
  (config : ModelConfig) (channel : ChannelConfig) :
  getModelConfig kv modelId = Some (config, channel) ->
  getModel kv modelId = Some config /\ enabled config = true
  /\ getChannel kv (channel_id config) = Some channel
  /\ channel_enabled channel = true.
Proof.
  unfold getModelConfig. intros Heq.
  repeat case_match; simplify_eq/=.
  repeat split; auto; match goal with
  | Hn : negb ?b = false |- ?b = true => now destruct b
  end.
Qed.

(** X21. The answer 403 is never given.  A blocked user is already refused by
    [validateApiKey], so the handler's own test of [is_blocked] never
    fires. *)
Theorem account_blocked_unreachable (upstream : Upstream) (request : Request)
  (env : Env) (kv : Store) :
  response (handleChatCompletions upstream request env kv)
  <> errorResponse AccountBlocked.
Proof.
  destruct (authenticateRequest request kv) as [auth kv1] eqn:Hauth.
  destruct (handler_shape upstream request env kv kv1 auth Hauth)
    as [(_ & _ & _ & [Hr|(e & Hr & _ & Hne & _)])
       |(user & body & modelId & config & channel & call & _ & _ & _ & _ & _ & _ & _
         & _ & _ & Hend)].
  - rewrite Hr. discriminate.
  - rewrite Hr. intros [= ->]. congruence.
  - destruct Hend as [(Hr & _)|[(out & Hr & _)|(result & Hr & _)]];
      rewrite Hr; discriminate.
Qed.

(** X22. A request under an enabled key whose user is blocked is answered 401,
    as an invalid key is.  No vendor is called and nothing is charged, but
    the key's last use is stamped all the same. *)
Theorem blocked_account_answered_401 (upstream : Upstream) (request : Request)
  (env : Env) (kv : Store) (token : jsstring) (keyData : ApiKeyData)
  (user : UserData) :
  extractBearerToken request = Some token -> token <> [] ->
  getApiKey kv token = Some keyData -> key_enabled keyData = true ->
  getUser kv (key_uid keyData) = Some user -> is_blocked user = true ->
  let r := handleChatCompletions upstream request env kv in
  response r = errorResponse InvalidApiKey
  /\ status InvalidApiKey = 401
  /\ dispatched r = [] /\ settlement r = NotAttempted
  /\ users (kv_after r) = users kv /\ usage (kv_after r) = usage kv
  /\ getApiKey (kv_after r) token
     = Some {| key_uid := key_uid keyData; key_enabled := key_enabled keyData;
               last_used := Date_now |}.
Proof.
  intros Htok Hne Hkey Hen Huser Hblocked r. subst r.
  unfold handleChatCompletions, authenticateRequest, validateApiKey.
  rewrite Htok. destruct token as [|c token]; [congruence|].
  rewrite Hkey, Hen. cbn [negb].
  unfold getUser in *. cbn [users with_apikeys key_uid key_enabled].
  rewrite Huser, Hblocked. cbn.
  repeat (split; [reflexivity|]).
  unfold getApiKey. cbn. apply lookup_insert_eq.
Qed.

(** X23. A request that is answered with an error, 502 from the vendor
    included, or that ends in an exception, is not charged: no balance and
    no usage record changes. *)
Theorem error_answers_are_free (upstream : Upstream) (request : Request)
  (env : Env) (kv : Store) :
  let r := handleChatCompletions upstream request env kv in
  (response r = Uncaught \/ exists e, response r = errorResponse e) ->
  settlement r = NotAttempted
  /\ users (kv_after r) = users kv /\ usage (kv_after r) = usage kv
  /\ models (kv_after r) = models kv /\ channels (kv_after r) = channels kv.
Proof.
  intros r Herr.
  destruct (authenticateRequest request kv) as [auth kv1] eqn:Hauth.
  destruct (authenticateRequest_keeps _ _ _ _ Hauth) as (Hu & Hus & Hm & Hc).
  destruct (handler_shape upstream request env kv kv1 auth Hauth)
    as [(_ & Hs & Hkv & _)
       |(user & body & modelId & config & channel & call & _ & _ & _ & _ & _ & _ & _
         & _ & _ & Hend)]; fold r in Hs, Hkv || fold r in Hend.
  - rewrite Hkv. auto.
  - destruct Hend as [(_ & Hs & Hkv)|[(out & Hr & _)|(result & Hr & _)]].
    + rewrite Hkv. auto.
    + destruct Herr as [He|(e & He)]; congruence.
    + destruct Herr as [He|(e & He)]; congruence.
Qed.

(** X24. The vendor is called at most once, and only for an authenticated user
    who can pay the estimate, for the channel of an enabled model that is
    itself enabled.  The call carries the configured upstream name of the
    model, or the requested name when none is configured, and asks for a
    stream exactly when [stream] is [true]. *)
Theorem vendor_called_at_most_once (upstream : Upstream) (request : Request)
  (env : Env) (kv : Store) (call : VendorCall) :
  let r := handleChatCompletions upstream request env kv in
  In call (dispatched r) ->
  dispatched r = [call]
  /\ exists user body modelId config,
       fst (authenticateRequest request kv) = inr user
       /\ json request = Some body /\ model body = Some modelId
       /\ getModel kv modelId = Some config /\ enabled config = true
       /\ getChannel kv (channel_id config) = Some (via call)
       /\ channel_enabled (via call) = true
       /\ sent_model (sent call) = Some (upstream_name config modelId)
       /\ streaming call = is_streaming body
       /\ (calculateCost config (estimateInputTokens body) 100 <= balance user)%Q.
Proof.
  intros r Hin.
  destruct (authenticateRequest request kv) as [auth kv1] eqn:Hauth.
  destruct (authenticateRequest_keeps _ _ _ _ Hauth) as (_ & _ & Hm & Hc).
  destruct (handler_shape upstream request env kv kv1 auth Hauth)
    as [(Hd & _)
       |(user & body & modelId & config & channel & call' & -> & Hjson & Hmodel
         & Hcfg & Hbal & Hd & Hvia & Hstr & Hsent & _)]; fold r in Hd.
  - rewrite Hd in Hin. destruct Hin.
  - rewrite Hd in Hin. destruct Hin as [<-|[]].
    split; [exact Hd|].
    rewrite (getModelConfig_ext kv kv1 modelId Hm Hc) in Hcfg.
    destruct (getModelConfig_some _ _ _ _ Hcfg) as (Hgm & Hen & Hgc & Hcen).
    exists user, body, modelId, config. rewrite Hvia.
    repeat (split; [first [reflexivity | assumption]|]). assumption.
Qed.

(** X25. A request can change only what belongs to its caller: the caller's
    balance and usage record of the day, and the stamp of the key that was
    presented.  The users and the usage records of other users, the
    caller's records of other days (a day being any key of the length of
    today's) and the other keys stay as they were; models and channels are
    never written. *)
Theorem charge_touches_only_the_caller (upstream : Upstream) (request : Request)
  (env : Env) (kv : Store) :
  let r := handleChatCompletions upstream request env kv in
  let auth := fst (authenticateRequest request kv) in
  models (kv_after r) = models kv /\ channels (kv_after r) = channels kv
  /\ (forall other, (forall user, auth = inr user -> uid user <> other) ->
      users (kv_after r) !! other = users kv !! other
      /\ forall day, length day = length today ->
                   usage (kv_after r) !! (other, day) = usage kv !! (other, day))
  /\ (forall user day, auth = inr user -> length day = length today -> day <> today ->
      usage (kv_after r) !! (uid user, day) = usage kv !! (uid user, day))
  /\ (forall key, extractBearerToken request <> Some key ->
      apikeys (kv_after r) !! key = apikeys kv !! key).
Proof.
  intros r auth. subst auth.
  destruct (authenticateRequest request kv) as [auth kv1] eqn:Hauth. cbn [fst].
  destruct (authenticateRequest_keeps _ _ _ _ Hauth) as (Hu & Hus & Hm & Hc).
  pose proof (fun key => authenticateRequest_apikeys _ _ _ _ key Hauth) as Hk.
  assert (Hsame : kv_after r = kv1 ->
    models (kv_after r) = models kv /\ channels (kv_after r) = channels kv
    /\ (forall other, (forall user, auth = inr user -> uid user <> other) ->
        users (kv_after r) !! other = users kv !! other
        /\ forall day, length day = length today ->
                   usage (kv_after r) !! (other, day) = usage kv !! (other, day))
    /\ (forall user day, auth = inr user -> length day = length today -> day <> today ->
        usage (kv_after r) !! (uid user, day) = usage kv !! (uid user, day))
    /\ (forall key, extractBearerToken request <> Some key ->
        apikeys (kv_after r) !! key = apikeys kv !! key)).
  { intros ->. rewrite Hu, Hus. repeat split; auto. }
  assert (Hsettled : forall user modelId i o cost,
    auth = inr user ->
    (settlement r, kv_after r) = settle kv1 user modelId i o cost ->
    models (kv_after r) = models kv /\ channels (kv_after r) = channels kv
    /\ (forall other, (forall user, auth = inr user -> uid user <> other) ->
        users (kv_after r) !! other = users kv !! other
        /\ forall day, length day = length today ->
                   usage (kv_after r) !! (other, day) = usage kv !! (other, day))
    /\ (forall user day, auth = inr user -> length day = length today -> day <> today ->
        usage (kv_after r) !! (uid user, day) = usage kv !! (uid user, day))
    /\ (forall key, extractBearerToken request <> Some key ->
        apikeys (kv_after r) !! key = apikeys kv !! key)).
  { intros user modelId i o cost -> Hset. symmetry in Hset.
    destruct (settle_frame _ _ _ _ _ _ _ _ Hset) as (Hm' & Hc' & Hk' & Hu' & Hus' & _).
    split; [congruence|]. split; [congruence|]. split; [|split].
    - intros other Hother. specialize (Hother user eq_refl). split.
      + rewrite Hu' by congruence. now rewrite Hu.
      + intros day _. rewrite Hus' by congruence. now rewrite Hus.
    - intros user' day [= <-] _ Hday. rewrite Hus' by congruence. now rewrite Hus.
    - intros key Hkey. rewrite Hk'. now apply Hk. }
  destruct (handler_shape upstream request env kv kv1 auth Hauth)
    as [(_ & _ & Hkv & _)
       |(user & body & modelId & config & channel & call & Ha & _ & _ & _ & _ & _ & _
         & _ & _ & Hend)]; fold r in Hkv || fold r in Hend.
  - now apply Hsame.
  - destruct Hend as [(_ & _ & Hkv)|[(out & _ & _ & Hset)|(result & _ & _ & Hset)]].
    + now apply Hsame.
    + destruct (waitUntil env).
      * exact (Hsettled _ _ _ _ _ Ha Hset).
      * injection Hset as _ Hkv. now apply Hsame.
    + destruct Hset as [(_ & Hkv & _)|(i & o & _ & _ & Hset)].
      * now apply Hsame.
      * exact (Hsettled _ _ _ _ _ Ha Hset).
Qed.


(** X27. No operation on balances creates a debt: when no stored balance is
    negative, none is after a balance update, after a chat request, or
    after the completion of an order. *)
Theorem no_debt_created (kv : Store) :
  balances_nonneg kv ->
  (forall uid delta kv', updateBalance kv uid delta = Some kv' -> balances_nonneg kv')
  /\ (forall upstream request env,
        balances_nonneg (kv_after (handleChatCompletions upstream request env kv)))
  /\ (forall orders tradeNo,
        balances_nonneg
          (KV.kv (snd (completeOrder {| KV.kv := kv; orders := orders |} tradeNo)))).
Proof.
  intros Hnn. split; [|split].
  - intros uid delta kv'. now apply updateBalance_nonneg.
  - intros upstream request env.
    destruct (authenticateRequest request kv) as [auth kv1] eqn:Hauth.
    destruct (authenticateRequest_keeps _ _ _ _ Hauth) as (Hu & _).
    assert (Hnn1 : balances_nonneg kv1).
    { intros id u Hid. apply (Hnn id). now rewrite <- Hu. }
    assert (Hsettled : forall s kv' user modelId i o cost,
      (s, kv') = settle kv1 user modelId i o cost -> balances_nonneg kv').
    { intros s kv' user modelId i o cost Hset. symmetry in Hset.
      now apply (settle_frame _ _ _ _ _ _ _ _ Hset). }
    destruct (handler_shape upstream request env kv kv1 auth Hauth)
      as [(_ & _ & Hkv & _)
         |(user & body & modelId & config & channel & call & _ & _ & _ & _ & _ & _ & _
           & _ & _ & Hend)].
    + now rewrite Hkv.
    + destruct Hend as [(_ & _ & Hkv)|[(out & _ & _ & Hset)|(result & _ & _ & Hset)]].
      * now rewrite Hkv.
      * destruct (waitUntil env).
        -- exact (Hsettled _ _ _ _ _ _ _ Hset).
        -- injection Hset as _ Hkv. now rewrite Hkv.
      * destruct Hset as [(_ & Hkv & _)|(i & o & _ & _ & Hset)].
        -- now rewrite Hkv.
        -- exact (Hsettled _ _ _ _ _ _ _ Hset).
  - intros orders tradeNo. unfold completeOrder, getOrder. cbn [KV.kv KV.orders].
    repeat case_match; cbn [snd KV.kv]; try assumption.
    eapply updateBalance_nonneg; eassumption.
Qed.

(** X28. The event translator of the adapter yields at most one chunk for an
    event.  A chunk is the end marker or a completion chunk with a single
    choice of index 0, and its finish reason is never the vendor's
    [end_turn], which is rendered as [stop]. *)
Theorem transformAnthropicStream_yields (chunk : jsstring) (out : list value) :
  transformAnthropicStream chunk = Some out ->
  out = []
  \/ exists v, out = [v]
       /\ (v = VObj [(lit "done", VBool true)]
           \/ (prop (lit "object") v = str "chat.completion.chunk"
               /\ exists delta reason,
                    prop (lit "choices") v
                    = VArr [VObj [ (lit "index", VNum 0); (lit "delta", delta);
                                   (lit "finish_reason", reason) ]]
                    /\ reason <> str "end_turn")).
Proof.
  unfold transformAnthropicStream. intros Heq.
  destruct (JSON_parse chunk) as [data|]; [|discriminate]. cbn [mbind option_bind] in Heq.
  destruct (get "type" data) as [type|]; [|discriminate]. cbn [mbind option_bind] in Heq.
  destruct (is_str type "message_start").
  { destruct (get "id" (prop (lit "message") data)) as [id|]; [|discriminate].
    cbn [mbind option_bind] in Heq.
    destruct (get "model" (prop (lit "message") data)) as [m|]; [|discriminate].
    injection Heq as <-. right. eexists. split; [reflexivity|]. right.
    split; [reflexivity|]. eexists _, _. split; [reflexivity|]. discriminate. }
  destruct (is_str type "content_block_delta").
  { destruct (is_str (getq "type" (prop (lit "delta") data)) "text_delta");
      injection Heq as <-; [|now left].
    right. eexists. split; [reflexivity|]. right.
    split; [reflexivity|]. eexists _, _. split; [reflexivity|]. discriminate. }
  destruct (is_str type "message_delta").
  { injection Heq as <-. right. eexists. split; [reflexivity|]. right.
    split; [reflexivity|]. eexists _, _. split; [reflexivity|].
    destruct (is_str (getq "stop_reason" (prop (lit "delta") data)) "end_turn") eqn:Hs;
      [discriminate|].
    intros Heq. rewrite Heq in Hs. discriminate. }
  destruct (is_str type "message_stop"); injection Heq as <-; [|now left].
  right. eexists. split; [reflexivity|]. now left.
Qed.

(** X29. A channel whose provider type is none of the three supported ones
    makes the handler throw: the provider is created outside the [try]
    block, so the exception is not turned into the answer 502.  The balance
    check comes first, and nothing is dispatched or charged. *)
Theorem unsupported_provider_throws (upstream : Upstream) (request : Request)
  (env : Env) (kv kv1 : Store) (user : UserData) (body : Body)
  (modelId : jsstring) (config : ModelConfig) (channel : ChannelConfig) :
  authenticateRequest request kv = (inr user, kv1) ->
  json request = Some body ->
  model body = Some modelId -> modelId <> [] ->
  getModelConfig kv1 modelId = Some (config, channel) ->
  provider channel <> ProviderType.OPENAI ->
  provider channel <> ProviderType.ANTHROPIC ->
  provider channel <> ProviderType.GEMINI ->
  let estimatedCost := calculateCost config (estimateInputTokens body) 100 in
  let r := handleChatCompletions upstream request env kv in
  ((balance user < estimatedCost)%Q ->
   response r = errorResponse InsufficientBalance)
  /\ ((estimatedCost <= balance user)%Q ->
      response r = Uncaught /\ dispatched r = []
      /\ settlement r = NotAttempted /\ kv_after r = kv1).
Proof.
  intros Hauth Hjson Hmodel Hne Hcfg Ho Ha Hg estimatedCost r.
  assert (Hnone : createProvider channel = None).
  { unfold createProvider. apply streq_neq in Ho, Ha, Hg. now rewrite Ho, Ha, Hg. }
  subst r estimatedCost. unfold handleChatCompletions.
  rewrite Hauth, Hjson, Hmodel. destruct modelId as [|c modelId]; [congruence|].
  rewrite Hcfg. cbv zeta. split.
  - intros Hlt. apply Qltb_lt in Hlt. rewrite Hlt. reflexivity.
  - intros Hle. apply Qltb_ge in Hle. rewrite Hle, Hnone. cbn. auto.
Qed.

End Handler.

Lemma blocked_account_answered_401_witness :
  response (Examples.run (Examples.replies Examples.openai_reply) (Examples.hello false)
              Examples.blocked_store)
  = errorResponse InvalidApiKey.
Proof.
  refine (proj1 (blocked_account_answered_401 (H := Examples.platform)
            (Examples.replies Examples.openai_reply) (Examples.hello false) Examples.env
            Examples.blocked_store (lit "sk-test")
            {| key_uid := lit "u1"; key_enabled := true; last_used := 0 |}
            {| uid := lit "u1"; balance := 10; total_consumed := 0;
               is_blocked := true; updated_at := 0 |} _ _ _ _ _ _)).
  - vm_compute. reflexivity.
  - discriminate.
  - vm_compute. reflexivity.
  - reflexivity.
  - vm_compute. reflexivity.
  - reflexivity.
Defined.

Lemma error_answers_are_free_witness :
  users (kv_after (Examples.run (fun _ => Rejected) (Examples.hello false)
                     (Examples.store 10 Examples.gpt4o Examples.openai)))
  = users (Examples.store 10 Examples.gpt4o Examples.openai).
Proof.
  refine (proj1 (proj2 (error_answers_are_free (H := Examples.platform)
            (fun _ => Rejected) (Examples.hello false) Examples.env
            (Examples.store 10 Examples.gpt4o Examples.openai) _))).
  right. exists UpstreamError. vm_compute. reflexivity.
Defined.

Lemma vendor_called_at_most_once_witness :
  exists call,
    dispatched (Examples.run (Examples.replies Examples.openai_reply)
                  (Examples.hello false)
                  (Examples.store 10 Examples.gpt4o Examples.openai)) = [call].
Proof.
  destruct (dispatched (Examples.run (Examples.replies Examples.openai_reply)
                          (Examples.hello false)
                          (Examples.store 10 Examples.gpt4o Examples.openai)))
    as [|call rest] eqn:Hd.
  - vm_compute in Hd. discriminate.
  - exists call. rewrite <- Hd.
    refine (proj1 (vendor_called_at_most_once (H := Examples.platform)
              (Examples.replies Examples.openai_reply) (Examples.hello false)
              Examples.env (Examples.store 10 Examples.gpt4o Examples.openai) call _)).
    unfold Examples.run in Hd. rewrite Hd. left. reflexivity.
Defined.

Lemma charge_touches_only_the_caller_witness :
  models (kv_after (Examples.run (Examples.replies Examples.openai_reply)
                      (Examples.hello false)
                      (Examples.store 10 Examples.gpt4o Examples.openai)))
  = models (Examples.store 10 Examples.gpt4o Examples.openai).
Proof.
  exact (proj1 (charge_touches_only_the_caller (H := Examples.platform)
           (Examples.replies Examples.openai_reply) (Examples.hello false) Examples.env
           (Examples.store 10 Examples.gpt4o Examples.openai))).
Defined.


Lemma no_debt_created_witness :
  balances_nonneg
    (kv_after (Examples.run (Examples.replies Examples.openai_reply)
                 (Examples.hello false)
                 (Examples.store 10 Examples.gpt4o Examples.openai))).
Proof.
  exact (proj1 (proj2 (no_debt_created (H := Examples.platform)
                         (Examples.store 10 Examples.gpt4o Examples.openai)
                         store_nonneg))
           (Examples.replies Examples.openai_reply) (Examples.hello false) Examples.env).
Defined.

Lemma transformAnthropicStream_yields_witness :
  exists out,
    transformAnthropicStream (H := Examples.platform)
      (Examples.json_text "{'type':'message_delta','delta':{'stop_reason':'end_turn'},'usage':{'output_tokens':3}}")
    = Some out
    /\ (out = [] \/ exists v, out = [v]).
Proof.
  eexists. split; [vm_compute; reflexivity|].
  match goal with
  | |- ?out = [] \/ _ =>
      destruct (transformAnthropicStream_yields (H := Examples.platform)
                  (Examples.json_text "{'type':'message_delta','delta':{'stop_reason':'end_turn'},'usage':{'output_tokens':3}}")
                  out) as [Hnil|(v & Hv & _)]
  end.
  - vm_compute. reflexivity.
  - left. exact Hnil.
  - right. exists v. exact Hv.
Defined.

Lemma unsupported_provider_throws_witness :
  response (Examples.run (Examples.replies Examples.openai_reply) (Examples.hello false)
              (Examples.store 10 Examples.gpt4o (Examples.channel_of (lit "azure"))))
  = Uncaught.
Proof.
  refine (proj1 (proj2 (unsupported_provider_throws (H := Examples.platform)
            (Examples.replies Examples.openai_reply) (Examples.hello false) Examples.env
            (Examples.store 10 Examples.gpt4o (Examples.channel_of (lit "azure")))
            (Examples.stamped
               (Examples.store 10 Examples.gpt4o (Examples.channel_of (lit "azure"))))
            (Examples.alice 10)
            (Examples.request_body "gpt-4o" false [Examples.user_message "Hello!"])
            (lit "gpt-4o") Examples.gpt4o (Examples.channel_of (lit "azure"))
            _ _ _ _ _ _ _ _) _)).
  - vm_compute. reflexivity.
  - reflexivity.
  - reflexivity.
  - discriminate.
  - vm_compute. reflexivity.
  - discriminate.
  - discriminate.
  - discriminate.
  - vm_compute. discriminate.
Defined.
